(** * Data-Analytics: alumni survey and postgraduate reporting scripts

    A shallow embedding of the heuristics of the repository's scripts
    (egresados_posgrados.py, limpiar_csv_posgrados.py,
    egresados_posgrados_limpios.py, app.py, totalxano.py, programas.py)
    and the properties the specification states about them.

    Text.  A Python [str] is modelled as a list of characters over the
    Latin-1 alphabet: an [ascii] value is read as the code point of the same
    number (0..255).  The character classes below are Python's on those code
    points.  Two code points have an upper-case form outside of the alphabet
    (U+00B5 and U+00FF); [upper] leaves them in place, which no test of the
    scripts can tell apart: the keywords they look for are made of other
    characters, and where two texts are compared both went through [upper].

    Tables.  A cell of a [DataFrame] is [None] for NaN and [Some s] for a
    value whose [str()] is [s]. *)

From Stdlib Require Import ZArith List Bool Ascii String DecimalString Floats Uint63 Lia.
From Stdlib Require Import Sorted.
From stdpp Require Import base option list gmap strings.

Open Scope Z_scope.

(** ** Python's text primitives *)

Module Py.

Abbreviation str := (list ascii).

(** String literals are written as Rocq strings. *)
Definition lit (s : string) : str := list_ascii_of_string s.
Coercion lit : string >-> list.

Definition cp (c : ascii) : N := N_of_ascii c.

Definition in_range (lo hi : N) (c : ascii) : bool :=
  ((lo <=? cp c) && (cp c <=? hi))%N.

(** [c.isspace()], also the class [\s] of [re] on a [str] pattern. *)
Definition isspace_c (c : ascii) : bool :=
  in_range 9 13 c || in_range 28 32 c || (cp c =? 133)%N || (cp c =? 160)%N.

(** [c.isdigit()]: the decimal digits and the superscripts 1, 2, 3. *)
Definition isdigit_c (c : ascii) : bool :=
  in_range 48 57 c || (cp c =? 178)%N || (cp c =? 179)%N || (cp c =? 185)%N.

(** The class [\d] of [re], also what [int()] accepts as a digit. *)
Definition isdecimal_c (c : ascii) : bool := in_range 48 57 c.

(** [c.isalpha()]. *)
Definition isalpha_c (c : ascii) : bool :=
  in_range 65 90 c || in_range 97 122 c
  || (cp c =? 170)%N || (cp c =? 181)%N || (cp c =? 186)%N
  || in_range 192 214 c || in_range 216 246 c || in_range 248 255 c.

Definition shift_down (c : ascii) : ascii := ascii_of_N (cp c - 32).
Definition shift_up (c : ascii) : ascii := ascii_of_N (cp c + 32).

(** [c.upper()]; the sharp s becomes two letters. *)
Definition upper_c (c : ascii) : str :=
  if in_range 97 122 c || in_range 224 246 c || in_range 248 254 c
  then [shift_down c]
  else if (cp c =? 223)%N then ["S"; "S"]%char
  else [c].

(** [c.lower()]. *)
Definition lower_c (c : ascii) : ascii :=
  if in_range 65 90 c || in_range 192 214 c || in_range 216 222 c
  then shift_up c else c.

Definition upper (s : str) : str := flat_map upper_c s.
Definition lower (s : str) : str := map lower_c s.

(** [s.isdigit()]: false on the empty string. *)
Definition isdigit (s : str) : bool :=
  match s with [] => false | _ => forallb isdigit_c s end.

(** [any(c.isalpha() for c in s)]. *)
Definition any_alpha (s : str) : bool := existsb isalpha_c s.

Fixpoint lstrip (s : str) : str :=
  match s with
  | c :: s' => if isspace_c c then lstrip s' else s
  | [] => []
  end.

Definition rstrip (s : str) : str := rev (lstrip (rev s)).

(** [s.strip()]. *)
Definition strip (s : str) : str := rstrip (lstrip s).

Definition eqb (a b : str) : bool := bool_decide (a = b).

(** [s.startswith(p)]. *)
Fixpoint startswith (p s : str) : bool :=
  match p, s with
  | [], _ => true
  | a :: p', b :: s' => bool_decide (a = b) && startswith p' s'
  | _ :: _, [] => false
  end.

(** [sub in s]. *)
Fixpoint contains (sub s : str) : bool :=
  startswith sub s ||
  match s with
  | [] => false
  | _ :: s' => contains sub s'
  end.

(** [s.find(sub)], [None] for -1. *)
Fixpoint find (sub s : str) : option nat :=
  if startswith sub s then Some 0%nat
  else match s with
       | [] => None
       | _ :: s' => S <$> find sub s'
       end.

(** [s.split()]: the maximal runs of characters that are not white space.
    [cur] is the run being read. *)
Fixpoint split_go (cur : str) (s : str) : list str :=
  match s with
  | [] => match cur with [] => [] | _ => [cur] end
  | c :: s' =>
      if isspace_c c
      then match cur with [] => split_go [] s' | _ => cur :: split_go [] s' end
      else split_go (cur ++ [c]) s'
  end.

Definition split (s : str) : list str := split_go [] s.

(** [s.split(sep)] for a non-empty [sep]: [skip] counts the characters of
    a separator still to be passed over. *)
Fixpoint split_sep_go (sep : str) (skip : nat) (cur : str) (s : str)
  : list str :=
  match s with
  | [] => [cur]
  | c :: s' =>
      match skip with
      | S k => split_sep_go sep k cur s'
      | O =>
          if startswith sep s
          then cur :: split_sep_go sep (length sep - 1) [] s'
          else split_sep_go sep 0 (cur ++ [c]) s'
      end
  end.

Definition split_sep (sep s : str) : list str := split_sep_go sep 0 [] s.

(** [s.replace(old, new)] for a non-empty [old]. *)
Fixpoint replace_go (old new : str) (skip : nat) (s : str) : str :=
  match s with
  | [] => []
  | c :: s' =>
      match skip with
      | S k => replace_go old new k s'
      | O =>
          if startswith old s
          then new ++ replace_go old new (length old - 1) s'
          else c :: replace_go old new 0 s'
      end
  end.

Definition replace (old new s : str) : str := replace_go old new 0 s.

(** The value of a string of decimal digits. *)
Definition digit_val (c : ascii) : Z := Z.of_N (cp c) - 48.

Definition digits_val (s : str) : Z :=
  fold_left (fun acc c => 10 * acc + digit_val c) s 0.

(** [str(n)] of an integer. *)
Definition str_of_Z (n : Z) : str := lit (NilZero.string_of_int (Z.to_int n)).

(** A cell of a table: NaN or a value, given by its [str()]. *)
Definition cell := option str.

(** [str(v)] of a cell. *)
Definition str_of (v : cell) : str :=
  match v with Some s => s | None => lit "nan" end.

(** [s.capitalize()]: the first character in title case, the others in
    lower case; the title case of the sharp s is two letters. *)
Definition capitalize (s : str) : str :=
  match s with
  | [] => []
  | c :: s' =>
      (if (cp c =? 223)%N then ["S"; "s"]%char else upper_c c) ++ lower s'
  end.

End Py.

Import Py.

(** [sep.join(l)]. *)
Fixpoint join (sep : str) (l : list str) : str :=
  match l with
  | [] => []
  | [x] => x
  | x :: l' => x ++ sep ++ join sep l'
  end.

(** A row of a table read with [header=None]: pandas gives every row of a
    frame the same, positive number of columns, so a row has a first cell. *)
Record fila := mkFila { col0 : cell; cols : list cell }.

Definition valores (row : fila) : list cell := col0 row :: cols row.

(** The values of a row that are not NaN, in column order. *)
Definition presentes (row : fila) : list str := omap id (valores row).

(** [len(s) in [lo, hi]]. *)
Definition len_entre (lo hi : nat) (s : str) : bool :=
  ((lo <=? length s) && (length s <=? hi))%nat.

(** Some accented literals of the sources. *)
Definition RESOLUCION_acento : str := lit "RESOLUCI" ++ ["211"%char] ++ lit "N".
Definition Resolucion_acento : str := lit "Resoluci" ++ ["243"%char] ++ lit "n".
Definition Si : str := lit "S" ++ ["237"%char].
Definition No : str := lit "No".

(** What the specification calls a numeric identifier: only digits, 6 to 12
    characters. *)
Definition es_identificador (s : str) : bool := isdigit s && len_entre 6 12 s.

(** ** Reports: grouping and percentages *)

(** [sorted(x.unique())] and the sorted group keys of [groupby]: insertion
    into a strictly increasing list. *)
Fixpoint insertar_unico {A : Type} (ltb : A -> A -> bool) (x : A) (l : list A) : list A :=
  match l with
  | [] => [x]
  | y :: l' =>
      if ltb x y then x :: l
      else if ltb y x then y :: insertar_unico ltb x l'
      else l
  end.

Definition ordenar_unicos {A : Type} (ltb : A -> A -> bool) (l : list A) : list A :=
  fold_right (insertar_unico ltb) [] l.

(** The order of Python on strings: by code point, a prefix first. *)
Fixpoint str_ltb (a b : str) : bool :=
  match a, b with
  | _, [] => false
  | [], _ :: _ => true
  | x :: a', y :: b' =>
      if (cp x <? cp y)%N then true
      else if (cp y <? cp x)%N then false
      else str_ltb a' b'
  end.

(** Binary floating point, as in [numpy]: a count as a [float64], and
    [round(2)], which multiplies by 100, rounds to the nearest integer (ties
    to even) and divides by 100.  The rounding to an integer is written for
    the values that occur here, between 0 and 10000. *)
Definition float_of_nat (n : nat) : float :=
  PrimFloat.of_uint63 (Uint63.of_Z (Z.of_nat n)).

Definition rint (x : float) : float := ((x + 0x1p52) - 0x1p52)%float.

Definition round2 (x : float) : float := (rint (x * 100) / 100)%float.

(** [(egresados / total * 100).round(2)]. *)
Definition porcentaje (egresados total : nat) : float :=
  round2 (float_of_nat egresados / float_of_nat total * 100)%float.

(** [(x == 'Sí').sum()]. *)
Definition contar_si (l : list str) : nat := length (List.filter (eqb Si) l).

(** ** egresados_posgrados.py *)

Module EgresadosPosgrados.

(** [cargar_base_datos_egresados], from the frame that [read_csv] returned:
    its column names and, per row, the cell under each column. *)
Record tabla := mkTabla { columnas : list str; filas_tabla : list (list cell) }.

Definition es_columna_cedula (col : str) : bool :=
  let col_upper := strip (upper col) in
  contains (lit "IDENTIFICACI") col_upper
  || contains (lit "CEDULA") col_upper
  || contains (lit "DOCUMENTO") col_upper.

(** The position of the first column whose name passes the test. *)
Fixpoint buscar_columna (p : str -> bool) (cols : list str) : option nat :=
  match cols with
  | [] => None
  | c :: cols' => if p c then Some 0%nat else S <$> buscar_columna p cols'
  end.

(** [df[col].dropna()]: the cells of a column that are not NaN. *)
Definition columna_dropna (i : nat) (t : tabla) : list str :=
  omap (fun row => mjoin (row !! i)) (filas_tabla t).

Definition cargar_base_datos_egresados (df : tabla) : gset str :=
  match buscar_columna es_columna_cedula (columnas df) with
  | None => ∅
  | Some i =>
      fold_left
        (fun cedulas cedula =>
           let cedula_limpia := strip cedula in
           if negb (eqb cedula_limpia []) && negb (eqb (lower cedula_limpia) (lit "nan"))
           then cedulas ∪ {[ cedula_limpia ]}
           else cedulas)
        (columna_dropna i df) ∅
  end.

Definition extraer_codigo_programa (nombre_programa : cell) : option str :=
  match nombre_programa with
  | None => None
  | Some v =>
      let nombre_str := strip v in
      let partes := split nombre_str in
      match partes with
      | p0 :: _ => if isdigit p0 then Some p0 else None
      | [] => None
      end
  end.

(** The first of the four spellings that occurs in the text gives the cut. *)
Fixpoint primera_variante (variantes : list str) (nombre_str : str) : option nat :=
  match variantes with
  | [] => None
  | variante :: resto =>
      if contains variante nombre_str then find variante nombre_str
      else primera_variante resto nombre_str
  end.

Definition variantes_resolucion : list str :=
  [lit "RESOLUCION"; RESOLUCION_acento; lit "Resolucion"; Resolucion_acento].

Definition extraer_nombre_programa_limpio (nombre_programa : str) : str :=
  let nombre_str := strip nombre_programa in
  if contains (lit "RESOLUCION") (upper nombre_str)
     || contains RESOLUCION_acento (upper nombre_str)
  then
    match primera_variante variantes_resolucion nombre_str with
    | Some (S n) => rstrip (strip (take (S n) nombre_str))
    | _ => nombre_str
    end
  else nombre_str.

Record registro := mkRegistro {
  Año : Z;
  Programa_Codigo : option str;
  Programa_Nombre : str;
  Nombre : str;
  Identificacion : str;
  Es_Egresado_ULibre : str
}.

(** The loop state of [procesar_archivo_posgrados]. *)
Record estado := mkEstado {
  programa_actual : option str;
  resultados : list registro;
  estudiantes_vistos : gset str
}.

(** [s and len(s) >= 5 and s[:5].isdigit()]. *)
Definition empieza_con_codigo (s : str) : bool :=
  negb (eqb s []) && (5 <=? length s)%nat && isdigit (take 5 s).

Definition es_linea_programa (val_str : str) : bool :=
  (20 <? length val_str)%nat && isdigit (take 5 val_str)
  && existsb (fun palabra => contains palabra (upper val_str))
       [lit "ESPECIALIZACION"; lit "MAESTRIA"; lit "DOCTORADO"]
  && negb (contains (lit "RESOLUCION") (upper val_str))
  && negb (contains (lit "PENSUM") (upper val_str)).

(** The inner loop with [break]: the first value of the row that looks like
    a program line replaces the current program. *)
Fixpoint buscar_programa (vals : list cell) (programa : option str) : option str :=
  match vals with
  | [] => programa
  | None :: vals' => buscar_programa vals' programa
  | Some val :: vals' =>
      let val_str := strip val in
      if es_linea_programa val_str then Some val_str
      else buscar_programa vals' programa
  end.

Definition parece_nombre (valor_str : str) : bool :=
  (5 <? length valor_str)%nat
  && any_alpha valor_str
  && contains (lit " ") valor_str
  && negb (contains (lit "UNIVERSIDAD") (upper valor_str))
  && negb (contains (lit "Nombre") valor_str)
  && negb (contains (lit "Nivel") valor_str)
  && negb (contains (lit "Pensum") valor_str)
  && negb (contains (lit "Programa") valor_str)
  && negb (contains (lit "Periodo") valor_str)
  && negb (contains (lit "Facultad") valor_str).

Definition periodos : list str :=
  [lit "20211"; lit "20221"; lit "20231"; lit "20241"; lit "20251"].

Definition parece_cedula (valor_str : str) : bool :=
  isdigit valor_str && len_entre 6 12 valor_str
  && forallb (fun p => negb (eqb valor_str p)) periodos.

(** The values the scan classifies: numeric identifiers that are not one of
    the period literals. *)
Definition es_periodo (s : str) : bool := existsb (eqb s) periodos.

Definition candidatos (row : fila) : list str :=
  List.filter (fun s => es_identificador s && negb (es_periodo s))
    (map strip (presentes row)).

(** What the scan of a row has found so far. *)
Record hallazgo := mkHallazgo {
  nombre_encontrado : option str;
  cedula_encontrada : option str;
  codigo_encontrado : option str
}.

Definition hallazgo_vacio : hallazgo := mkHallazgo None None None.

Definition mirar_valor (h : hallazgo) (valor : cell) : hallazgo :=
  match valor with
  | None => h
  | Some v =>
      let valor_str := strip v in
      let h1 :=
        if parece_nombre valor_str
        then mkHallazgo (Some valor_str) (cedula_encontrada h) (codigo_encontrado h)
        else h in
      if parece_cedula valor_str then
        match cedula_encontrada h1, codigo_encontrado h1 with
        | None, _ => mkHallazgo (nombre_encontrado h1) (Some valor_str) (codigo_encontrado h1)
        | Some _, None => mkHallazgo (nombre_encontrado h1) (cedula_encontrada h1) (Some valor_str)
        | Some _, Some _ => h1
        end
      else h1
  end.

Definition escanear (row : fila) : hallazgo :=
  fold_left mirar_valor (valores row) hallazgo_vacio.

(** [f"{cedula_encontrada}_{programa_actual}"]. *)
Definition clave_unica (cedula : str) (programa : option str) : str :=
  cedula ++ lit "_" ++ match programa with Some p => p | None => lit "None" end.

(** Truth value of an optional string. *)
Definition verdadero (s : option str) : bool :=
  match s with Some (_ :: _) => true | _ => false end.

Definition nuevo_registro (año : Z) (programa : option str) (nombre cedula : str)
    (es_egresado : bool) : registro :=
  {| Año := año;
     Programa_Codigo :=
       if verdadero programa then extraer_codigo_programa programa
       else Some (lit "Sin_Codigo");
     Programa_Nombre :=
       match programa with
       | Some (c :: p) => extraer_nombre_programa_limpio (c :: p)
       | _ => lit "Sin_Programa"
       end;
     Nombre := nombre;
     Identificacion := cedula;
     Es_Egresado_ULibre := if es_egresado then Si else No |}.

(** One iteration of the loop over the rows. *)
Definition paso (cedulas_egresados : gset str) (año : Z) (st : estado) (row : fila)
  : estado :=
  let fila_str := strip (join (lit " ") (presentes row)) in
  let primera_col := match col0 row with Some v => strip v | None => [] end in
  let segunda_col :=
    match cols row with Some v :: _ => strip v | _ => [] end in
  if empieza_con_codigo primera_col then
    mkEstado (Some primera_col) (resultados st) (estudiantes_vistos st)
  else if empieza_con_codigo segunda_col then
    mkEstado (Some segunda_col) (resultados st) (estudiantes_vistos st)
  else
    let programa := buscar_programa (valores row) (programa_actual st) in
    let st1 := mkEstado programa (resultados st) (estudiantes_vistos st) in
    if contains (lit "Nombre") fila_str && contains (lit "Identificaci") fila_str
    then st1
    else if negb (eqb primera_col [])
            && (contains (lit "Pensum") primera_col
                || contains (lit "RESOLUCION") (upper primera_col))
    then st1
    else
      let h := escanear row in
      match nombre_encontrado h, cedula_encontrada h with
      | Some (n :: nombre), Some (c :: cedula) =>
          let clave := clave_unica (c :: cedula) programa in
          if bool_decide (clave ∈ estudiantes_vistos st) then st1
          else
            let es_egresado := bool_decide ((c :: cedula) ∈ cedulas_egresados) in
            mkEstado programa
              (resultados st ++
                 [nuevo_registro año programa (n :: nombre) (c :: cedula) es_egresado])
              (estudiantes_vistos st ∪ {[ clave ]})
      | _, _ => st1
      end.



Definition estado_inicial : estado := mkEstado None [] ∅.

Definition recorrer (cedulas_egresados : gset str) (año : Z) (df : list fila) : estado :=
  fold_left (paso cedulas_egresados año) df estado_inicial.

(** [procesar_archivo_posgrados], from the frame that was read. *)
Definition procesar_archivo_posgrados (df : list fila) (cedulas_egresados : gset str)
    (año : Z) : list registro :=
  resultados (recorrer cedulas_egresados año df).

(** [generar_reportes]: the summary of one year, a row per program code.
    [groupby] leaves out the records without a code. *)
Record resumen := mkResumen {
  r_Año : Z;
  Codigo_Programa : str;
  Nombre_Programa : str;
  Total_Estudiantes : nat;
  Egresados_ULibre : nat;
  Porcentaje : float
}.

(** [df_completo[df_completo['Año'] == año]]. *)
Definition del_año (año : Z) (df : list registro) : list registro :=
  List.filter (fun x => Z.eqb (Año x) año) df.

(** The rows of a group of [groupby(['Programa_Codigo'])]. *)
Definition grupo (codigo : str) (df : list registro) : list registro :=
  List.filter (fun x => bool_decide (Programa_Codigo x = Some codigo)) df.

Definition codigos (df : list registro) : list str :=
  ordenar_unicos str_ltb (omap Programa_Codigo df).

Definition años (df : list registro) : list Z :=
  ordenar_unicos Z.ltb (map Año df).

Definition resumir (año : Z) (codigo : str) (g : list registro) : resumen :=
  let total := length g in
  let egresados := contar_si (map Es_Egresado_ULibre g) in
  {| r_Año := año;
     Codigo_Programa := codigo;
     Nombre_Programa := default [] (head (map Programa_Nombre g));
     Total_Estudiantes := total;
     Egresados_ULibre := egresados;
     Porcentaje := porcentaje egresados total |}.

(** The file of one year, [egresados_posgrados_{año}.csv]. *)
Definition resumen_año (df_completo : list registro) (año : Z) : list resumen :=
  let df_año := del_año año df_completo in
  map (fun codigo => resumir año codigo (grupo codigo df_año)) (codigos df_año).

(** [consolidado_todos_los_años.csv]: [groupby(['Año', 'Programa_Codigo'])],
    the groups in the order of the year, then of the code. *)
Definition consolidado (df_completo : list registro) : list resumen :=
  flat_map (resumen_año df_completo) (años df_completo).

(** The loop of [main] over the years: the files that exist, each with its
    year, and the records of all of them, one file after the other. *)
Definition procesar_años (archivos : list (Z * list fila)) (cedulas_egresados : gset str)
  : list registro :=
  fold_left
    (fun todos_resultados (x : Z * list fila) =>
       todos_resultados ++ procesar_archivo_posgrados (snd x) cedulas_egresados (fst x))
    archivos [].

(** A small data base and a small file of the shape the script reads: a
    program line, then student rows, one of them twice. *)
Definition bdd_ejemplo : tabla :=
  mkTabla [lit "No"; lit " Identificacion "; lit "TITULO"]
    [ [Some (lit "1"); Some (lit " 1088123456 "); Some (lit "ABOGADO")];
      [Some (lit "2"); None; Some (lit "CONTADOR")];
      [Some (lit "3"); Some (lit "NaN"); Some (lit "CONTADOR")];
      [Some (lit "4"); Some (lit "42111222"); Some (lit "CONTADOR")] ].

Definition fila_perez : fila :=
  mkFila None [Some (lit "PEREZ GOMEZ JUAN"); None; Some (lit "1088123456");
               Some (lit "202110345")].

Definition fila_lopez : fila :=
  mkFila None [Some (lit "LOPEZ ANA MARIA"); None; Some (lit "30303030");
               Some (lit "202110346")].

Definition df_ejemplo : list fila :=
  [ mkFila (Some (lit "Programa")) [Some (lit "32101 ESPECIALIZACION EN DERECHO PENAL")];
    fila_perez; fila_lopez; fila_perez ].

Definition df_codigo_largo : list fila :=
  [ mkFila (Some (lit "321012 ESPECIALIZACION EN DERECHO PENAL")) [];
    fila_perez ].

Definition registro_perez : registro :=
  {| Año := 2021;
     Programa_Codigo := Some (lit "32101");
     Programa_Nombre := lit "32101 ESPECIALIZACION EN DERECHO PENAL";
     Nombre := lit "PEREZ GOMEZ JUAN";
     Identificacion := lit "1088123456";
     Es_Egresado_ULibre := Si |}.

Definition registro_lopez : registro :=
  {| Año := 2021;
     Programa_Codigo := Some (lit "32101");
     Programa_Nombre := lit "32101 ESPECIALIZACION EN DERECHO PENAL";
     Nombre := lit "LOPEZ ANA MARIA";
     Identificacion := lit "30303030";
     Es_Egresado_ULibre := No |}.


(** The fourth report, [resumen_general_por_año.csv]: [groupby('Año')], a
    row per year. *)
Record resumen_general := mkResumenGeneral {
  g_Año : Z;
  g_Total_Estudiantes : nat;
  g_Egresados_ULibre : nat;
  g_Porcentaje : float
}.

Definition resumen_año_general (df_completo : list registro) : list resumen_general :=
  map (fun año =>
         let g := del_año año df_completo in
         let total := length g in
         let egresados := contar_si (map Es_Egresado_ULibre g) in
         {| g_Año := año;
            g_Total_Estudiantes := total;
            g_Egresados_ULibre := egresados;
            g_Porcentaje := porcentaje egresados total |})
      (años df_completo).


End EgresadosPosgrados.

(** ** limpiar_csv_posgrados.py *)

Module LimpiarCsv.

Definition extraer_codigo_programa (texto : cell) : option str :=
  match texto with
  | None => None
  | Some v =>
      let texto_str := strip v in
      let palabras := split texto_str in
      List.find (fun palabra => isdigit palabra && (length palabra =? 5)%nat) palabras
  end.

(** [s.split(maxsplit=1)]: the first word and, when there is one, the rest
    of the text after the white space that follows it. *)
Fixpoint hasta_espacio (s : str) : str * str :=
  match s with
  | [] => ([], [])
  | c :: s' =>
      if isspace_c c then ([], s)
      else let '(w, r) := hasta_espacio s' in (c :: w, r)
  end.

Definition split_max1 (s : str) : list str :=
  match lstrip s with
  | [] => []
  | t =>
      let '(w, r) := hasta_espacio t in
      match lstrip r with
      | [] => [w]
      | r' => [w; r']
      end
  end.

(** The loop over the spellings, with its [break] once a cut was made. *)
Fixpoint cortar_resolucion (variantes : list str) (texto_str : str) : str :=
  match variantes with
  | [] => texto_str
  | variante :: resto =>
      if contains variante (upper texto_str) then
        match find (upper variante) (upper texto_str) with
        | Some (S n) => strip (take (S n) texto_str)
        | _ => cortar_resolucion resto texto_str
        end
      else cortar_resolucion resto texto_str
  end.

Definition limpiar_nombre_programa (texto : cell) : str :=
  match texto with
  | None => []
  | Some v =>
      let texto_str := strip v in
      let texto_str :=
        match split_max1 texto_str with
        | [p0; p1] =>
            if isdigit p0 && (length p0 =? 5)%nat then p1 else texto_str
        | _ => texto_str
        end in
      strip (cortar_resolucion EgresadosPosgrados.variantes_resolucion texto_str)
  end.

Record registro := mkRegistro {
  Año : Z;
  Facultad : str;
  Codigo_Programa : str;
  Nombre_Programa : str;
  Nombre_Estudiante : str;
  Cedula : str;
  Codigo_Estudiante : str;
  Grupo : str
}.

Record estado := mkEstado {
  registros : list registro;
  facultad_actual : str;
  programa_codigo : option str;
  programa_nombre : str
}.

Record hallazgo := mkHallazgo {
  cedula_encontrada : option str;
  codigo_encontrado : option str;
  grupo_encontrado : option str
}.

Definition hallazgo_vacio : hallazgo := mkHallazgo None None None.

Definition parece_cedula (valor_str : str) : bool :=
  isdigit valor_str && len_entre 6 12 valor_str.

Definition parece_grupo (valor_str : str) : bool :=
  isdigit valor_str && len_entre 1 3 valor_str.

(** [row.fillna('')] turns NaN into the empty string. *)
Definition fillna (v : cell) : str := match v with Some s => s | None => [] end.

Definition mirar_valor (h : hallazgo) (valor : cell) : hallazgo :=
  let valor_str := strip (fillna valor) in
  let h1 :=
    if parece_cedula valor_str then
      match cedula_encontrada h, codigo_encontrado h with
      | None, _ => mkHallazgo (Some valor_str) (codigo_encontrado h) (grupo_encontrado h)
      | Some _, None => mkHallazgo (cedula_encontrada h) (Some valor_str) (grupo_encontrado h)
      | Some _, Some _ => h
      end
    else h in
  if parece_grupo valor_str
  then mkHallazgo (cedula_encontrada h1) (codigo_encontrado h1) (Some valor_str)
  else h1.

Definition escanear (row : fila) : hallazgo :=
  fold_left mirar_valor (valores row) hallazgo_vacio.

(** The values the scan classifies, after [fillna] and [strip]. *)
Definition candidatos (row : fila) : list str :=
  List.filter es_identificador (map (fun v => strip (fillna v)) (valores row)).

(** [x or '']. *)
Definition o_vacio (x : option str) : str := default [] x.

Definition es_miembro (s : str) (l : list str) : bool := existsb (eqb s) l.

(** One iteration of the loop over the rows. *)
Definition paso (año : Z) (st : estado) (row : fila) : estado :=
  let primera_col := strip (fillna (col0 row)) in
  let segunda_col :=
    match cols row with v :: _ => strip (fillna v) | [] => [] end in
  if eqb primera_col (lit "Facultad") then
    mkEstado (registros st) segunda_col (programa_codigo st) (programa_nombre st)
  else if eqb primera_col (lit "Programa") then
    mkEstado (registros st) (facultad_actual st)
      (extraer_codigo_programa (Some segunda_col))
      (limpiar_nombre_programa (Some segunda_col))
  else if es_miembro primera_col [lit "Pensum"; lit "Nivel"; lit "Nombre"; []] then st
  else if contains (lit "RESOLUCION") (upper primera_col)
          || contains RESOLUCION_acento (upper primera_col) then st
  else
    let nombre_estudiante := primera_col in
    if (length nombre_estudiante <=? 5)%nat then st
    else if negb (any_alpha nombre_estudiante) then st
    else if es_miembro (upper nombre_estudiante)
              [lit "NIVEL"; lit "NOMBRE"; lit "FACULTAD"; lit "PROGRAMA"; lit "PENSUM"]
    then st
    else
      let h := escanear row in
      match cedula_encontrada h with
      | Some (c :: cedula) =>
          if (length (c :: cedula) <? 6)%nat then st
          else
            mkEstado
              (registros st ++
                 [ {| Año := año;
                      Facultad := facultad_actual st;
                      Codigo_Programa := o_vacio (programa_codigo st);
                      Nombre_Programa := programa_nombre st;
                      Nombre_Estudiante := nombre_estudiante;
                      Cedula := c :: cedula;
                      Codigo_Estudiante := o_vacio (codigo_encontrado h);
                      Grupo := o_vacio (grupo_encontrado h) |} ])
              (facultad_actual st) (programa_codigo st) (programa_nombre st)
      | _ => st
      end.

Definition estado_inicial : estado := mkEstado [] [] (Some []) [].

(** [procesar_archivo_posgrados], from the frame that was read. *)
Definition procesar_archivo_posgrados (df : list fila) (año : Z) : list registro :=
  registros (fold_left (paso año) df estado_inicial).

(** A small file of the shape the script reads: the two header rows, the
    row of column titles and a student row. *)
Definition fila_facultad_ejemplo : fila :=
  mkFila (Some (lit "Facultad")) [Some (lit "DERECHO")].

Definition fila_programa_ejemplo : fila :=
  mkFila (Some (lit "Programa"))
    [Some (lit "32101 ESPECIALIZACION EN DERECHO PENAL RESOLUCION 123")].

Definition fila_titulos_ejemplo : fila :=
  mkFila (Some (lit "Nombre")) [None; Some (lit "Identificacion")].

Definition fila_estudiante_ejemplo : fila :=
  mkFila (Some (lit " PEREZ GOMEZ JUAN "))
    [None; Some (lit "1088123456"); Some (lit "202110345"); Some (lit "1")].

Definition registro_ejemplo : registro :=
  {| Año := 2021;
     Facultad := lit "DERECHO";
     Codigo_Programa := lit "32101";
     Nombre_Programa := lit "ESPECIALIZACION EN DERECHO PENAL";
     Nombre_Estudiante := lit "PEREZ GOMEZ JUAN";
     Cedula := lit "1088123456";
     Codigo_Estudiante := lit "202110345";
     Grupo := lit "1" |}.

End LimpiarCsv.

(** ** extraer_programas_y_fechas (programas.py and totalxano.py, same text) *)

Module Programas.

Record programa_info := mkInfo {
  programa : str;
  año : Z;
  fecha_completa : str
}.

(** The three groups of a match: year, month, day. *)
Definition grupos : Type := str * str * str.

(** One literal character of the pattern. *)
Definition quitar (c : ascii) (s : str) : option str :=
  match s with
  | x :: s' => if bool_decide (x = c) then Some s' else None
  | [] => None
  end.

(** [\d{n}]. *)
Definition tomar_digitos (n : nat) (s : str) : option (str * str) :=
  if (n <=? length s)%nat && forallb isdecimal_c (take n s)
  then Some (take n s, drop n s) else None.

(** The pattern [\(\s*(\d{4})-(\d{2})-(\d{2})\s*\)] at the start of [s]: the
    groups and the text after the match.  White space and the character that
    must follow it exclude each other, so the greedy [\s*] never gives back. *)
Definition fecha_al_inicio (s : str) : option (grupos * str) :=
  s1 ← quitar "(" s;
  '(a, s2) ← tomar_digitos 4 (lstrip s1);
  s3 ← quitar "-" s2;
  '(m, s4) ← tomar_digitos 2 s3;
  s5 ← quitar "-" s4;
  '(d, s6) ← tomar_digitos 2 s5;
  s7 ← quitar ")" (lstrip s6);
  Some ((a, m, d), s7).

(** [re.findall]: the matches from left to right, the search resuming after
    the end of each match; [skip] counts the characters of the last match
    that are still to be passed over. *)
Fixpoint findall_go (skip : nat) (s : str) : list grupos :=
  match s with
  | [] => []
  | _ :: s' =>
      match skip with
      | S k => findall_go k s'
      | O =>
          match fecha_al_inicio s with
          | Some (g, resto) => g :: findall_go (length s' - length resto) s'
          | None => findall_go 0 s'
          end
      end
  end.

Definition findall_fecha (s : str) : list grupos := findall_go 0 s.

(** [re.match(r'^([^(]+)', parte)]: the text before the first parenthesis,
    when it is not empty. *)
Fixpoint antes_de_parentesis (s : str) : str :=
  match s with
  | [] => []
  | c :: s' => if bool_decide (c = "("%char) then [] else c :: antes_de_parentesis s'
  end.

Definition match_programa (parte : str) : option str :=
  match antes_de_parentesis parte with
  | [] => None
  | pre => Some pre
  end.

(** The body of the loop over the parts: the entry a part contributes. *)
Definition info_de_parte (parte : str) : option programa_info :=
  match last (findall_fecha parte) with
  | None => None
  | Some (a, mes, dia) =>
      let año := digits_val a in
      if (2021 <=? año) && (año <=? 2025) then
        match match_programa parte with
        | Some grupo =>
            Some {| programa := strip grupo;
                    año := año;
                    fecha_completa := str_of_Z año ++ lit "-" ++ mes ++ lit "-" ++ dia |}
        | None => None
        end
      else None
  end.

Definition extraer_programas_y_fechas (programa_str : cell) : list programa_info :=
  match programa_str with
  | None => []
  | Some s =>
      if eqb s [] then []
      else
        fold_left
          (fun programas_info parte =>
             match info_de_parte parte with
             | Some info => programas_info ++ [info]
             | None => programas_info
             end)
          (split_sep (lit " - ") s) []
  end.

(** The shape [(YYYY-MM-DD)] in words: a parenthesis, white space, four
    digits, a dash, two digits, a dash, two digits, white space and the
    closing parenthesis. *)
Definition es_fecha_entre_parentesis (t : str) (g : grupos) : Prop :=
  let '(a, m, d) := g in
  exists w1 w2 : str,
    t = lit "(" ++ w1 ++ a ++ lit "-" ++ m ++ lit "-" ++ d ++ w2 ++ lit ")" /\
    forallb isspace_c w1 = true /\ forallb isspace_c w2 = true /\
    length a = 4%nat /\ forallb isdecimal_c a = true /\
    length m = 2%nat /\ forallb isdecimal_c m = true /\
    length d = 2%nat /\ forallb isdecimal_c d = true.

(** A text contains a parenthesized date. *)
Definition hay_fecha (s : str) : Prop :=
  exists pre t post g, s = pre ++ t ++ post /\ es_fecha_entre_parentesis t g.

(** The last parenthesized date of a text: no other one follows it. *)
Definition ultima_fecha (s : str) (g : grupos) : Prop :=
  exists pre t post,
    s = pre ++ t ++ post /\ es_fecha_entre_parentesis t g /\ ~ hay_fecha post.

Definition info_ejemplo : programa_info :=
  {| programa := lit "DERECHO"; año := 2023; fecha_completa := lit "2023-06-30" |}.

End Programas.

(** ** egresados_posgrados_limpios.py *)

Module EgresadosLimpios.

(** [int(x)] of a text: white space around, a sign, decimal digits, single
    underscores between digits. *)
Fixpoint digitos_de_int (tras_digito : bool) (s : str) : option str :=
  match s with
  | [] => if tras_digito then Some [] else None
  | c :: s' =>
      if isdecimal_c c then cons c <$> digitos_de_int true s'
      else if bool_decide (c = "_"%char) && tras_digito then digitos_de_int false s'
      else None
  end.

Definition int_de_str (s : str) : option Z :=
  match strip s with
  | "-"%char :: r => (fun d => - digits_val d) <$> digitos_de_int false r
  | "+"%char :: r => digits_val <$> digitos_de_int false r
  | r => digits_val <$> digitos_de_int false r
  end.

(** [int(v)] of a cell; NaN raises, like a text that is not a number. *)
Definition int_de (v : cell) : option Z := v ≫= int_de_str.

(** The year of a graduation date, [DD/MM/YYYY] or [YYYY-MM-DD]; [None] when
    the text has another shape or the year is not a number. *)
Definition extraer_año_grado (fecha_str : str) : option Z :=
  if contains (lit "/") fecha_str then
    let partes := split_sep (lit "/") fecha_str in
    if (length partes =? 3)%nat then last partes ≫= int_de_str else None
  else if contains (lit "-") fecha_str then
    let partes := split_sep (lit "-") fecha_str in
    if (length partes =? 3)%nat then head partes ≫= int_de_str else None
  else None.

(** The titles of a graduate: title and year of graduation, when known. *)
Definition titulos : Type := list (str * option Z).

(** The columns the loader looks for: for the identity number and the date
    the last column that passes the test, for the title the first one. *)
Record columnas_bdd := mkColumnas {
  columna_cedula : option nat;
  columna_titulo : option nat;
  columna_fecha : option nat
}.

Definition mirar_columna (c : columnas_bdd) (icol : nat * str) : columnas_bdd :=
  let '(i, col) := icol in
  let col_upper := strip (upper col) in
  let c1 :=
    if contains (lit "IDENTIFICACI") col_upper || contains (lit "CEDULA") col_upper
       || contains (lit "DOCUMENTO") col_upper
    then mkColumnas (Some i) (columna_titulo c) (columna_fecha c) else c in
  let c2 :=
    if contains (lit "TITULO") col_upper || contains (lit "PROGRAMA") col_upper
       || contains (lit "CARRERA") col_upper
    then match columna_titulo c1 with
         | None => mkColumnas (columna_cedula c1) (Some i) (columna_fecha c1)
         | Some _ => c1
         end
    else c1 in
  if contains (lit "FECHA") col_upper && contains (lit "GRADO") col_upper
  then mkColumnas (columna_cedula c2) (columna_titulo c2) (Some i) else c2.

Definition buscar_columnas (cols : list str) : columnas_bdd :=
  fold_left mirar_columna (imap (fun i col => (i, col)) cols) (mkColumnas None None None).

(** [str(row[col])] of the cell of a row under a column. *)
Definition celda (row : list cell) (i : nat) : str := str_of (mjoin (row !! i)).

Definition es_vacio_o_nan (s : str) : bool := eqb s [] || eqb (lower s) (lit "nan").

Definition cargar_fila (c_cedula c_titulo : nat) (c_fecha : option nat)
    (egresados_detalle : gmap str titulos) (row : list cell) : gmap str titulos :=
  let cedula := strip (celda row c_cedula) in
  let titulo := upper (strip (celda row c_titulo)) in
  if es_vacio_o_nan cedula then egresados_detalle
  else if es_vacio_o_nan titulo then egresados_detalle
  else
    let año_grado :=
      match c_fecha with
      | Some i => extraer_año_grado (strip (celda row i))
      | None => None
      end in
    let previos := default [] (egresados_detalle !! cedula) in
    let registro := (titulo, año_grado) in
    if bool_decide (registro ∈ previos)
    then <[cedula := previos]> egresados_detalle
    else <[cedula := previos ++ [registro]]> egresados_detalle.

Definition cargar_base_datos_egresados_detallada (df : EgresadosPosgrados.tabla)
  : gmap str titulos :=
  let c := buscar_columnas (EgresadosPosgrados.columnas df) in
  match columna_cedula c, columna_titulo c with
  | Some c_cedula, Some c_titulo =>
      fold_left (cargar_fila c_cedula c_titulo (columna_fecha c))
        (EgresadosPosgrados.filas_tabla df) ∅
  | _, _ => ∅
  end.

Definition MAESTRIA_acento : str := lit "MAESTR" ++ ["205"%char] ++ lit "A".

Definition extraer_tipo_y_nombre_programa (codigo_programa nombre_programa : str)
  : option str * str :=
  let nombre_upper := strip (upper nombre_programa) in
  let tipo :=
    if contains (lit "ESPECIALIZACION") nombre_upper || startswith (lit "32") codigo_programa
    then Some (lit "ESPECIALIZACION")
    else if contains (lit "MAESTRIA") nombre_upper || contains MAESTRIA_acento nombre_upper
            || startswith (lit "34") codigo_programa
    then Some (lit "MAESTRIA")
    else if contains (lit "DOCTORADO") nombre_upper then Some (lit "DOCTORADO")
    else None in
  (tipo, nombre_upper).

(** The test of the loop body: the title names the current program. *)
Definition es_mismo_programa (tipo_actual : option str) (nombre_actual titulo : str)
  : bool :=
  let titulo_upper := strip (upper titulo) in
  match tipo_actual with
  | Some tipo =>
      if contains tipo titulo_upper then
        let nombre_en_titulo :=
          strip (replace (lit "EN") [] (replace tipo [] titulo_upper)) in
        let nombre_actual_limpio :=
          strip (replace (lit "EN") [] (replace tipo [] nombre_actual)) in
        contains nombre_en_titulo nombre_actual_limpio
        || contains nombre_actual_limpio nombre_en_titulo
      else false
  | None => false
  end.

(** The graduation is known and earlier than the year of enrolment; a year
    of enrolment that is not a number makes the comparison fail. *)
Definition fecha_es_anterior (año_grado : option Z) (año_cursando : cell) : bool :=
  match año_grado with
  | None => false
  | Some y =>
      match int_de año_cursando with
      | Some año_cursando_int => y <? año_cursando_int
      | None => false
      end
  end.

(** [f"{titulo} ({año_grado})"]. *)
Definition titulo_con_año (titulo : str) (año_grado : option Z) : str :=
  titulo ++ lit " (" ++
  match año_grado with Some y => str_of_Z y | None => lit "None" end ++ lit ")".

Definition verificar_egresado_otro_programa (cedula : str) (año_cursando : cell)
    (codigo_programa_actual nombre_programa_actual : str)
    (egresados_detalle : gmap str titulos) : bool * list str :=
  match egresados_detalle !! cedula with
  | None => (false, [])
  | Some titulos_con_fecha =>
      let '(tipo_actual, nombre_actual) :=
        extraer_tipo_y_nombre_programa codigo_programa_actual nombre_programa_actual in
      let programas_diferentes :=
        fold_left
          (fun acc (t : str * option Z) =>
             let '(titulo, año_grado) := t in
             if negb (es_mismo_programa tipo_actual nombre_actual titulo)
                && fecha_es_anterior año_grado año_cursando
             then acc ++ [titulo_con_año titulo año_grado]
             else acc)
          titulos_con_fecha [] in
      ((0 <? length programas_diferentes)%nat, programas_diferentes)
  end.

(** A row of a clean file, read with [dtype=str]. *)
Record fila_limpia := mkFilaLimpia {
  l_Año : cell;
  l_Cedula : cell;
  l_Codigo_Programa : cell;
  l_Nombre_Programa : cell;
  l_Nombre_Estudiante : cell
}.

Record registro := mkRegistro {
  Año : cell;
  Programa_Codigo : str;
  Programa_Nombre : str;
  Nombre : str;
  Identificacion : str;
  Es_Egresado_ULibre : str;
  Programas_Previos : str
}.

Definition procesar_fila (egresados_detalle : gmap str titulos) (row : fila_limpia)
  : registro :=
  let año := l_Año row in
  let cedula := strip (str_of (l_Cedula row)) in
  let codigo_programa := strip (str_of (l_Codigo_Programa row)) in
  let nombre_programa := strip (str_of (l_Nombre_Programa row)) in
  let nombre_estudiante := strip (str_of (l_Nombre_Estudiante row)) in
  let '(es_egresado, programas_previos) :=
    verificar_egresado_otro_programa cedula año codigo_programa nombre_programa
      egresados_detalle in
  {| Año := año;
     Programa_Codigo := codigo_programa;
     Programa_Nombre := nombre_programa;
     Nombre := nombre_estudiante;
     Identificacion := cedula;
     Es_Egresado_ULibre := if es_egresado then Si else No;
     Programas_Previos := join (lit " | ") programas_previos |}.

Definition procesar_archivo_limpio (df : list fila_limpia)
    (egresados_detalle : gmap str titulos) : list registro :=
  map (procesar_fila egresados_detalle) df.

(** [generar_reportes]: the summary of one year, a row per program code. *)
Record resumen := mkResumen {
  Codigo_Programa : str;
  Nombre_Programa : str;
  Total_Estudiantes : nat;
  Egresados_ULibre : nat;
  No_Egresados : nat;
  Porcentaje : float
}.

Definition del_año (año : str) (df : list registro) : list registro :=
  List.filter (fun x => bool_decide (Año x = Some año)) df.

Definition grupo (codigo : str) (df : list registro) : list registro :=
  List.filter (fun x => eqb (Programa_Codigo x) codigo) df.

Definition codigos (df : list registro) : list str :=
  ordenar_unicos str_ltb (map Programa_Codigo df).

(** The years of the frame, for frames in which every row has one, as the
    files written by limpiar_csv_posgrados.py have. *)
Definition años (df : list registro) : list str :=
  ordenar_unicos str_ltb (omap Año df).

Definition resumir (codigo : str) (g : list registro) : resumen :=
  let total := length g in
  let egresados := contar_si (map Es_Egresado_ULibre g) in
  {| Codigo_Programa := codigo;
     Nombre_Programa := default [] (head (map Programa_Nombre g));
     Total_Estudiantes := total;
     Egresados_ULibre := egresados;
     No_Egresados := total - egresados;
     Porcentaje := porcentaje egresados total |}.

Definition resumen_año (df_completo : list registro) (año : str) : list resumen :=
  let df_año := del_año año df_completo in
  map (fun codigo => resumir codigo (grupo codigo df_año)) (codigos df_año).

(** The consolidated file: the summaries of the years, one after the other,
    each row with its year. *)
Definition consolidado (df_completo : list registro) : list (str * resumen) :=
  flat_map (fun año => map (pair año) (resumen_año df_completo año)) (años df_completo).

(** A small data base with titles and dates of graduation. *)
Definition bdd_detallada_ejemplo : EgresadosPosgrados.tabla :=
  EgresadosPosgrados.mkTabla
    [lit "IDENTIFICACION"; lit "TITULO OBTENIDO"; lit "FECHA DE GRADO"]
    [ [Some (lit "1088123456"); Some (lit "Especializacion en Derecho Penal");
       Some (lit "12/12/2015")];
      [Some (lit "1088123456"); Some (lit "Abogado"); Some (lit "2012-06-30")];
      [Some (lit "1088123456"); Some (lit "Contador Publico"); Some (lit "junio de 2010")];
      [Some (lit "1088123456"); Some (lit "Abogado"); Some (lit "2012-06-30")];
      [None; Some (lit "Abogado"); Some (lit "2012-06-30")];
      [Some (lit "1088123456"); Some (lit "Magister en Derecho"); Some (lit "01/02/2023")] ].

(** A graduate with two titles, a student of the specialization the first
    title names. *)
Definition detalle_ejemplo : gmap str titulos :=
  {[ lit "1088123456" :=
       [ (lit "ESPECIALIZACION EN DERECHO PENAL", Some 2015);
         (lit "ABOGADO", Some 2012);
         (lit "CONTADOR PUBLICO", None);
         (lit "MAGISTER EN DERECHO", Some 2023) ] ]}.

(** [resumen_general_por_año.csv]: a row per year. *)
Record resumen_general := mkResumenGeneral {
  g_Año : str;
  g_Total_Estudiantes : nat;
  g_Egresados_ULibre : nat;
  g_Solo_Estudiantes : nat;
  g_Porcentaje_Egresados : float
}.

Definition resumen_general_por_año (df_completo : list registro) : list resumen_general :=
  map (fun año =>
         let df_año := del_año año df_completo in
         let total := length df_año in
         let egresados := contar_si (map Es_Egresado_ULibre df_año) in
         {| g_Año := año;
            g_Total_Estudiantes := total;
            g_Egresados_ULibre := egresados;
            g_Solo_Estudiantes := total - egresados;
            g_Porcentaje_Egresados :=
              if (0 <? total)%nat then porcentaje egresados total else 0%float |})
      (años df_completo).

(** A row of a clean file for the student of [detalle_ejemplo]. *)
Definition fila_limpia_ejemplo : fila_limpia :=
  {| l_Año := Some (lit "2021");
     l_Cedula := Some (lit "1088123456");
     l_Codigo_Programa := Some (lit "32101");
     l_Nombre_Programa := Some (lit "ESPECIALIZACION EN DERECHO PENAL");
     l_Nombre_Estudiante := Some (lit "PEREZ GOMEZ JUAN") |}.

Definition registro_limpio_ejemplo : registro :=
  {| Año := Some (lit "2021");
     Programa_Codigo := lit "32101";
     Programa_Nombre := lit "ESPECIALIZACION EN DERECHO PENAL";
     Nombre := lit "PEREZ GOMEZ JUAN";
     Identificacion := lit "1088123456";
     Es_Egresado_ULibre := Si;
     Programas_Previos := lit "ABOGADO (2012)" |}.

End EgresadosLimpios.

(** ** Reading files: encodings and exceptions *)

Module Lectura.

Inductive codificacion := Utf8 | Utf8Sig | Latin1 | Iso8859_1 | Cp1252.

Inductive excepcion :=
| UnicodeDecodeError
| TypeError
| Otra (nombre : str).

(** The outcome of a call that may raise. *)
Inductive resultado (T : Type) :=
| Bien (x : T)
| Lanza (e : excepcion).

Arguments Bien {T} x.
Arguments Lanza {T} e.

(** What a read procedure did: the encodings it tried, in order, and what
    it ended with. *)
Definition intento (T : Type) : Type := list codificacion * resultado T.

(** [try: leer('utf-8') except UnicodeDecodeError: leer('latin-1')]
    (app.py, totalxano.py, verificar_valores.py): another exception of the
    first read, and any exception of the second, goes on to the caller. *)
Definition con_respaldo_unicode {T : Type} (leer : codificacion -> resultado T)
  : intento T :=
  match leer Utf8 with
  | Lanza UnicodeDecodeError => ([Utf8; Latin1], leer Latin1)
  | r => ([Utf8], r)
  end.

(** [try: leer('utf-8') except: leer('latin-1')] (limpiar_csv_posgrados.py):
    any exception of the first read gives the second one. *)
Definition con_respaldo {T : Type} (leer : codificacion -> resultado T) : intento T :=
  match leer Utf8 with
  | Bien x => ([Utf8], Bien x)
  | Lanza _ => ([Utf8; Latin1], leer Latin1)
  end.

(** [for encoding in [...]: try: df = leer(encoding); break except: continue]
    (the loaders of egresados_posgrados.py and egresados_posgrados_limpios.py):
    the encodings tried and the frame, if one of them gave it. *)
Fixpoint cadena {T : Type} (leer : codificacion -> resultado T)
    (codificaciones : list codificacion) : list codificacion * option T :=
  match codificaciones with
  | [] => ([], None)
  | c :: resto =>
      match leer c with
      | Bien x => ([c], Some x)
      | Lanza _ => let '(vistos, r) := cadena leer resto in (c :: vistos, r)
      end
  end.

Definition codificaciones_bdd : list codificacion := [Utf8; Latin1; Iso8859_1; Cp1252].

Definition leer_bdd {T : Type} (leer : codificacion -> resultado T)
  : list codificacion * option T :=
  cadena leer codificaciones_bdd.

(** [pd.read_csv(..., encoding='utf-8-sig')] with no handler around it
    (programas.py and [procesar_archivo_limpio]): one read. *)
Definition sin_respaldo {T : Type} (leer : codificacion -> resultado T) : intento T :=
  ([Utf8Sig], leer Utf8Sig).

(** A reader for examples: a file as its bytes, read as text.  UTF-8 has to
    be well formed; Latin-1 takes every byte; cp1252 has five bytes without
    a character. *)
Definition byte_entre (lo hi : N) (b : ascii) : bool := in_range lo hi b.

Fixpoint utf8_bien_formado (cola : nat) (bs : list ascii) : bool :=
  match bs with
  | [] => (cola =? 0)%nat
  | b :: bs' =>
      match cola with
      | S k => byte_entre 128 191 b && utf8_bien_formado k bs'
      | O =>
          if byte_entre 0 127 b then utf8_bien_formado 0 bs'
          else if byte_entre 194 223 b then utf8_bien_formado 1 bs'
          else if byte_entre 224 239 b then
            match bs' with
            | b2 :: _ =>
                (if (cp b =? 224)%N then byte_entre 160 191 b2
                 else if (cp b =? 237)%N then byte_entre 128 159 b2
                 else true) && utf8_bien_formado 2 bs'
            | [] => false
            end
          else if byte_entre 240 244 b then
            match bs' with
            | b2 :: _ =>
                (if (cp b =? 240)%N then byte_entre 144 191 b2
                 else if (cp b =? 244)%N then byte_entre 128 143 b2
                 else true) && utf8_bien_formado 3 bs'
            | [] => false
            end
          else false
      end
  end.

Definition cp1252_definido (b : ascii) : bool :=
  negb (existsb (fun n => (cp b =? n)%N) [129; 141; 143; 144; 157]%N).

Definition decodifica (c : codificacion) (bs : list ascii) : bool :=
  match c with
  | Utf8 | Utf8Sig => utf8_bien_formado 0 bs
  | Latin1 | Iso8859_1 => true
  | Cp1252 => forallb cp1252_definido bs
  end.

(** The read of a file of bytes: the encoding and the bytes it decoded, or
    the error of the decoder. *)
Definition leer_bytes (bs : list ascii) (c : codificacion)
  : resultado (codificacion * list ascii) :=
  if decodifica c bs then Bien (c, bs) else Lanza UnicodeDecodeError.

(** "é" as Latin-1 writes it: one byte, which is not UTF-8. *)
Definition bytes_e_aguda : list ascii := ["233"%char].

End Lectura.

(** ** Survey files (app.py, totalxano.py) *)

(** A frame read with a header: the column names and the rows. *)
Record encuesta := mkEncuesta { e_columnas : list str; e_filas : list (list cell) }.

(** A survey file on disk: its name, whether it exists, and what reading it
    gives under an encoding: its lines, and the frame from a given line on. *)
Record archivo := mkArchivo {
  a_nombre : str;
  a_existe : bool;
  a_lineas : Lectura.codificacion -> Lectura.resultado (list str);
  a_csv : Lectura.codificacion -> nat -> Lectura.resultado encuesta
}.

(** The position of a column, by name. *)
Fixpoint indice (col : str) (cols : list str) : option nat :=
  match cols with
  | [] => None
  | c :: cols' => if eqb c col then Some 0%nat else S <$> indice col cols'
  end.

(** [row[col]] for a column of the frame given by its position. *)
Definition en_columna (row : list cell) (i : nat) : cell := mjoin (row !! i).

(** [row.get(col, defecto)]. *)
Definition row_get (cols : list str) (row : list cell) (col : str) (defecto : cell) : cell :=
  match indice col cols with
  | Some i => en_columna row i
  | None => defecto
  end.

(** The line of the header: the first line with both words, or line 0. *)
Fixpoint buscar_header (lines : list str) : option nat :=
  match lines with
  | [] => None
  | line :: lines' =>
      if contains (lit "DOCUMENTO") line && contains (lit "NOMBRES") line then Some 0%nat
      else S <$> buscar_header lines'
  end.

(** The two reads of a survey file, each with its fall back to Latin-1. *)
Definition leer_encuesta (a : archivo) : Lectura.resultado encuesta :=
  match snd (Lectura.con_respaldo_unicode (a_lineas a)) with
  | Lectura.Lanza e => Lectura.Lanza e
  | Lectura.Bien lines =>
      let header_line := default 0%nat (buscar_header lines) in
      snd (Lectura.con_respaldo_unicode (fun c => a_csv a c header_line))
  end.

(** ** app.py *)

Module App.

Definition palabras_directivas : list str :=
  [lit "gerente"; lit "director"; lit "jefe"; lit "coordinador"; lit "supervisor";
   lit "presidente"; lit "vicepresidente"; lit "subdirector"; lit "subgerente";
   lit "juez"; lit "rector"; lit "juridico"; lit "lider"; lit "lider";
   lit "administrador"; lit "ejecutivo"; lit "manager"; lit "chief"].

(** The spellings looked for in the column names.  The source has a fourth
    one, [('cargo', 'desempe' + U+FFFD + 'a')], tried second; a column that
    has it has the first one too, so it never decides, and its character is
    outside of the alphabet of this model. *)
Definition variaciones_busqueda : list (list str) :=
  [ [lit "cargo"; lit "desempe"]; [lit "cargo"; lit "desempena"]; [lit "cargo"] ].

Definition columna_con (variacion : list str) (cols : list str) : option nat :=
  EgresadosPosgrados.buscar_columna
    (fun col => forallb (fun parte => contains parte (lower col)) variacion) cols.

Fixpoint buscar_columna_cargo (variaciones : list (list str)) (cols : list str)
  : option nat :=
  match variaciones with
  | [] => None
  | v :: resto =>
      match columna_con v cols with
      | Some i => Some i
      | None => buscar_columna_cargo resto cols
      end
  end.

Record cargo_directivo := mkCargo {
  Archivo : str;
  Nombre : str;
  Cargo : str;
  Programa : cell;
  Empresa : cell
}.

(** [df[col].notna() & (df[col] != '')]. *)
Definition con_cargo (i : nat) (row : list cell) : bool :=
  match en_columna row i with
  | Some (_ :: _) => true
  | _ => false
  end.

Definition es_directivo (cargo : str) : bool :=
  existsb (fun palabra => contains palabra cargo) palabras_directivas.

(** The loop over the valid rows. *)
Definition mirar_fila (nombre_archivo : str) (cols : list str) (i : nat)
    (cargos_directivos : list cargo_directivo) (row : list cell)
  : list cargo_directivo :=
  let cargo := lower (str_of (en_columna row i)) in
  if es_directivo cargo then
    cargos_directivos ++
      [ {| Archivo := nombre_archivo;
           Nombre := strip (str_of (row_get cols row (lit "NOMBRES") (Some []))
                            ++ lit " "
                            ++ str_of (row_get cols row (lit "APELLIDOS") (Some [])));
           Cargo := str_of (en_columna row i);
           Programa := row_get cols row (lit "PROGRAMA(S)") (Some (lit "N/A"));
           Empresa := row_get cols row (lit "Nombre de la empresa") (Some (lit "N/A")) |} ]
  else cargos_directivos.

Definition cargos_de (nombre_archivo : str) (df : encuesta) : list cargo_directivo :=
  match buscar_columna_cargo variaciones_busqueda (e_columnas df) with
  | None => []
  | Some i =>
      let df_valido := List.filter (con_cargo i) (e_filas df) in
      fold_left (mirar_fila nombre_archivo (e_columnas df) i) df_valido []
  end.

(** The state of the loop over the files: the results and the errors that
    were printed. *)
Record estado := mkEstado {
  resultados_totales : list cargo_directivo;
  errores : list (str * Lectura.excepcion)
}.

(** The body of the [try]: what it adds to the results, or the exception. *)
Definition cuerpo (a : archivo) : Lectura.resultado (list cargo_directivo) :=
  match leer_encuesta a with
  | Lectura.Lanza e => Lectura.Lanza e
  | Lectura.Bien df => Lectura.Bien (cargos_de (a_nombre a) df)
  end.

(** One file: skipped when it does not exist; [except Exception as e] prints
    the error and the loop goes on. *)
Definition paso_archivo (st : estado) (a : archivo) : estado :=
  if negb (a_existe a) then st
  else
    match cuerpo a with
    | Lectura.Bien cargos_directivos =>
        mkEstado (resultados_totales st ++ cargos_directivos) (errores st)
    | Lectura.Lanza e =>
        mkEstado (resultados_totales st) (errores st ++ [(a_nombre a, e)])
    end.

Definition analizar_archivos (archivos : list archivo) : estado :=
  fold_left paso_archivo archivos (mkEstado [] []).

(** What a file adds to the results, and the error it has printed. *)
Definition aporte (a : archivo) : list cargo_directivo :=
  if negb (a_existe a) then []
  else match cuerpo a with
       | Lectura.Bien cargos_directivos => cargos_directivos
       | Lectura.Lanza _ => []
       end.

Definition fallo (a : archivo) : option (str * Lectura.excepcion) :=
  if negb (a_existe a) then None
  else match cuerpo a with
       | Lectura.Bien _ => None
       | Lectura.Lanza e => Some (a_nombre a, e)
       end.

(** A file that reads well under UTF-8, with the same survey answer twice. *)
Definition df_repetido : encuesta :=
  mkEncuesta
    [lit "No"; lit "DOCUMENTO"; lit "NOMBRES"; lit "APELLIDOS"; lit "PROGRAMA(S)";
     lit "Cargo que desempena"]
    [ [Some (lit "1"); Some (lit "10203040"); Some (lit "ANA"); Some (lit "LOPEZ");
       Some (lit "DERECHO( PEREIRA )( 2022-06-30 )"); Some (lit "Gerente general")];
      [Some (lit "2"); Some (lit "10203040"); Some (lit "ANA"); Some (lit "LOPEZ");
       Some (lit "DERECHO( PEREIRA )( 2022-06-30 )"); Some (lit "Gerente general")] ].

Definition archivo_repetido : archivo :=
  mkArchivo (lit "2021-2025(M0).csv") true
    (fun _ => Lectura.Bien [lit "No;DOCUMENTO;NOMBRES;APELLIDOS;PROGRAMA(S);Cargo que desempena"])
    (fun _ _ => Lectura.Bien df_repetido).

(** A file that cannot be opened. *)
Definition archivo_ilegible : archivo :=
  mkArchivo (lit "2021-2025(VE).csv") true
    (fun _ => Lectura.Lanza (Lectura.Otra (lit "PermissionError")))
    (fun _ _ => Lectura.Lanza (Lectura.Otra (lit "PermissionError"))).


(** The distribution by kind of cargo that the summary prints:
    [tipos_cargo[palabra.capitalize()] = tipos_cargo.get(..., 0) + 1] for
    every keyword that the cargo of a result contains. *)
Definition contar_tipo (cargo_lower : str) (tipos_cargo : gmap str nat) (palabra : str)
  : gmap str nat :=
  if contains palabra cargo_lower
  then <[capitalize palabra := (default 0 (tipos_cargo !! capitalize palabra) + 1)%nat]>
         tipos_cargo
  else tipos_cargo.

Definition tipos_cargo (resultados : list cargo_directivo) : gmap str nat :=
  fold_left
    (fun tipos resultado =>
       fold_left (contar_tipo (lower (Cargo resultado))) palabras_directivas tipos)
    resultados ∅.

End App.

(** ** totalxano.py *)

Module TotalXAno.

(** What [pd.to_datetime(s, errors='coerce')] gives: a time stamp, with or
    without a time zone, or [NaT] for a text that is not a date. *)
Inductive marca :=
| NaT
| Marca (con_zona : bool) (t : Z).

(** [a > b]: false when one side is [NaT]; a time stamp with a time zone and
    one without cannot be compared, which raises [TypeError]. *)
Definition mayor (a b : marca) : Lectura.resultado bool :=
  match a, b with
  | Marca za ta, Marca zb tb =>
      if Bool.eqb za zb then Lectura.Bien (tb <? ta) else Lectura.Lanza Lectura.TypeError
  | _, _ => Lectura.Bien false
  end.

Record registro := mkRegistro {
  Archivo : str;
  Documento : str;
  Nombre : str;
  Programa : str;
  Tipo_Programa : str;
  Año_Grado : Z;
  Fecha_Grado : str;
  Informacion_Ocupacional : str;
  Cargo : str;
  Fecha_Encuesta : option marca
}.

(** [registros_unicos]: a [dict], which keeps its keys in the order of their
    first insertion. *)
Definition dict : Type := list (str * registro).

Fixpoint dict_get (k : str) (d : dict) : option registro :=
  match d with
  | [] => None
  | (k', v) :: d' => if eqb k' k then Some v else dict_get k d'
  end.

Fixpoint dict_set (k : str) (v : registro) (d : dict) : dict :=
  match d with
  | [] => [(k, v)]
  | (k', v') :: d' => if eqb k' k then (k, v) :: d' else (k', v') :: dict_set k v d'
  end.

(** The columns the script looks for, by position; a later column that
    passes the same test replaces an earlier one. *)
Record columnas := mkColumnas {
  columna_programa : option nat;
  columna_nombres : option nat;
  columna_apellidos : option nat;
  columna_documento : option nat;
  columna_info_ocupacional : option nat;
  columna_cargo : option nat;
  columna_fecha_encuesta : option nat
}.

Definition sin_columnas : columnas := mkColumnas None None None None None None None.

Definition mirar_columna (c : columnas) (icol : nat * str) : columnas :=
  let '(i, col) := icol in
  let col_upper := upper col in
  if eqb col_upper (lit "PROGRAMA(S)")
     || (startswith (lit "PROGRAMA") col_upper && contains (lit "(") col_upper
         && contains (lit "S)") col_upper)
  then mkColumnas (Some i) (columna_nombres c) (columna_apellidos c) (columna_documento c)
         (columna_info_ocupacional c) (columna_cargo c) (columna_fecha_encuesta c)
  else if contains (lit "NOMBRES") col_upper && negb (contains (lit "APELLIDOS") col_upper)
  then mkColumnas (columna_programa c) (Some i) (columna_apellidos c) (columna_documento c)
         (columna_info_ocupacional c) (columna_cargo c) (columna_fecha_encuesta c)
  else if contains (lit "APELLIDOS") col_upper
  then mkColumnas (columna_programa c) (columna_nombres c) (Some i) (columna_documento c)
         (columna_info_ocupacional c) (columna_cargo c) (columna_fecha_encuesta c)
  else if eqb col_upper (lit "DOCUMENTO")
  then mkColumnas (columna_programa c) (columna_nombres c) (columna_apellidos c) (Some i)
         (columna_info_ocupacional c) (columna_cargo c) (columna_fecha_encuesta c)
  else if contains (lit "INFORMACI") col_upper && contains (lit "OCUPACIONAL") col_upper
          && negb (contains (lit "(") col_upper)
  then mkColumnas (columna_programa c) (columna_nombres c) (columna_apellidos c)
         (columna_documento c) (Some i) (columna_cargo c) (columna_fecha_encuesta c)
  else if contains (lit "CARGO") col_upper && contains (lit "DESEMPE") col_upper
  then mkColumnas (columna_programa c) (columna_nombres c) (columna_apellidos c)
         (columna_documento c) (columna_info_ocupacional c) (Some i) (columna_fecha_encuesta c)
  else if contains (lit "FECHA") col_upper && contains (lit "ENCUESTA") col_upper
  then mkColumnas (columna_programa c) (columna_nombres c) (columna_apellidos c)
         (columna_documento c) (columna_info_ocupacional c) (columna_cargo c) (Some i)
  else c.

Definition buscar_columnas (cols : list str) : columnas :=
  fold_left mirar_columna (imap (fun i col => (i, col)) cols) sin_columnas.

(** [str(row.get(col, '')).strip() if col else '']. *)
Definition texto_de (row : list cell) (col : option nat) : str :=
  match col with
  | Some i => strip (str_of (en_columna row i))
  | None => []
  end.

Definition ESPECIALIZACION_acento : str := lit "ESPECIALIZACI" ++ ["211"%char] ++ lit "N".
Definition MAESTRIA_acento : str := lit "MAESTR" ++ ["205"%char] ++ lit "A".

Definition tipo_de_programa (programa : str) : str :=
  if contains ESPECIALIZACION_acento (upper programa)
     || contains (lit "ESPECIALIZACION") (upper programa)
  then ESPECIALIZACION_acento
  else if contains MAESTRIA_acento (upper programa)
          || contains (lit "MAESTRIA") (upper programa)
  then MAESTRIA_acento
  else if contains (lit "DOCTORADO") (upper programa) then lit "DOCTORADO"
  else lit "PREGRADO".

(** [f"{nombre_completo}_{programa}_{año}"]. *)
Definition clave_unica (nombre_completo programa : str) (año : Z) : str :=
  nombre_completo ++ lit "_" ++ programa ++ lit "_" ++ str_of_Z año.

(** The state of the loops: the dictionary, and the exception that stopped
    the work on the current file, if one was raised. *)
Definition avance : Type := dict * option Lectura.excepcion.

(** Keep the record of a key with the most recent survey.  In the tests of
    the source a time stamp is true, and so is [NaT], like every
    [datetime]; only [None] is false. *)
Definition guardar (registros_unicos : dict) (clave : str) (registro_nuevo : registro)
  : avance :=
  match dict_get clave registros_unicos with
  | None => (dict_set clave registro_nuevo registros_unicos, None)
  | Some registro_existente =>
      match Fecha_Encuesta registro_nuevo, Fecha_Encuesta registro_existente with
      | Some fecha_encuesta, Some fecha_existente =>
          match mayor fecha_encuesta fecha_existente with
          | Lectura.Bien true => (dict_set clave registro_nuevo registros_unicos, None)
          | Lectura.Bien false => (registros_unicos, None)
          | Lectura.Lanza e => (registros_unicos, Some e)
          end
      | Some _, None => (dict_set clave registro_nuevo registros_unicos, None)
      | None, _ => (registros_unicos, None)
      end
  end.

(** A loop that an exception leaves: the state as it is at that point. *)
Fixpoint iterar {X : Type} (f : dict -> X -> avance) (l : list X) (d : dict) : avance :=
  match l with
  | [] => (d, None)
  | x :: l' =>
      match f d x with
      | (d', None) => iterar f l' d'
      | (d', Some e) => (d', Some e)
      end
  end.

Section Fechas.

(** The reading of dates is that of pandas. *)
Variable to_datetime : str -> marca.

Definition registro_de (nombre_archivo : str) (c : columnas) (row : list cell)
    (prog_info : Programas.programa_info) : str * registro :=
  let nombre := texto_de row (columna_nombres c) in
  let apellido := texto_de row (columna_apellidos c) in
  let documento := texto_de row (columna_documento c) in
  let info_ocupacional := texto_de row (columna_info_ocupacional c) in
  let cargo := texto_de row (columna_cargo c) in
  let fecha_encuesta_str := texto_de row (columna_fecha_encuesta c) in
  let fecha_encuesta :=
    if negb (eqb fecha_encuesta_str []) && negb (eqb fecha_encuesta_str (lit "nan"))
    then Some (to_datetime fecha_encuesta_str) else None in
  let nombre_completo := strip (nombre ++ lit " " ++ apellido) in
  let nombre_completo :=
    if eqb nombre_completo [] && negb (eqb documento [])
    then lit "Doc_" ++ documento else nombre_completo in
  let año := Programas.año prog_info in
  let programa := Programas.programa prog_info in
  (clave_unica nombre_completo programa año,
   {| Archivo := nombre_archivo;
      Documento := documento;
      Nombre := nombre_completo;
      Programa := programa;
      Tipo_Programa := tipo_de_programa programa;
      Año_Grado := año;
      Fecha_Grado := Programas.fecha_completa prog_info;
      Informacion_Ocupacional := info_ocupacional;
      Cargo := cargo;
      Fecha_Encuesta := fecha_encuesta |}).

(** The loop over the programs of a row. *)
Definition paso_fila (nombre_archivo : str) (c : columnas) (p : nat)
    (registros_unicos : dict) (row : list cell) : avance :=
  let programas_info := Programas.extraer_programas_y_fechas (en_columna row p) in
  iterar
    (fun d prog_info =>
       let '(clave, registro_nuevo) := registro_de nombre_archivo c row prog_info in
       guardar d clave registro_nuevo)
    programas_info registros_unicos.

(** The body of the [try], after the file was read. *)
Definition procesar_encuesta (nombre_archivo : str) (df : encuesta)
    (registros_unicos : dict) : avance :=
  let c := buscar_columnas (e_columnas df) in
  match columna_programa c with
  | None => (registros_unicos, None)
  | Some p => iterar (paso_fila nombre_archivo c p) (e_filas df) registros_unicos
  end.

(** The state of the loop over the files: the dictionary and the errors
    that were printed. *)
Record estado := mkEstado {
  registros_unicos : dict;
  errores : list (str * Lectura.excepcion)
}.

(** One file: skipped when it does not exist; [except Exception as e] prints
    the error and the loop goes on with what the dictionary holds then. *)
Definition paso_archivo (st : estado) (a : archivo) : estado :=
  if negb (a_existe a) then st
  else
    match leer_encuesta a with
    | Lectura.Lanza e => mkEstado (registros_unicos st) (errores st ++ [(a_nombre a, e)])
    | Lectura.Bien df =>
        match procesar_encuesta (a_nombre a) df (registros_unicos st) with
        | (d, None) => mkEstado d (errores st)
        | (d, Some e) => mkEstado d (errores st ++ [(a_nombre a, e)])
        end
    end.

Definition analizar_archivos (archivos : list archivo) : estado :=
  fold_left paso_archivo archivos (mkEstado [] []).

(** [resultados_detallados]: the records of the dictionary, in its order
    (the output leaves out their survey date). *)
Definition resultados_detallados (st : estado) : list registro :=
  map snd (registros_unicos st).



End Fechas.

(** The composite key of a record. *)
Definition clave_de (r : registro) : str :=
  clave_unica (Nombre r) (Programa r) (Año_Grado r).







(** The reading of the dates of the examples, as pandas reads them. *)
Definition to_datetime_ejemplo (s : str) : marca :=
  if eqb s (lit "2023-05-01") then Marca false 20230501
  else if eqb s (lit "2024-05-01") then Marca false 20240501
  else if eqb s (lit "2024-06-01 00:00:00+00:00") then Marca true 20240601
  else NaT.

Definition columnas_ejemplo : list str :=
  [lit "DOCUMENTO"; lit "NOMBRES"; lit "APELLIDOS"; lit "PROGRAMA(S)"; lit "FECHA ENCUESTA"].

Definition fila_ana (fecha : string) : list cell :=
  [Some (lit "10203040"); Some (lit "ANA"); Some (lit "LOPEZ");
   Some (lit "DERECHO( PEREIRA )( 2022-06-30 )"); Some (lit fecha)].

Definition archivo_de (nombre : string) (filas : list (list cell)) : archivo :=
  mkArchivo (lit nombre) true
    (fun _ => Lectura.Bien [lit "DOCUMENTO;NOMBRES;APELLIDOS;PROGRAMA(S);FECHA ENCUESTA"])
    (fun _ _ => Lectura.Bien (mkEncuesta columnas_ejemplo filas)).

(** The first file has an answer of 2023; the second one has a later answer
    of the same graduate and then one whose date has a time zone. *)
Definition archivo_mo : archivo := archivo_de "2021-2025(M0).csv" [fila_ana "2023-05-01"].

Definition archivo_ve : archivo :=
  archivo_de "2021-2025(VE).csv"
    [fila_ana "2024-05-01"; fila_ana "2024-06-01 00:00:00+00:00"].


Definition registro_ana (nombre_archivo : string) (fecha : marca) : registro :=
  {| Archivo := lit nombre_archivo;
     Documento := lit "10203040";
     Nombre := lit "ANA LOPEZ";
     Programa := lit "DERECHO";
     Tipo_Programa := lit "PREGRADO";
     Año_Grado := 2022;
     Fecha_Grado := lit "2022-06-30";
     Informacion_Ocupacional := [];
     Cargo := [];
     Fecha_Encuesta := Some fecha |}.

End TotalXAno.

(** ** The separators of the CSV files *)

Module Separadores.

Inductive operacion := Lee | Escribe.

(** A call of [pd.read_csv] or of [to_csv]: where it is, the file it is
    about, and its [sep] argument, if it has one. *)
Record llamada := mkLlamada {
  script : string;
  linea : nat;
  op : operacion;
  fichero : string;
  sep : option string
}.

(** Without the argument pandas separates with a comma. *)
Definition sep_efectivo (l : llamada) : string := default ","%string (sep l).

Definition punto_y_coma : option string := Some ";"%string.

Definition llamadas : list llamada :=
  [ mkLlamada "app.py" 61 Lee "2021-2025(M0|VE).csv" punto_y_coma;
    mkLlamada "app.py" 63 Lee "2021-2025(M0|VE).csv" punto_y_coma;
    mkLlamada "app.py" 172 Escribe "cargos_directivos_analisis.csv" None;
    mkLlamada "egresados_posgrados.py" 23 Lee "BDD. 1974 (...).csv" punto_y_coma;
    mkLlamada "egresados_posgrados.py" 104 Lee "{año}-Posgrados.csv" punto_y_coma;
    mkLlamada "egresados_posgrados.py" 227 Escribe "estudiantes_posgrados_completo.csv"
      punto_y_coma;
    mkLlamada "egresados_posgrados.py" 252 Escribe "egresados_posgrados_{año}.csv"
      punto_y_coma;
    mkLlamada "egresados_posgrados.py" 269 Escribe "consolidado_todos_los_años.csv"
      punto_y_coma;
    mkLlamada "egresados_posgrados.py" 284 Escribe "resumen_general_por_año.csv"
      punto_y_coma;
    mkLlamada "egresados_posgrados_limpios.py" 26 Lee "BDD. 1974 (...).csv" punto_y_coma;
    mkLlamada "egresados_posgrados_limpios.py" 194 Lee "{año}-Posgrados-limpio.csv"
      punto_y_coma;
    mkLlamada "egresados_posgrados_limpios.py" 242 Escribe
      "estudiantes_posgrados_completo.csv" punto_y_coma;
    mkLlamada "egresados_posgrados_limpios.py" 267 Escribe "egresados_posgrados_{año}.csv"
      punto_y_coma;
    mkLlamada "egresados_posgrados_limpios.py" 300 Escribe "consolidado_todos_los_años.csv"
      punto_y_coma;
    mkLlamada "egresados_posgrados_limpios.py" 321 Escribe "resumen_general_por_año.csv"
      punto_y_coma;
    mkLlamada "limpiar_csv_posgrados.py" 61 Lee "{año}-Posgrados.csv" punto_y_coma;
    mkLlamada "limpiar_csv_posgrados.py" 63 Lee "{año}-Posgrados.csv" punto_y_coma;
    mkLlamada "limpiar_csv_posgrados.py" 198 Escribe "{año}-Posgrados-limpio.csv"
      punto_y_coma;
    mkLlamada "limpiar_csv_posgrados.py" 209 Escribe "Todos-los-años-consolidado.csv"
      punto_y_coma;
    mkLlamada "programas.py" 75 Lee "cargos_directivos_analisis.csv" None;
    mkLlamada "programas.py" 214 Escribe "cargos_directivos_por_programa_año.csv" None;
    mkLlamada "totalxano.py" 95 Lee "2021-2025(M0|VE).csv" punto_y_coma;
    mkLlamada "totalxano.py" 97 Lee "2021-2025(M0|VE).csv" punto_y_coma;
    mkLlamada "totalxano.py" 322 Escribe "todos_egresados_por_programa_año.csv" None;
    mkLlamada "verificar_valores.py" 29 Lee "2021-2025(M0|VE).csv" punto_y_coma;
    mkLlamada "verificar_valores.py" 31 Lee "2021-2025(M0|VE).csv" punto_y_coma ].

Definition con_punto_y_coma (l : llamada) : bool :=
  String.eqb (sep_efectivo l) ";".

(** The files of the reports on the surveys: what app.py, programas.py and
    totalxano.py write, and what programas.py reads back. *)
Definition informes_de_encuestas : list string :=
  [ "cargos_directivos_analisis.csv"; "cargos_directivos_por_programa_año.csv";
    "todos_egresados_por_programa_año.csv" ]%string.

Definition es_informe_de_encuestas (l : llamada) : bool :=
  existsb (String.eqb (fichero l)) informes_de_encuestas.

End Separadores.

(** ** programas.py: the analysis by program and year *)

Module AnalisisProgramas.

(** A record of [resultados_detallados]; the cells taken from the row are
    kept as they are. *)
Record resultado := mkResultado {
  Archivo : cell;
  Nombre : cell;
  Cargo : cell;
  Programa : str;
  Tipo_Programa : str;
  Año_Grado : Z;
  Fecha_Grado : str;
  Empresa : cell
}.

(** The state of the loops of [analizar_por_programas_y_años]. *)
Record estado := mkEstado {
  resultados_detallados : list resultado;
  registros_unicos : gset str;
  estadisticas_año : gmap Z nat;
  estadisticas_programa : gmap str nat;
  estadisticas_año_programa : gmap str (Z * str * nat);
  registros_procesados : nat
}.

(** [{2021: 0, 2022: 0, 2023: 0, 2024: 0, 2025: 0}]. *)
Definition estadisticas_año_inicial : gmap Z nat :=
  <[2021 := 0%nat]> (<[2022 := 0%nat]> (<[2023 := 0%nat]>
    (<[2024 := 0%nat]> (<[2025 := 0%nat]> ∅)))).

Definition estado_inicial : estado :=
  mkEstado [] ∅ estadisticas_año_inicial ∅ ∅ 0.

(** [f"{nombre}_{programa}_{año}"]. *)
Definition clave_unica (nombre : cell) (programa : str) (año : Z) : str :=
  str_of nombre ++ lit "_" ++ programa ++ lit "_" ++ str_of_Z año.

(** [f"{año}_{programa}"]. *)
Definition clave_año_programa (año : Z) (programa : str) : str :=
  str_of_Z año ++ lit "_" ++ programa.

(** The body of the loop over the programs of a row; the kind of program is
    found with the same tests as in totalxano.py. *)
Definition paso_programa (cols : list str) (row : list cell) (st : estado)
    (prog_info : Programas.programa_info) : estado :=
  let nombre := row_get cols row (lit "Nombre") (Some []) in
  let año := Programas.año prog_info in
  let programa := Programas.programa prog_info in
  let clave_unica := clave_unica nombre programa año in
  if bool_decide (clave_unica ∈ registros_unicos st) then st
  else
    let clave := clave_año_programa año programa in
    {| resultados_detallados :=
         resultados_detallados st ++
         [ {| Archivo := row_get cols row (lit "Archivo") (Some (lit "N/A"));
              Nombre := nombre;
              Cargo := row_get cols row (lit "Cargo") (Some []);
              Programa := programa;
              Tipo_Programa := TotalXAno.tipo_de_programa programa;
              Año_Grado := año;
              Fecha_Grado := Programas.fecha_completa prog_info;
              Empresa := row_get cols row (lit "Empresa") (Some (lit "N/A")) |} ];
       registros_unicos := registros_unicos st ∪ {[ clave_unica ]};
       estadisticas_año :=
         match estadisticas_año st !! año with
         | Some n => <[año := (n + 1)%nat]> (estadisticas_año st)
         | None => estadisticas_año st
         end;
       estadisticas_programa :=
         <[programa := (default 0%nat (estadisticas_programa st !! programa) + 1)%nat]>
           (estadisticas_programa st);
       estadisticas_año_programa :=
         (let '(a, p, cantidad) :=
            default (año, programa, 0%nat) (estadisticas_año_programa st !! clave) in
          <[clave := (a, p, (cantidad + 1)%nat)]> (estadisticas_año_programa st));
       registros_procesados := S (registros_procesados st) |}.

(** The body of the loop over the rows. *)
Definition paso_fila (cols : list str) (st : estado) (row : list cell) : estado :=
  let programa_str := row_get cols row (lit "Programa") (Some []) in
  fold_left (paso_programa cols row) (Programas.extraer_programas_y_fechas programa_str) st.

(** The loops, from the frame that was read; [None] when the frame has no
    column 'Programa' and the function returns before them. *)
Definition analizar (df : encuesta) : option estado :=
  match indice (lit "Programa") (e_columnas df) with
  | None => None
  | Some _ => Some (fold_left (paso_fila (e_columnas df)) (e_filas df) estado_inicial)
  end.

(** The key of a record. *)
Definition clave_de (r : resultado) : str :=
  clave_unica (Nombre r) (Programa r) (Año_Grado r).

(** A frame as app.py writes it, with the same graduate twice. *)
Definition df_ejemplo : encuesta :=
  mkEncuesta [lit "Archivo"; lit "Nombre"; lit "Cargo"; lit "Programa"; lit "Empresa"]
    [ [Some (lit "2021-2025(M0).csv"); Some (lit "ANA LOPEZ"); Some (lit "Gerente general");
       Some (lit "DERECHO( PEREIRA )( 2022-06-30 )"); Some (lit "N/A")];
      [Some (lit "2021-2025(VE).csv"); Some (lit "ANA LOPEZ"); Some (lit "Gerente");
       Some (lit "DERECHO( PEREIRA )( 2022-06-30 )"); Some (lit "N/A")] ].

Definition resultado_ana : resultado :=
  {| Archivo := Some (lit "2021-2025(M0).csv");
     Nombre := Some (lit "ANA LOPEZ");
     Cargo := Some (lit "Gerente general");
     Programa := lit "DERECHO";
     Tipo_Programa := lit "PREGRADO";
     Año_Grado := 2022;
     Fecha_Grado := lit "2022-06-30";
     Empresa := Some (lit "N/A") |}.

End AnalisisProgramas.

(** * Properties *)

(** ** Text primitives *)

Example split_ex :
  split (lit "  32101   DERECHO  PENAL ") = [lit "32101"; lit "DERECHO"; lit "PENAL"].
Proof. reflexivity. Qed.

Example split_sep_ex :
  split_sep (lit " - ") (lit "A(x) - B - C") = [lit "A(x)"; lit "B"; lit "C"].
Proof. reflexivity. Qed.

Example replace_ex :
  replace (lit "EN") (lit "") (lit "DERECHO PENAL EN") = lit "DERECHO PAL ".
Proof. reflexivity. Qed.

Example upper_ex : upper (lit "Penal") = lit "PENAL".
Proof. reflexivity. Qed.

Lemma eqb_eq (a b : str) : eqb a b = true <-> a = b.
Proof. unfold eqb. apply bool_decide_eq_true. Qed.

Lemma eqb_neq (a b : str) : eqb a b = false <-> a <> b.
Proof. unfold eqb. apply bool_decide_eq_false. Qed.

Lemma len_entre_spec lo hi s :
  len_entre lo hi s = true <-> (lo <= length s <= hi)%nat.
Proof.
  unfold len_entre. rewrite andb_true_iff, !Nat.leb_le. tauto.
Qed.

(** ** Scanning a row for the identity number and the student code *)

Lemma periodos_no_identificador (s : str) :
  es_identificador s = true ->
  forallb (fun p => negb (eqb s p)) EgresadosPosgrados.periodos = true.
Proof.
  unfold es_identificador. rewrite andb_true_iff, len_entre_spec.
  intros [_ Hlen]. unfold EgresadosPosgrados.periodos. simpl.
  rewrite !andb_true_iff, !negb_true_iff, !eqb_neq.
  repeat split; try (intros ->; simpl in Hlen; lia).
Qed.

Lemma parece_cedula_identificador (s : str) :
  EgresadosPosgrados.parece_cedula s = es_identificador s.
Proof.
  unfold EgresadosPosgrados.parece_cedula.
  destruct (es_identificador s) eqn:E.
  - unfold es_identificador in E. rewrite E. simpl.
    apply periodos_no_identificador. exact E.
  - unfold es_identificador in E. rewrite E. reflexivity.
Qed.

Lemma eg_mirar_valor_ids (h : EgresadosPosgrados.hallazgo) (v : cell) (pre : list str) :
  EgresadosPosgrados.cedula_encontrada h = pre !! 0%nat ->
  EgresadosPosgrados.codigo_encontrado h = pre !! 1%nat ->
  let h' := EgresadosPosgrados.mirar_valor h v in
  let pre' := pre ++ List.filter EgresadosPosgrados.parece_cedula (map strip (omap id [v])) in
  EgresadosPosgrados.cedula_encontrada h' = pre' !! 0%nat /\
  EgresadosPosgrados.codigo_encontrado h' = pre' !! 1%nat.
Proof.
  destruct h as [n a b]. simpl. intros -> ->. destruct v as [v|]; simpl.
  2:{ rewrite app_nil_r. auto. }
  destruct (EgresadosPosgrados.parece_cedula (strip v)) eqn:Ec; simpl.
  - destruct (EgresadosPosgrados.parece_nombre (strip v));
      destruct pre as [|u [|w pre]]; simpl; auto.
  - rewrite app_nil_r.
    destruct (EgresadosPosgrados.parece_nombre (strip v)); simpl; auto.
Qed.

Lemma eg_escanear_gen (vals : list cell) :
  forall (h : EgresadosPosgrados.hallazgo) (pre : list str),
    EgresadosPosgrados.cedula_encontrada h = pre !! 0%nat ->
    EgresadosPosgrados.codigo_encontrado h = pre !! 1%nat ->
    let h' := fold_left EgresadosPosgrados.mirar_valor vals h in
    let pre' := pre ++ List.filter EgresadosPosgrados.parece_cedula (map strip (omap id vals)) in
    EgresadosPosgrados.cedula_encontrada h' = pre' !! 0%nat /\
    EgresadosPosgrados.codigo_encontrado h' = pre' !! 1%nat.
Proof.
  induction vals as [|v vals IH]; intros h pre Ha Hb.
  - simpl. rewrite app_nil_r. auto.
  - destruct (eg_mirar_valor_ids h v pre Ha Hb) as [Ha' Hb'].
    specialize (IH _ _ Ha' Hb'). simpl in IH. simpl.
    destruct v as [v|]; simpl in *.
    + destruct (EgresadosPosgrados.parece_cedula (strip v)); simpl in *;
        rewrite <- ?app_assoc in IH; simpl in IH; try rewrite app_nil_r in IH; exact IH.
    + rewrite app_nil_r in IH. exact IH.
Qed.

Lemma eg_escanear_ids (row : fila) :
  let c := List.filter EgresadosPosgrados.parece_cedula (map strip (presentes row)) in
  EgresadosPosgrados.cedula_encontrada (EgresadosPosgrados.escanear row) = c !! 0%nat /\
  EgresadosPosgrados.codigo_encontrado (EgresadosPosgrados.escanear row) = c !! 1%nat.
Proof.
  apply (eg_escanear_gen (valores row) EgresadosPosgrados.hallazgo_vacio []); reflexivity.
Qed.

Lemma lc_mirar_valor_ids (h : LimpiarCsv.hallazgo) (v : cell) (pre : list str) :
  LimpiarCsv.cedula_encontrada h = pre !! 0%nat ->
  LimpiarCsv.codigo_encontrado h = pre !! 1%nat ->
  let h' := LimpiarCsv.mirar_valor h v in
  let pre' := pre ++ List.filter es_identificador [strip (LimpiarCsv.fillna v)] in
  LimpiarCsv.cedula_encontrada h' = pre' !! 0%nat /\
  LimpiarCsv.codigo_encontrado h' = pre' !! 1%nat.
Proof.
  destruct h as [a b g]. simpl. intros -> ->.
  unfold LimpiarCsv.mirar_valor, LimpiarCsv.parece_cedula. simpl.
  fold (es_identificador (strip (LimpiarCsv.fillna v))).
  destruct (es_identificador (strip (LimpiarCsv.fillna v))) eqn:Ec; simpl.
  - destruct (LimpiarCsv.parece_grupo (strip (LimpiarCsv.fillna v)));
      destruct pre as [|u [|w pre]]; simpl; auto.
  - rewrite app_nil_r.
    destruct (LimpiarCsv.parece_grupo (strip (LimpiarCsv.fillna v))); simpl; auto.
Qed.

Lemma lc_escanear_gen (vals : list cell) :
  forall (h : LimpiarCsv.hallazgo) (pre : list str),
    LimpiarCsv.cedula_encontrada h = pre !! 0%nat ->
    LimpiarCsv.codigo_encontrado h = pre !! 1%nat ->
    let h' := fold_left LimpiarCsv.mirar_valor vals h in
    let pre' := pre ++ List.filter es_identificador
                         (map (fun v => strip (LimpiarCsv.fillna v)) vals) in
    LimpiarCsv.cedula_encontrada h' = pre' !! 0%nat /\
    LimpiarCsv.codigo_encontrado h' = pre' !! 1%nat.
Proof.
  induction vals as [|v vals IH]; intros h pre Ha Hb.
  - simpl. rewrite app_nil_r. auto.
  - destruct (lc_mirar_valor_ids h v pre Ha Hb) as [Ha' Hb'].
    specialize (IH _ _ Ha' Hb'). simpl in IH. simpl.
    destruct (es_identificador (strip (LimpiarCsv.fillna v))); simpl in *;
      rewrite <- ?app_assoc in IH; simpl in IH; try rewrite app_nil_r in IH; exact IH.
Qed.

Lemma lc_escanear_ids (row : fila) :
  let c := List.filter es_identificador
             (map (fun v => strip (LimpiarCsv.fillna v)) (valores row)) in
  LimpiarCsv.cedula_encontrada (LimpiarCsv.escanear row) = c !! 0%nat /\
  LimpiarCsv.codigo_encontrado (LimpiarCsv.escanear row) = c !! 1%nat.
Proof.
  apply (lc_escanear_gen (valores row) LimpiarCsv.hallazgo_vacio []); reflexivity.
Qed.

Lemma eg_candidatos_parece_cedula (row : fila) :
  EgresadosPosgrados.candidatos row =
  List.filter EgresadosPosgrados.parece_cedula (map strip (presentes row)).
Proof.
  unfold EgresadosPosgrados.candidatos. apply List.filter_ext. intros s.
  unfold EgresadosPosgrados.parece_cedula, EgresadosPosgrados.es_periodo.
  unfold es_identificador. f_equal.
  induction EgresadosPosgrados.periodos as [|q l IH]; simpl; [reflexivity|].
  rewrite negb_orb, IH. reflexivity.
Qed.

(** In egresados_posgrados.py the exclusion of the period literals changes
    nothing: they have five characters. *)
Lemma eg_candidatos_identificadores (row : fila) :
  EgresadosPosgrados.candidatos row =
  List.filter es_identificador (map strip (presentes row)).
Proof.
  rewrite eg_candidatos_parece_cedula. apply List.filter_ext.
  apply parece_cedula_identificador.
Qed.

Lemma eg_paso_resultados (cedulas : gset str) (año : Z)
    (st : EgresadosPosgrados.estado) (row : fila) :
  let st' := EgresadosPosgrados.paso cedulas año st row in
  EgresadosPosgrados.resultados st' = EgresadosPosgrados.resultados st \/
  exists r,
    EgresadosPosgrados.resultados st' = EgresadosPosgrados.resultados st ++ [r] /\
    EgresadosPosgrados.candidatos row !! 0%nat = Some (EgresadosPosgrados.Identificacion r).
Proof.
  unfold EgresadosPosgrados.paso.
  destruct (eg_escanear_ids row) as [Hc _].
  rewrite <- eg_candidatos_parece_cedula in Hc.
  repeat match goal with
         | |- context [if ?b then _ else _] => destruct b; simpl; auto
         | |- context [match ?x with _ => _ end] => destruct x eqn:?; simpl; auto
         end;
  right; eexists; (split; [reflexivity|]); simpl; congruence.
Qed.

Lemma lc_paso_registros (año : Z) (st : LimpiarCsv.estado) (row : fila) :
  let st' := LimpiarCsv.paso año st row in
  LimpiarCsv.registros st' = LimpiarCsv.registros st \/
  exists r,
    LimpiarCsv.registros st' = LimpiarCsv.registros st ++ [r] /\
    LimpiarCsv.candidatos row !! 0%nat = Some (LimpiarCsv.Cedula r) /\
    LimpiarCsv.Codigo_Estudiante r = default [] (LimpiarCsv.candidatos row !! 1%nat).
Proof.
  unfold LimpiarCsv.paso.
  destruct (lc_escanear_ids row) as [Hc Hk].
  fold (LimpiarCsv.candidatos row) in Hc, Hk.
  repeat match goal with
         | |- context [if ?b then _ else _] => destruct b; simpl; auto
         | |- context [match ?x with _ => _ end] => destruct x eqn:?; simpl; auto
         end;
  right; eexists; (split; [reflexivity|]); simpl; split; [congruence|].
  all: rewrite <- Hk; reflexivity.
Qed.

(** C2.  In both scripts the scan of a row classifies as the identity number
    the first value, in column order, that is made of digits only and has 6
    to 12 characters (in egresados_posgrados.py: and is not a period
    literal), and as the student code the second such value; a student
    record of the row carries that identity number, and a row without such
    a value adds no record. *)
Theorem C2_first_numeric_value_is_id :
  (forall row : fila,
      EgresadosPosgrados.cedula_encontrada (EgresadosPosgrados.escanear row)
        = EgresadosPosgrados.candidatos row !! 0%nat /\
      EgresadosPosgrados.codigo_encontrado (EgresadosPosgrados.escanear row)
        = EgresadosPosgrados.candidatos row !! 1%nat) /\
  (forall (cedulas : gset str) (año : Z) (st : EgresadosPosgrados.estado) (row : fila),
      let st' := EgresadosPosgrados.paso cedulas año st row in
      (EgresadosPosgrados.candidatos row = [] ->
       EgresadosPosgrados.resultados st' = EgresadosPosgrados.resultados st) /\
      (EgresadosPosgrados.resultados st' = EgresadosPosgrados.resultados st \/
       exists r,
         EgresadosPosgrados.resultados st' = EgresadosPosgrados.resultados st ++ [r] /\
         EgresadosPosgrados.candidatos row !! 0%nat
           = Some (EgresadosPosgrados.Identificacion r))) /\
  (forall row : fila,
      LimpiarCsv.cedula_encontrada (LimpiarCsv.escanear row)
        = LimpiarCsv.candidatos row !! 0%nat /\
      LimpiarCsv.codigo_encontrado (LimpiarCsv.escanear row)
        = LimpiarCsv.candidatos row !! 1%nat) /\
  (forall (año : Z) (st : LimpiarCsv.estado) (row : fila),
      let st' := LimpiarCsv.paso año st row in
      (LimpiarCsv.candidatos row = [] ->
       LimpiarCsv.registros st' = LimpiarCsv.registros st) /\
      (LimpiarCsv.registros st' = LimpiarCsv.registros st \/
       exists r,
         LimpiarCsv.registros st' = LimpiarCsv.registros st ++ [r] /\
         LimpiarCsv.candidatos row !! 0%nat = Some (LimpiarCsv.Cedula r) /\
         LimpiarCsv.Codigo_Estudiante r
           = default [] (LimpiarCsv.candidatos row !! 1%nat))).
Proof.
  split; [|split; [|split]].
  - intros row. rewrite eg_candidatos_parece_cedula. apply eg_escanear_ids.
  - intros cedulas año st row st'. split.
    + intros Hnil.
      destruct (eg_paso_resultados cedulas año st row) as [H|[r [_ H]]]; [exact H|].
      rewrite Hnil in H. discriminate.
    + apply eg_paso_resultados.
  - intros row. apply lc_escanear_ids.
  - intros año st row st'. split.
    + intros Hnil.
      destruct (lc_paso_registros año st row) as [H|[r [_ [H _]]]]; [exact H|].
      rewrite Hnil in H. discriminate.
    + apply lc_paso_registros.
Qed.

(** The scan on a row of the shape the source describes:
    [;NOMBRE;;;;;;CEDULA;;CODIGO;GRUPO]. *)
Example eg_escanear_ex :
  let row := mkFila None [Some (lit "PEREZ GOMEZ JUAN"); None; Some (lit " 1088123456 ");
                          None; Some (lit "202110345"); Some (lit "12")] in
  EgresadosPosgrados.cedula_encontrada (EgresadosPosgrados.escanear row)
    = Some (lit "1088123456") /\
  EgresadosPosgrados.codigo_encontrado (EgresadosPosgrados.escanear row)
    = Some (lit "202110345") /\
  EgresadosPosgrados.nombre_encontrado (EgresadosPosgrados.escanear row)
    = Some (lit "PEREZ GOMEZ JUAN").
Proof. vm_compute. auto. Qed.

(** ** Program codes *)

(** limpiar_csv_posgrados.py returns the first word of exactly five digits,
    and nothing when there is none. *)
Lemma lc_extraer_codigo_some (texto c : str) :
  LimpiarCsv.extraer_codigo_programa (Some texto) = Some c ->
  In c (split (strip texto)) /\ isdigit c = true /\ length c = 5%nat.
Proof.
  unfold LimpiarCsv.extraer_codigo_programa. intros H.
  apply List.find_some in H. destruct H as [Hin H].
  apply andb_true_iff in H. destruct H as [Hd Hl].
  apply Nat.eqb_eq in Hl. auto.
Qed.

Lemma lc_extraer_codigo_none (texto : str) :
  LimpiarCsv.extraer_codigo_programa (Some texto) = None <->
  forall w, In w (split (strip texto)) -> ~ (isdigit w = true /\ length w = 5%nat).
Proof.
  unfold LimpiarCsv.extraer_codigo_programa. split.
  - intros H w Hin [Hd Hl].
    pose proof (List.find_none _ _ H w Hin) as Hn. simpl in Hn.
    rewrite Hd, Hl in Hn. discriminate.
  - intros H.
    destruct (List.find _ _) as [c|] eqn:E; [|reflexivity].
    apply List.find_some in E. destruct E as [Hin E].
    apply andb_true_iff in E. destruct E as [Hd Hl]. apply Nat.eqb_eq in Hl.
    exfalso. apply (H c Hin). auto.
Qed.


(** C3.  egresados_posgrados.py does not check the length of the first word:
    a first word of three or of six digits is returned as the program code,
    although it is not a code of five digits. *)
Theorem C3_extraer_codigo_not_five_digits :
  EgresadosPosgrados.extraer_codigo_programa (Some (lit "123 DERECHO")) = Some (lit "123") /\
  EgresadosPosgrados.extraer_codigo_programa
    (Some (lit "321012 ESPECIALIZACION EN DERECHO PENAL")) = Some (lit "321012") /\
  LimpiarCsv.extraer_codigo_programa (Some (lit "123 DERECHO")) = None /\
  LimpiarCsv.extraer_codigo_programa
    (Some (lit "321012 ESPECIALIZACION EN DERECHO PENAL")) = None.
Proof. repeat split; reflexivity. Qed.

Example eg_extraer_codigo_ex :
  EgresadosPosgrados.extraer_codigo_programa
    (Some (lit "32101    ESPECIALIZACION EN DERECHO ADMINISTRATIVO")) = Some (lit "32101").
Proof. reflexivity. Qed.

(** A program line with six digits reaches the records of
    egresados_posgrados.py as a program code of six digits. *)
Example eg_codigo_de_seis_digitos :
  map EgresadosPosgrados.Programa_Codigo
    (EgresadosPosgrados.procesar_archivo_posgrados
       EgresadosPosgrados.df_codigo_largo ∅ 2021)
  = [Some (lit "321012")].
Proof. vm_compute. reflexivity. Qed.

(** ** The loop of egresados_posgrados.py *)

(** A property of the state that every iteration keeps holds at the end. *)
Lemma fold_left_inv {S X : Type} (f : S -> X -> S) (I : S -> Prop) (l : list X) :
  forall s, I s -> (forall s x, I s -> In x l -> I (f s x)) -> I (fold_left f l s).
Proof.
  induction l as [|x l IH]; intros s Hs Hf; simpl; [exact Hs|].
  apply IH.
  - apply Hf; [exact Hs|left; reflexivity].
  - intros s' x' Hs' Hin. apply Hf; [exact Hs'|right; exact Hin].
Qed.

(** What one iteration does to the state: nothing to the results, or one
    new record under a key that was not seen before. *)
Lemma eg_paso_casos (cedulas : gset str) (año : Z)
    (st : EgresadosPosgrados.estado) (row : fila) :
  let st' := EgresadosPosgrados.paso cedulas año st row in
  (EgresadosPosgrados.resultados st' = EgresadosPosgrados.resultados st /\
   EgresadosPosgrados.estudiantes_vistos st' = EgresadosPosgrados.estudiantes_vistos st) \/
  exists nombre cedula,
    let p := EgresadosPosgrados.programa_actual st' in
    let clave := EgresadosPosgrados.clave_unica cedula p in
    EgresadosPosgrados.cedula_encontrada (EgresadosPosgrados.escanear row) = Some cedula /\
    (clave ∉ EgresadosPosgrados.estudiantes_vistos st) /\
    (EgresadosPosgrados.estudiantes_vistos st'
      = EgresadosPosgrados.estudiantes_vistos st ∪ {[ clave ]}) /\
    EgresadosPosgrados.resultados st'
      = EgresadosPosgrados.resultados st ++
        [EgresadosPosgrados.nuevo_registro año p nombre cedula
           (bool_decide (cedula ∈ cedulas))].
Proof.
  unfold EgresadosPosgrados.paso.
  repeat match goal with
         | |- context [if bool_decide ?P then _ else _] =>
             destruct (bool_decide_reflect P); simpl; auto
         | |- context [if ?b then _ else _] => destruct b; simpl; auto
         | |- context [match ?x with _ => _ end] => destruct x eqn:?; simpl; auto
         end.
  all: right; do 2 eexists; repeat split; try reflexivity; assumption.
Qed.

Lemma eg_cedula_es_valor (row : fila) (cedula : str) :
  EgresadosPosgrados.cedula_encontrada (EgresadosPosgrados.escanear row) = Some cedula ->
  exists v, In v (presentes row) /\ cedula = strip v.
Proof.
  destruct (eg_escanear_ids row) as [Hc _]. rewrite Hc. intros H.
  apply list_elem_of_lookup_2, list_elem_of_In, filter_In in H.
  destruct H as [H _]. apply in_map_iff in H. destruct H as [v [Hv Hin]].
  exists v. auto.
Qed.

Lemma Si_no_es_No : Si <> No.
Proof. discriminate. Qed.

(** C1.  Every record of [procesar_archivo_posgrados] carries as its identity
    number the stripped text of a cell of the file, and is marked 'Sí'
    exactly when that identity number belongs to the set of identity numbers
    of the historical data base, 'No' otherwise. *)
Theorem C1_egresado_iff_cedula_in_database
    (df : list fila) (cedulas_egresados : gset str) (año : Z)
    (r : EgresadosPosgrados.registro) :
  In r (EgresadosPosgrados.procesar_archivo_posgrados df cedulas_egresados año) ->
  (exists row v, In row df /\ In v (presentes row) /\
                 EgresadosPosgrados.Identificacion r = strip v) /\
  (EgresadosPosgrados.Es_Egresado_ULibre r = Si <->
   EgresadosPosgrados.Identificacion r ∈ cedulas_egresados) /\
  (EgresadosPosgrados.Es_Egresado_ULibre r = No <->
   EgresadosPosgrados.Identificacion r ∉ cedulas_egresados).
Proof.
  unfold EgresadosPosgrados.procesar_archivo_posgrados, EgresadosPosgrados.recorrer.
  revert r.
  apply (fold_left_inv (EgresadosPosgrados.paso cedulas_egresados año)
           (fun st => forall r, In r (EgresadosPosgrados.resultados st) -> _)).
  - intros r [].
  - intros st row IH Hrow r Hr.
    destruct (eg_paso_casos cedulas_egresados año st row)
      as [[Hres _]|[nombre [cedula [Hced [_ [_ Hres]]]]]];
      rewrite Hres in Hr; [auto|].
    apply in_app_or in Hr. destruct Hr as [Hr|[<-|[]]]; [auto|].
    simpl. split; [|split].
    + destruct (eg_cedula_es_valor row cedula Hced) as [v [Hv ->]].
      exists row, v. auto.
    + destruct (bool_decide_reflect (cedula ∈ cedulas_egresados)); split; intros H;
        try assumption; try reflexivity; try contradiction.
      symmetry in H. destruct (Si_no_es_No H).
    + destruct (bool_decide_reflect (cedula ∈ cedulas_egresados)); split; intros H;
        try assumption; try reflexivity; try contradiction.
      destruct (Si_no_es_No H).
Qed.

Lemma C1_egresado_iff_cedula_in_database_witness :
  let cedulas := EgresadosPosgrados.cargar_base_datos_egresados
                   EgresadosPosgrados.bdd_ejemplo in
  let r := EgresadosPosgrados.registro_perez in
  In r (EgresadosPosgrados.procesar_archivo_posgrados
          EgresadosPosgrados.df_ejemplo cedulas 2021) /\
  (EgresadosPosgrados.Es_Egresado_ULibre r = Si <->
   EgresadosPosgrados.Identificacion r ∈ cedulas).
Proof.
  assert (H : In EgresadosPosgrados.registro_perez
                (EgresadosPosgrados.procesar_archivo_posgrados
                   EgresadosPosgrados.df_ejemplo
                   (EgresadosPosgrados.cargar_base_datos_egresados
                      EgresadosPosgrados.bdd_ejemplo) 2021)).
  { vm_compute. left. reflexivity. }
  split; [exact H|].
  exact (proj1 (proj2 (C1_egresado_iff_cedula_in_database _ _ _ _ H))).
Defined.

(** ** The data base of identity numbers *)



(** The keys of egresados_posgrados.py are those of one file: the same
    student in the same program in the files of two years gives two records
    of [main]. *)
Example eg_misma_clave_en_dos_años :
  map (fun r => (EgresadosPosgrados.Año r, EgresadosPosgrados.Identificacion r))
    (EgresadosPosgrados.procesar_años
       [(2021, EgresadosPosgrados.df_ejemplo); (2022, EgresadosPosgrados.df_ejemplo)] ∅)
  = [ (2021, lit "1088123456"); (2021, lit "30303030");
      (2022, lit "1088123456"); (2022, lit "30303030") ].
Proof. vm_compute. reflexivity. Qed.

(** ** Parenthesized dates *)

Import Programas.

Lemma quitar_spec (c : ascii) (s s' : str) :
  quitar c s = Some s' <-> s = c :: s'.
Proof.
  unfold quitar. destruct s as [|x s0].
  - split; discriminate.
  - destruct (bool_decide_reflect (x = c)) as [->|Hne]; split.
    + intros [= ->]. reflexivity.
    + intros [= ->]. reflexivity.
    + discriminate.
    + intros [= -> ->]. contradiction.
Qed.

Lemma tomar_digitos_spec (n : nat) (s a r : str) :
  tomar_digitos n s = Some (a, r) <->
  s = a ++ r /\ length a = n /\ forallb isdecimal_c a = true.
Proof.
  unfold tomar_digitos. split.
  - destruct (n <=? length s)%nat eqn:Hn; simpl; [|discriminate].
    destruct (forallb isdecimal_c (take n s)) eqn:Hd; [|discriminate].
    intros [= <- <-]. apply Nat.leb_le in Hn.
    rewrite take_drop, length_take. repeat split; [lia|exact Hd].
  - intros (-> & <- & Hd).
    rewrite length_app, take_app_length, drop_app_length, Hd.
    replace (length a <=? length a + length r)%nat with true
      by (symmetry; apply Nat.leb_le; lia).
    reflexivity.
Qed.

Lemma lstrip_decomp (s : str) :
  exists w, s = w ++ lstrip s /\ forallb isspace_c w = true.
Proof.
  induction s as [|c s IH]; simpl.
  - exists []. auto.
  - destruct (isspace_c c) eqn:E.
    + destruct IH as [w [Hw Hs]]. exists (c :: w). simpl.
      rewrite E, Hs, <- Hw. auto.
    + exists []. auto.
Qed.

Lemma lstrip_app_space (w r : str) :
  forallb isspace_c w = true -> lstrip (w ++ r) = lstrip r.
Proof.
  induction w as [|c w IH]; simpl; [reflexivity|].
  intros H. apply andb_true_iff in H. destruct H as [Hc Hw].
  rewrite Hc. auto.
Qed.

Lemma lstrip_no_space (c : ascii) (r : str) :
  isspace_c c = false -> lstrip (c :: r) = c :: r.
Proof. intros H. simpl. rewrite H. reflexivity. Qed.

Lemma decimal_no_space (c : ascii) : isdecimal_c c = true -> isspace_c c = false.
Proof.
  destruct c as [[] [] [] [] [] [] [] []]; vm_compute; congruence.
Qed.

Lemma decimal_no_paren (c : ascii) : isdecimal_c c = true -> c <> "("%char.
Proof. intros H ->. discriminate. Qed.

Lemma space_no_paren (c : ascii) : isspace_c c = true -> c <> "("%char.
Proof. intros H ->. discriminate. Qed.

Lemma forallb_no_paren (p : ascii -> bool) (s : str) :
  (forall c, p c = true -> c <> "("%char) ->
  forallb p s = true -> Forall (fun c => c <> "("%char) s.
Proof.
  intros Hp H. apply Forall_forall. intros c Hc.
  apply Hp. rewrite forallb_forall in H. apply H. apply list_elem_of_In. exact Hc.
Qed.

(** The recogniser accepts exactly the texts that start with a parenthesized
    date, and returns its groups and what follows. *)
Lemma fecha_al_inicio_sound (s : str) (g : grupos) (resto : str) :
  fecha_al_inicio s = Some (g, resto) ->
  exists t, s = t ++ resto /\ es_fecha_entre_parentesis t g.
Proof.
  unfold fecha_al_inicio. intros H.
  apply bind_Some in H as (s1 & H1 & H). apply quitar_spec in H1.
  apply bind_Some in H as ([a s2] & H2 & H). apply tomar_digitos_spec in H2.
  apply bind_Some in H as (s3 & H3 & H). apply quitar_spec in H3.
  apply bind_Some in H as ([m s4] & H4 & H). apply tomar_digitos_spec in H4.
  apply bind_Some in H as (s5 & H5 & H). apply quitar_spec in H5.
  apply bind_Some in H as ([d s6] & H6 & H). apply tomar_digitos_spec in H6.
  apply bind_Some in H as (s7 & H7 & H). apply quitar_spec in H7.
  injection H as <- <-.
  destruct (lstrip_decomp s1) as (w1 & Hw1 & Hs1).
  destruct (lstrip_decomp s6) as (w2 & Hw2 & Hs2).
  destruct H2 as (E2 & La & Da), H4 as (E4 & Lm & Dm), H6 as (E6 & Ld & Dd).
  exists (lit "(" ++ w1 ++ a ++ lit "-" ++ m ++ lit "-" ++ d ++ w2 ++ lit ")").
  split.
  - rewrite H1, Hw1, E2, H3, E4, H5, E6, Hw2, H7.
    simpl. repeat (rewrite <- ?app_assoc; simpl). reflexivity.
  - exists w1, w2. repeat split; assumption.
Qed.

Lemma fecha_al_inicio_complete (t : str) (g : grupos) (resto : str) :
  es_fecha_entre_parentesis t g -> fecha_al_inicio (t ++ resto) = Some (g, resto).
Proof.
  destruct g as [[a m] d].
  intros (w1 & w2 & -> & Hw1 & Hw2 & La & Da & Lm & Dm & Ld & Dd).
  unfold fecha_al_inicio. simpl.
  repeat (rewrite <- ?app_assoc; simpl).
  rewrite lstrip_app_space by exact Hw1.
  destruct a as [|a0 a']; [discriminate|].
  assert (Ha0 : isspace_c a0 = false).
  { apply decimal_no_space. simpl in Da. apply andb_true_iff in Da. tauto. }
  rewrite <- app_comm_cons, lstrip_no_space by exact Ha0.
  rewrite app_comm_cons.
  rewrite (proj2 (tomar_digitos_spec 4 _ (a0 :: a') _) (conj eq_refl (conj La Da))).
  simpl.
  rewrite (proj2 (tomar_digitos_spec 2 _ m _) (conj eq_refl (conj Lm Dm))).
  simpl.
  rewrite (proj2 (tomar_digitos_spec 2 _ d _) (conj eq_refl (conj Ld Dd))).
  simpl.
  rewrite lstrip_app_space by exact Hw2.
  reflexivity.
Qed.

(** After its first character a match has no opening parenthesis. *)
Lemma fecha_al_inicio_interior (c : ascii) (s' : str) (g : grupos) (resto : str) :
  fecha_al_inicio (c :: s') = Some (g, resto) ->
  exists mid, s' = mid ++ resto /\ Forall (fun x => x <> "("%char) mid.
Proof.
  intros H. apply fecha_al_inicio_sound in H. destruct H as (t & Ht & Hf).
  destruct g as [[a m] d].
  destruct Hf as (w1 & w2 & -> & Hw1 & Hw2 & La & Da & Lm & Dm & Ld & Dd).
  simpl in Ht. injection Ht as -> ->.
  exists (w1 ++ a ++ lit "-" ++ m ++ lit "-" ++ d ++ w2 ++ lit ")").
  split.
  - repeat (rewrite <- ?app_assoc; simpl). reflexivity.
  - repeat apply Forall_app_2;
      try (apply (forallb_no_paren isspace_c); [apply space_no_paren|assumption]);
      try (apply (forallb_no_paren isdecimal_c); [apply decimal_no_paren|assumption]);
      repeat constructor; discriminate.
Qed.

Lemma fecha_al_inicio_paren (s : str) (x : grupos * str) :
  fecha_al_inicio s = Some x -> exists s', s = "("%char :: s'.
Proof.
  unfold fecha_al_inicio. intros H.
  apply bind_Some in H as (s1 & H1 & _). apply quitar_spec in H1. eauto.
Qed.

(** Passing over characters that are not an opening parenthesis. *)
Lemma findall_go_skip (mid s : str) :
  findall_go (length mid) (mid ++ s) = findall_go 0 s.
Proof.
  induction mid as [|c mid IH]; simpl; [reflexivity|exact IH].
Qed.

(** The search, one position at a time. *)
Lemma findall_cons (c : ascii) (s' : str) :
  findall_fecha (c :: s') =
  match fecha_al_inicio (c :: s') with
  | Some (g, resto) => g :: findall_fecha resto
  | None => findall_fecha s'
  end.
Proof.
  unfold findall_fecha. simpl.
  destruct (fecha_al_inicio (c :: s')) as [[g resto]|] eqn:E; [|reflexivity].
  destruct (fecha_al_inicio_interior _ _ _ _ E) as (mid & -> & _).
  rewrite length_app.
  replace (length mid + length resto - length resto)%nat with (length mid) by lia.
  rewrite findall_go_skip. reflexivity.
Qed.

Lemma hay_fecha_cons (c : ascii) (s : str) : hay_fecha s -> hay_fecha (c :: s).
Proof.
  intros (pre & t & post & g & -> & H). exists (c :: pre), t, post, g. auto.
Qed.

Lemma hay_fecha_app (u s : str) : hay_fecha s -> hay_fecha (u ++ s).
Proof.
  induction u as [|c u IH]; intros H; [exact H|]. apply hay_fecha_cons. auto.
Qed.

Lemma hay_fecha_al_inicio (s : str) (g : grupos) (resto : str) :
  fecha_al_inicio s = Some (g, resto) -> hay_fecha s.
Proof.
  intros H. apply fecha_al_inicio_sound in H. destruct H as (t & -> & H).
  exists [], t, resto, g. auto.
Qed.

(** Without a match at the first position, a date of the text lies in the
    rest of it. *)
Lemma hay_fecha_tail (c : ascii) (s' : str) :
  fecha_al_inicio (c :: s') = None -> hay_fecha (c :: s') -> hay_fecha s'.
Proof.
  intros Hn (pre & t & post & g & E & H). destruct pre as [|x pre].
  - simpl in E. rewrite E, (fecha_al_inicio_complete t g post H) in Hn. discriminate.
  - injection E as -> ->. exists pre, t, post, g. auto.
Qed.

Lemma findall_nil_iff (s : str) : findall_fecha s = [] <-> ~ hay_fecha s.
Proof.
  induction s as [|c s' IH].
  - split; [|reflexivity]. intros _ (pre & t & post & [[a m] d] & E & H).
    destruct H as (w1 & w2 & -> & _). destruct pre; discriminate.
  - rewrite findall_cons.
    destruct (fecha_al_inicio (c :: s')) as [[g resto]|] eqn:E.
    + split; [discriminate|]. intros H. destruct H.
      apply (hay_fecha_al_inicio _ _ _ E).
    + rewrite IH. split.
      * intros H Hc. apply H. apply (hay_fecha_tail c s' E Hc).
      * intros H Hs. apply H. apply hay_fecha_cons. exact Hs.
Qed.

Lemma ultima_fecha_app (u s : str) (g : grupos) :
  ultima_fecha s g -> ultima_fecha (u ++ s) g.
Proof.
  intros (pre & t & post & -> & H & Hn). exists (u ++ pre), t, post.
  rewrite <- app_assoc. auto.
Qed.

Lemma last_findall_sound (n : nat) :
  forall (s : str) (g : grupos),
    (length s <= n)%nat -> last (findall_fecha s) = Some g -> ultima_fecha s g.
Proof.
  induction n as [|n IH]; intros s g Hn H.
  - destruct s; [discriminate|simpl in Hn; lia].
  - destruct s as [|c s']; [discriminate|].
    rewrite findall_cons in H.
    destruct (fecha_al_inicio (c :: s')) as [[g0 resto]|] eqn:E.
    + pose proof (fecha_al_inicio_sound _ _ _ E) as (t & Ht & Hf).
      destruct (fecha_al_inicio_interior _ _ _ _ E) as (mid & Hmid & _).
      rewrite last_cons in H.
      destruct (last (findall_fecha resto)) as [g1|] eqn:El.
      * injection H as ->. rewrite Ht. apply ultima_fecha_app.
        apply IH; [|exact El]. subst s'. simpl in Hn. rewrite length_app in Hn. lia.
      * injection H as ->. apply last_None, findall_nil_iff in El.
        exists [], t, resto. auto.
    + apply (ultima_fecha_app [c]). apply IH; [simpl in Hn; lia|exact H].
Qed.

(** An opening parenthesis of the text after a run without one is not in
    the run. *)
Lemma sin_parentesis_prefijo (mid : str) :
  Forall (fun x => x <> "("%char) mid ->
  forall (resto pre t : str),
    mid ++ resto = pre ++ "("%char :: t ->
    exists pre', pre = mid ++ pre' /\ resto = pre' ++ "("%char :: t.
Proof.
  induction 1 as [|x mid Hx Hmid IH]; intros resto pre t E.
  - exists pre. auto.
  - destruct pre as [|y pre].
    + simpl in E. injection E as -> _. contradiction.
    + simpl in E. injection E as -> E.
      destruct (IH _ _ _ E) as (pre' & -> & ->). exists pre'. auto.
Qed.

Lemma es_fecha_paren (t : str) (g : grupos) :
  es_fecha_entre_parentesis t g -> exists t', t = "("%char :: t'.
Proof.
  destruct g as [[a m] d]. intros (w1 & w2 & -> & _). simpl. eauto.
Qed.

Lemma last_findall_complete (n : nat) :
  forall (s : str) (g : grupos),
    (length s <= n)%nat -> ultima_fecha s g -> last (findall_fecha s) = Some g.
Proof.
  induction n as [|n IH]; intros s g Hn (pre & t & post & Es & Hf & Hp).
  - destruct (es_fecha_paren t g Hf) as (t' & ->).
    subst s. rewrite !length_app in Hn. simpl in Hn. lia.
  - destruct s as [|c s'].
    { destruct (es_fecha_paren t g Hf) as (t' & ->). destruct pre; discriminate. }
    rewrite findall_cons.
    destruct (fecha_al_inicio (c :: s')) as [[g0 resto]|] eqn:E.
    + destruct pre as [|x pre].
      * simpl in Es. rewrite Es, (fecha_al_inicio_complete t g post Hf) in E.
        injection E as <- <-.
        apply findall_nil_iff in Hp. rewrite Hp. reflexivity.
      * injection Es as -> Es.
        destruct (fecha_al_inicio_interior _ _ _ _ E) as (mid & Hmid & Hno).
        destruct (es_fecha_paren t g Hf) as (t' & Et).
        assert (E2 : mid ++ resto = pre ++ "("%char :: (t' ++ post)).
        { rewrite <- Hmid, Es, Et. reflexivity. }
        destruct (sin_parentesis_prefijo mid Hno _ _ _ E2) as (pre' & -> & Er).
        assert (Hu : ultima_fecha resto g).
        { exists pre', t, post. rewrite Er, Et. repeat split; [rewrite <- Et|]; assumption. }
        rewrite last_cons, (IH resto g); [reflexivity| |exact Hu].
        rewrite Hmid in Hn. simpl in Hn. rewrite length_app in Hn. lia.
    + destruct pre as [|x pre].
      * simpl in Es. rewrite Es, (fecha_al_inicio_complete t g post Hf) in E.
        discriminate.
      * injection Es as -> Es. apply IH; [simpl in Hn; lia|].
        exists pre, t, post. auto.
Qed.

(** [matches_fecha[-1]] is the last parenthesized date of the part. *)
Lemma last_findall_spec (s : str) (g : grupos) :
  last (findall_fecha s) = Some g <-> ultima_fecha s g.
Proof.
  split.
  - apply (last_findall_sound (length s)). lia.
  - apply (last_findall_complete (length s)). lia.
Qed.

Lemma antes_de_parentesis_spec (s : str) :
  Forall (fun x => x <> "("%char) (antes_de_parentesis s) /\
  (s = antes_de_parentesis s \/
   exists resto, s = antes_de_parentesis s ++ "("%char :: resto).
Proof.
  induction s as [|c s [IH1 IH2]]; simpl.
  - split; [constructor|left; reflexivity].
  - destruct (bool_decide_reflect (c = "("%char)) as [->|Hc].
    + split; [constructor|]. right. exists s. reflexivity.
    + split; [constructor; assumption|].
      destruct IH2 as [IH2|[resto IH2]].
      * left. f_equal. exact IH2.
      * right. exists resto. simpl. f_equal. exact IH2.
Qed.

(** What a part contributes: nothing without a date or with a last date out
    of 2021..2025; otherwise the year of its last date and the name before
    its first parenthesis. *)
Lemma info_de_parte_some (parte : str) (e : programa_info) :
  info_de_parte parte = Some e ->
  2021 <= año e <= 2025 /\
  exists a m d pre resto,
    ultima_fecha parte (a, m, d) /\
    año e = digits_val a /\
    fecha_completa e = str_of_Z (año e) ++ lit "-" ++ m ++ lit "-" ++ d /\
    parte = pre ++ "("%char :: resto /\
    Forall (fun x => x <> "("%char) pre /\
    programa e = strip pre.
Proof.
  unfold info_de_parte.
  destruct (last (findall_fecha parte)) as [[[a m] d]|] eqn:El; [|discriminate].
  destruct ((2021 <=? digits_val a) && (digits_val a <=? 2025)) eqn:Er; [|discriminate].
  unfold match_programa.
  destruct (antes_de_parentesis parte) as [|c pre] eqn:Ep; [discriminate|].
  intros [= <-]. simpl.
  apply andb_true_iff in Er. destruct Er as [E1 E2].
  apply Z.leb_le in E1. apply Z.leb_le in E2.
  split; [lia|].
  apply last_findall_spec in El.
  exists a, m, d, (c :: pre).
  destruct (antes_de_parentesis_spec parte) as [Hno [Hall|[resto Hr]]];
    rewrite Ep in *.
  - exfalso. destruct El as (p & t & q & E & Hf & _).
    destruct (es_fecha_paren t _ Hf) as (t' & ->).
    rewrite Hall in E. rewrite E in Hno.
    apply Forall_app in Hno. destruct Hno as [_ Hno].
    inversion Hno as [|? ? Hx _]. contradiction.
  - exists resto. repeat split; auto.
Qed.

Lemma info_de_parte_sin_fecha (parte : str) :
  ~ hay_fecha parte -> info_de_parte parte = None.
Proof.
  intros H. apply findall_nil_iff in H. unfold info_de_parte. rewrite H. reflexivity.
Qed.

Lemma info_de_parte_fuera_de_rango (parte : str) (a m d : str) :
  ultima_fecha parte (a, m, d) ->
  ~ (2021 <= digits_val a <= 2025) ->
  info_de_parte parte = None.
Proof.
  intros H Hr. apply last_findall_spec in H. unfold info_de_parte. rewrite H.
  destruct ((2021 <=? digits_val a) && (digits_val a <=? 2025)) eqn:Er; [|reflexivity].
  apply andb_true_iff in Er. destruct Er as [E1 E2].
  apply Z.leb_le in E1. apply Z.leb_le in E2. lia.
Qed.

Lemma extraer_omap_gen (partes : list str) :
  forall acc,
    fold_left
      (fun programas_info parte =>
         match info_de_parte parte with
         | Some info => programas_info ++ [info]
         | None => programas_info
         end) partes acc
    = acc ++ omap info_de_parte partes.
Proof.
  induction partes as [|parte partes IH]; intros acc; simpl.
  - rewrite app_nil_r. reflexivity.
  - rewrite IH. destruct (info_de_parte parte); [|reflexivity].
    rewrite <- app_assoc. reflexivity.
Qed.

Lemma extraer_omap (s : str) :
  s <> [] ->
  extraer_programas_y_fechas (Some s) = omap info_de_parte (split_sep (lit " - ") s).
Proof.
  intros H. unfold extraer_programas_y_fechas.
  apply eqb_neq in H. rewrite H. apply extraer_omap_gen.
Qed.

(** C10.  The entries of [extraer_programas_y_fechas] are the contributions
    of the parts of the text between [" - "], in order, at most one per
    part.  A part contributes nothing when it has no parenthesized date or
    when the year of its last one is outside 2021..2025; otherwise the
    entry has that year and, as program, the stripped text before the first
    parenthesis of the part.  So every entry has a year in 2021..2025. *)
Theorem C10_entries_from_last_date_in_range :
  (forall (programa_str : cell) (e : programa_info),
      In e (extraer_programas_y_fechas programa_str) -> 2021 <= año e <= 2025) /\
  (forall s : str,
      s <> [] ->
      extraer_programas_y_fechas (Some s)
        = omap info_de_parte (split_sep (lit " - ") s)) /\
  (forall (parte : str) (e : programa_info),
      info_de_parte parte = Some e ->
      exists a m d pre resto,
        ultima_fecha parte (a, m, d) /\
        año e = digits_val a /\
        parte = pre ++ "("%char :: resto /\
        Forall (fun x => x <> "("%char) pre /\
        programa e = strip pre) /\
  (forall parte : str, ~ hay_fecha parte -> info_de_parte parte = None) /\
  (forall (parte : str) (a m d : str),
      ultima_fecha parte (a, m, d) ->
      ~ (2021 <= digits_val a <= 2025) ->
      info_de_parte parte = None).
Proof.
  split; [|split; [|split; [|split]]].
  - intros [s|] e; [|intros []].
    destruct (decide (s = [])) as [->|Hs]; [intros []|].
    rewrite (extraer_omap s Hs). intros H.
    apply list_elem_of_In, list_elem_of_omap in H. destruct H as (parte & _ & H).
    apply (info_de_parte_some parte e H).
  - apply extraer_omap.
  - intros parte e H.
    destruct (info_de_parte_some parte e H)
      as (_ & a & m & d & pre & resto & H1 & H2 & _ & H3 & H4 & H5).
    exists a, m, d, pre, resto. auto.
  - apply info_de_parte_sin_fecha.
  - apply info_de_parte_fuera_de_rango.
Qed.

(** ** Graduates of another program *)

(** The loop over the titles keeps, in order, the titles of another program
    with an earlier graduation. *)
Lemma programas_diferentes_filter (tipo : option str) (nombre_actual : str)
    (año_cursando : cell) (ts : EgresadosLimpios.titulos) :
  forall acc,
    fold_left
      (fun acc (t : str * option Z) =>
         let '(titulo, año_grado) := t in
         if negb (EgresadosLimpios.es_mismo_programa tipo nombre_actual titulo)
            && EgresadosLimpios.fecha_es_anterior año_grado año_cursando
         then acc ++ [EgresadosLimpios.titulo_con_año titulo año_grado]
         else acc) ts acc
    = acc ++
      map (fun t => EgresadosLimpios.titulo_con_año (fst t) (snd t))
        (List.filter
           (fun t => negb (EgresadosLimpios.es_mismo_programa tipo nombre_actual (fst t))
                     && EgresadosLimpios.fecha_es_anterior (snd t) año_cursando) ts).
Proof.
  induction ts as [|[titulo año_grado] ts IH]; intros acc; simpl.
  - rewrite app_nil_r. reflexivity.
  - rewrite IH.
    destruct (negb _ && _); simpl; [rewrite <- app_assoc|]; reflexivity.
Qed.



(** ** Summaries per year and program *)

Lemma filter_filter_andb {A : Type} (f g : A -> bool) (l : list A) :
  List.filter f (List.filter g l) = List.filter (fun x => g x && f x) l.
Proof.
  induction l as [|x l IH]; simpl; [reflexivity|].
  destruct (g x); simpl; [destruct (f x)|]; rewrite ?IH; reflexivity.
Qed.

Lemma filter_map_comm {A B : Type} (f : A -> B) (p : B -> bool) (l : list A) :
  List.filter p (map f l) = map f (List.filter (fun x => p (f x)) l).
Proof.
  induction l as [|x l IH]; simpl; [reflexivity|].
  destruct (p (f x)); simpl; rewrite IH; reflexivity.
Qed.

Lemma insertar_unico_in {A : Type} (ltb : A -> A -> bool) (x z : A) (l : list A) :
  In z (insertar_unico ltb x l) -> z = x \/ In z l.
Proof.
  induction l as [|y l IH]; simpl.
  - intros [<-|[]]. auto.
  - destruct (ltb x y); [simpl; intuition auto|].
    destruct (ltb y x); simpl; [|auto].
    intros [<-|H]; [auto|]. destruct (IH H); auto.
Qed.

Lemma ordenar_unicos_in {A : Type} (ltb : A -> A -> bool) (z : A) (l : list A) :
  In z (ordenar_unicos ltb l) -> In z l.
Proof.
  induction l as [|x l IH]; simpl; [auto|].
  intros H. apply insertar_unico_in in H. destruct H as [->|H]; auto.
Qed.

Section Tricotomia.

Context {A : Type} (ltb : A -> A -> bool).
Hypothesis tricotomia : forall a b, ltb a b = false -> ltb b a = false -> a = b.

Lemma insertar_unico_keeps (x z : A) (l : list A) :
  z = x \/ In z l -> In z (insertar_unico ltb x l).
Proof.
  induction l as [|y l IH]; simpl.
  - intros [->|[]]. auto.
  - destruct (ltb x y) eqn:E1; [simpl; intuition auto|].
    destruct (ltb y x) eqn:E2; simpl.
    + intros [->|[->|H]]; auto.
    + rewrite (tricotomia x y E1 E2). intros [->|[->|H]]; auto.
Qed.

Lemma ordenar_unicos_keeps (z : A) (l : list A) :
  In z l -> In z (ordenar_unicos ltb l).
Proof.
  induction l as [|x l IH]; simpl; [auto|].
  intros [->|H]; apply insertar_unico_keeps; auto.
Qed.

End Tricotomia.

Lemma cp_inj (x y : ascii) : cp x = cp y -> x = y.
Proof.
  unfold cp. intros H.
  rewrite <- (ascii_N_embedding x), <- (ascii_N_embedding y), H. reflexivity.
Qed.

Lemma str_ltb_tricotomia (a b : str) :
  str_ltb a b = false -> str_ltb b a = false -> a = b.
Proof.
  revert b. induction a as [|x a IH]; intros [|y b]; simpl; try discriminate; auto.
  destruct (cp x <? cp y)%N eqn:E1; [discriminate|].
  destruct (cp y <? cp x)%N eqn:E2; [discriminate|].
  apply N.ltb_ge in E1. apply N.ltb_ge in E2.
  intros H1 H2. f_equal; [|auto].
  apply cp_inj. lia.
Qed.

Lemma contar_si_filter {R : Type} (f : R -> str) (g : list R) :
  contar_si (map f g) = length (List.filter (fun x => eqb Si (f x)) g).
Proof.
  unfold contar_si. rewrite filter_map_comm, length_map. reflexivity.
Qed.



(** Every year and code that some record has gets a row. *)
Lemma eg_resumen_año_completo (df : list EgresadosPosgrados.registro)
    (x : EgresadosPosgrados.registro) (c : str) :
  In x df -> EgresadosPosgrados.Programa_Codigo x = Some c ->
  exists r, In r (EgresadosPosgrados.resumen_año df (EgresadosPosgrados.Año x)) /\
            EgresadosPosgrados.Codigo_Programa r = c.
Proof.
  intros Hx Hc. unfold EgresadosPosgrados.resumen_año.
  eexists. split.
  - apply in_map_iff. exists c. split; [reflexivity|].
    apply (ordenar_unicos_keeps str_ltb str_ltb_tricotomia).
    apply list_elem_of_In, list_elem_of_omap. exists x. split; [|exact Hc].
    apply list_elem_of_In, filter_In. split; [exact Hx|]. apply Z.eqb_refl.
  - reflexivity.
Qed.

Lemma el_resumen_año_completo (df : list EgresadosLimpios.registro)
    (x : EgresadosLimpios.registro) (año : str) :
  In x df -> EgresadosLimpios.Año x = Some año ->
  exists r, In r (EgresadosLimpios.resumen_año df año) /\
            EgresadosLimpios.Codigo_Programa r = EgresadosLimpios.Programa_Codigo x.
Proof.
  intros Hx Ha. unfold EgresadosLimpios.resumen_año.
  eexists. split.
  - apply in_map_iff. exists (EgresadosLimpios.Programa_Codigo x). split; [reflexivity|].
    apply (ordenar_unicos_keeps str_ltb str_ltb_tricotomia).
    apply in_map. apply filter_In. split; [exact Hx|].
    apply bool_decide_eq_true. exact Ha.
  - reflexivity.
Qed.


(** ** Separators *)

(** app.py writes its report with the separator of pandas, a comma. *)
Lemma C7_app_writes_with_comma :
  In (Separadores.mkLlamada "app.py" 172 Separadores.Escribe
        "cargos_directivos_analisis.csv" None) Separadores.llamadas /\
  Separadores.sep_efectivo
    (Separadores.mkLlamada "app.py" 172 Separadores.Escribe
       "cargos_directivos_analisis.csv" None) = ","%string /\
  ~ Forall (fun l => Separadores.sep_efectivo l = ";"%string) Separadores.llamadas.
Proof.
  split; [|split].
  - vm_compute. tauto.
  - reflexivity.
  - rewrite Forall_forall. intros H.
    specialize (H (Separadores.mkLlamada "app.py" 172 Separadores.Escribe
                     "cargos_directivos_analisis.csv" None)).
    assert (Hin : Separadores.mkLlamada "app.py" 172 Separadores.Escribe
                    "cargos_directivos_analisis.csv" None ∈ Separadores.llamadas).
    { apply list_elem_of_In. vm_compute. tauto. }
    specialize (H Hin). discriminate.
Qed.

(** C7, amended.  A call reads or writes with ';' exactly when its file is
    not one of the three reports on the surveys; those three are written,
    and the first of them read back by programas.py, with the comma of
    pandas. *)
Theorem C7_semicolon_except_survey_reports :
  Forall
    (fun l =>
       (Separadores.es_informe_de_encuestas l = false ->
        Separadores.sep_efectivo l = ";"%string) /\
       (Separadores.es_informe_de_encuestas l = true ->
        Separadores.sep_efectivo l = ","%string))
    Separadores.llamadas /\
  map (fun l => (Separadores.script l, Separadores.linea l))
    (List.filter (fun l => negb (Separadores.con_punto_y_coma l)) Separadores.llamadas)
  = [ ("app.py", 172%nat); ("programas.py", 75%nat); ("programas.py", 214%nat);
      ("totalxano.py", 322%nat) ]%string /\
  Forall
    (fun l => Separadores.op l = Separadores.Lee ->
              Separadores.script l <> "programas.py"%string ->
              Separadores.sep_efectivo l = ";"%string)
    Separadores.llamadas.
Proof.
  split; [|split].
  - repeat constructor; simpl; intros; try discriminate; reflexivity.
  - reflexivity.
  - repeat constructor; simpl; intros; try discriminate; try reflexivity;
      try contradiction.
Qed.

(** ** Encodings *)

(** The chain of the loaders stops at the first encoding that reads the
    file, having tried, in order, those before it, which all raised. *)
Lemma cadena_spec {T : Type} (leer : Lectura.codificacion -> Lectura.resultado T)
    (cs : list Lectura.codificacion) :
  (exists pre c post x,
      cs = pre ++ c :: post /\
      Forall (fun c' => exists e, leer c' = Lectura.Lanza e) pre /\
      leer c = Lectura.Bien x /\
      Lectura.cadena leer cs = (pre ++ [c], Some x)) \/
  (Forall (fun c' => exists e, leer c' = Lectura.Lanza e) cs /\
   Lectura.cadena leer cs = (cs, None)).
Proof.
  induction cs as [|c cs IH]; simpl.
  - right. split; [constructor|reflexivity].
  - destruct (leer c) as [x|e] eqn:E.
    + left. exists [], c, cs, x. repeat split; auto.
    + destruct IH as [(pre & c' & post & x & -> & Hpre & Hc & ->)|[Hall ->]].
      * left. exists (c :: pre), c', post, x. repeat split; auto.
        constructor; [eauto|exact Hpre].
      * right. split; [|reflexivity]. constructor; [eauto|exact Hall].
Qed.

(** programas.py reads its file once, as UTF-8: a file that is not UTF-8
    raises there and is not read again, although Latin-1 would read it, as
    the readers of the survey files do. *)
Lemma C5_single_read_has_no_fallback :
  let leer := Lectura.leer_bytes Lectura.bytes_e_aguda in
  leer Lectura.Utf8 = Lectura.Lanza Lectura.UnicodeDecodeError /\
  Lectura.sin_respaldo leer
    = ([Lectura.Utf8Sig], Lectura.Lanza Lectura.UnicodeDecodeError) /\
  ~ In Lectura.Latin1 (fst (Lectura.sin_respaldo leer)) /\
  Lectura.con_respaldo_unicode leer
    = ([Lectura.Utf8; Lectura.Latin1],
       Lectura.Bien (Lectura.Latin1, Lectura.bytes_e_aguda)).
Proof.
  repeat split; try reflexivity.
  simpl. intros [H|[]]. discriminate.
Qed.

(** C5, amended.  The readers of the survey files try UTF-8 and read again
    as Latin-1 exactly when the first read raised [UnicodeDecodeError];
    limpiar_csv_posgrados.py does so when the first read raised anything;
    the loaders go through UTF-8, Latin-1, ISO-8859-1 and cp1252, each tried
    exactly when those before it raised.  In all of them a first read that
    succeeds is the result and nothing else is tried.  The reads of
    programas.py and of [procesar_archivo_limpio] are single reads. *)
Theorem C5_fallback_only_after_failed_read
    (T : Type) (leer : Lectura.codificacion -> Lectura.resultado T) :
  (* app.py, totalxano.py, verificar_valores.py *)
  ((forall x, leer Lectura.Utf8 = Lectura.Bien x ->
              Lectura.con_respaldo_unicode leer = ([Lectura.Utf8], Lectura.Bien x)) /\
   (leer Lectura.Utf8 = Lectura.Lanza Lectura.UnicodeDecodeError ->
    Lectura.con_respaldo_unicode leer
      = ([Lectura.Utf8; Lectura.Latin1], leer Lectura.Latin1)) /\
   (forall e, e <> Lectura.UnicodeDecodeError ->
              leer Lectura.Utf8 = Lectura.Lanza e ->
              Lectura.con_respaldo_unicode leer = ([Lectura.Utf8], Lectura.Lanza e)) /\
   (In Lectura.Latin1 (fst (Lectura.con_respaldo_unicode leer)) <->
    leer Lectura.Utf8 = Lectura.Lanza Lectura.UnicodeDecodeError)) /\
  (* limpiar_csv_posgrados.py *)
  ((forall x, leer Lectura.Utf8 = Lectura.Bien x ->
              Lectura.con_respaldo leer = ([Lectura.Utf8], Lectura.Bien x)) /\
   (forall e, leer Lectura.Utf8 = Lectura.Lanza e ->
              Lectura.con_respaldo leer
                = ([Lectura.Utf8; Lectura.Latin1], leer Lectura.Latin1)) /\
   (In Lectura.Latin1 (fst (Lectura.con_respaldo leer)) <->
    exists e, leer Lectura.Utf8 = Lectura.Lanza e)) /\
  (* the loaders *)
  ((forall x, leer Lectura.Utf8 = Lectura.Bien x ->
              Lectura.leer_bdd leer = ([Lectura.Utf8], Some x)) /\
   ((exists pre c post x,
        Lectura.codificaciones_bdd = pre ++ c :: post /\
        Forall (fun c' => exists e, leer c' = Lectura.Lanza e) pre /\
        leer c = Lectura.Bien x /\
        Lectura.leer_bdd leer = (pre ++ [c], Some x)) \/
    (Forall (fun c' => exists e, leer c' = Lectura.Lanza e) Lectura.codificaciones_bdd /\
     Lectura.leer_bdd leer = (Lectura.codificaciones_bdd, None)))) /\
  (* programas.py, procesar_archivo_limpio *)
  Lectura.sin_respaldo leer = ([Lectura.Utf8Sig], leer Lectura.Utf8Sig).
Proof.
  split; [|split; [|split]].
  - unfold Lectura.con_respaldo_unicode. repeat split.
    + intros x ->. reflexivity.
    + intros ->. reflexivity.
    + intros e He ->. destruct e; try reflexivity. contradiction.
    + destruct (leer Lectura.Utf8) as [x|[| |n]]; simpl; intros H;
        decompose [or] H; try discriminate; try contradiction; reflexivity.
    + intros ->. simpl. auto.
  - unfold Lectura.con_respaldo. repeat split.
    + intros x ->. reflexivity.
    + intros e ->. reflexivity.
    + destruct (leer Lectura.Utf8) as [x|e]; simpl; intros H;
        decompose [or] H; try discriminate; try contradiction; eauto.
    + intros [e ->]. simpl. auto.
  - split.
    + intros x H. unfold Lectura.leer_bdd. simpl. rewrite H. reflexivity.
    + apply cadena_spec.
  - reflexivity.
Qed.

(** ** The dictionary of totalxano.py *)

Import TotalXAno.



Lemma dict_get_none (k : str) (d : dict) :
  dict_get k d = None <-> ~ In k (map fst d).
Proof.
  induction d as [|[k0 v0] d IH]; simpl; [tauto|].
  destruct (eqb k0 k) eqn:E.
  - apply eqb_eq in E. split; [discriminate|]. intros H. destruct H. auto.
  - apply eqb_neq in E. rewrite IH. tauto.
Qed.

(** Writing under a key keeps the keys and their order; a new key goes to
    the end. *)
Lemma dict_set_keys (k : str) (v : registro) (d : dict) :
  map fst (dict_set k v d)
  = match dict_get k d with
    | Some _ => map fst d
    | None => map fst d ++ [k]
    end.
Proof.
  induction d as [|[k0 v0] d IH]; simpl; [reflexivity|].
  destruct (eqb k0 k) eqn:E; simpl.
  - apply eqb_eq in E. subst. reflexivity.
  - rewrite IH. destruct (dict_get k d); reflexivity.
Qed.

Lemma dict_set_in (k : str) (v : registro) (d : dict) (x : str * registro) :
  In x (dict_set k v d) -> x = (k, v) \/ In x d.
Proof.
  induction d as [|[k0 v0] d IH]; simpl.
  - intros [<-|[]]. auto.
  - destruct (eqb k0 k); simpl.
    + intros [<-|H]; auto.
    + intros [<-|H]; auto. destruct (IH H); auto.
Qed.

(** What [guardar] does to the keys: none is lost or moved. *)
Lemma guardar_keys (d : dict) (k : str) (r : registro) :
  map fst (fst (guardar d k r)) = map fst d \/
  (~ In k (map fst d) /\ map fst (fst (guardar d k r)) = map fst d ++ [k]).
Proof.
  unfold guardar. destruct (dict_get k d) as [r0|] eqn:Eg.
  - left.
    destruct (Fecha_Encuesta r) as [f|]; [|reflexivity].
    destruct (Fecha_Encuesta r0) as [f0|].
    + destruct (mayor f f0) as [[|]|e]; simpl; try reflexivity.
      rewrite dict_set_keys, Eg. reflexivity.
    + simpl. rewrite dict_set_keys, Eg. reflexivity.
  - right. simpl. rewrite dict_set_keys, Eg.
    split; [apply dict_get_none; exact Eg|reflexivity].
Qed.

Lemma guardar_in (d : dict) (k : str) (r : registro) (x : str * registro) :
  In x (fst (guardar d k r)) -> x = (k, r) \/ In x d.
Proof.
  unfold guardar. destruct (dict_get k d) as [r0|].
  - destruct (Fecha_Encuesta r) as [f|]; [|auto].
    destruct (Fecha_Encuesta r0) as [f0|].
    + destruct (mayor f f0) as [[|]|e]; simpl; auto; apply dict_set_in.
    + simpl. apply dict_set_in.
  - simpl. apply dict_set_in.
Qed.


(** A loop keeps what each of its steps keeps, whether it ends or an
    exception leaves it. *)
Lemma iterar_inv {X : Type} (P : dict -> Prop) (f : dict -> X -> avance) (l : list X) :
  (forall d x, In x l -> P d -> P (fst (f d x))) ->
  forall d, P d -> P (fst (iterar f l d)).
Proof.
  induction l as [|x l IH]; intros Hf d Hd; simpl; [exact Hd|].
  pose proof (Hf d x (or_introl eq_refl) Hd) as H1.
  destruct (f d x) as [d' [e|]]; simpl in *; [exact H1|].
  apply IH; [|exact H1]. intros d0 x0 Hx0. apply Hf. right. exact Hx0.
Qed.

Lemma registro_de_clave (to_datetime : str -> marca) (nombre_archivo : str)
    (c : columnas) (row : list cell) (prog_info : Programas.programa_info) :
  fst (registro_de to_datetime nombre_archivo c row prog_info)
  = clave_de (snd (registro_de to_datetime nombre_archivo c row prog_info)).
Proof. reflexivity. Qed.

Lemma paso_fila_inv (P : dict -> Prop) (to_datetime : str -> marca)
    (nombre_archivo : str) (c : columnas) (p : nat) :
  (forall d k r, k = clave_de r -> P d -> P (fst (guardar d k r))) ->
  forall d row, P d -> P (fst (paso_fila to_datetime nombre_archivo c p d row)).
Proof.
  intros Hg d row Hd. unfold paso_fila. apply iterar_inv; [|exact Hd].
  intros d0 info _ Hd0.
  pose proof (registro_de_clave to_datetime nombre_archivo c row info) as Hk.
  destruct (registro_de to_datetime nombre_archivo c row info) as [k r].
  apply Hg; [exact Hk|exact Hd0].
Qed.

Lemma paso_archivo_inv (P : dict -> Prop) (to_datetime : str -> marca) :
  (forall d k r, k = clave_de r -> P d -> P (fst (guardar d k r))) ->
  forall st a, P (registros_unicos st) ->
               P (registros_unicos (paso_archivo to_datetime st a)).
Proof.
  intros Hg st a Hst. unfold paso_archivo.
  destruct (negb (a_existe a)); [exact Hst|].
  destruct (leer_encuesta a) as [df|e]; [|exact Hst].
  assert (H : P (fst (procesar_encuesta to_datetime (a_nombre a) df (registros_unicos st)))).
  { unfold procesar_encuesta.
    destruct (columna_programa (buscar_columnas (e_columnas df))) as [p|]; [|exact Hst].
    apply iterar_inv; [|exact Hst].
    intros d row _ Hd. apply paso_fila_inv; assumption. }
  destruct (procesar_encuesta _ _ _ _) as [d [e|]]; exact H.
Qed.




(** The keys that the dictionary has stay in it, in their order. *)
Lemma guardar_prefix (d0 d : dict) (k : str) (r : registro) :
  map fst d0 `prefix_of` map fst d ->
  map fst d0 `prefix_of` map fst (fst (guardar d k r)).
Proof.
  intros H. destruct (guardar_keys d k r) as [->|[_ ->]]; [exact H|].
  apply prefix_app_r. exact H.
Qed.


Lemma iterar_fold {X : Type} (P : dict -> Prop) (f : dict -> X -> avance) (l : list X) :
  (forall d x, In x l -> P d -> snd (f d x) = None /\ P (fst (f d x))) ->
  forall d, P d ->
            iterar f l d = (fold_left (fun d x => fst (f d x)) l d, None) /\
            P (fold_left (fun d x => fst (f d x)) l d).
Proof.
  induction l as [|x l IH]; intros Hf d Hd; simpl; [auto|].
  destruct (Hf d x (or_introl eq_refl) Hd) as [H1 H2].
  destruct (f d x) as [d' o]. simpl in *. subst o.
  apply IH; [|exact H2]. intros d0 x0 Hx0. apply Hf. right. exact Hx0.
Qed.















(** ** Composite keys *)





(** ** Files that raise *)

(** app.py: the results are what the files that did not fail add, in the
    order of the files, and the errors are those of the files that failed. *)
Lemma app_analizar_gen (archivos : list archivo) :
  forall st,
    App.resultados_totales (fold_left App.paso_archivo archivos st)
      = App.resultados_totales st ++ flat_map App.aporte archivos /\
    App.errores (fold_left App.paso_archivo archivos st)
      = App.errores st ++ omap App.fallo archivos.
Proof.
  induction archivos as [|a l IH]; intros st; simpl.
  - rewrite !app_nil_r. auto.
  - destruct (IH (App.paso_archivo st a)) as [-> ->].
    unfold App.paso_archivo, App.aporte, App.fallo.
    destruct (negb (a_existe a)); simpl; [auto|].
    destruct (App.cuerpo a) as [cs|e]; simpl;
      rewrite <- ?app_assoc, ?app_nil_r; auto.
Qed.

(** In totalxano.py a second file, which raises at its second row, has by
    then replaced the record that the first file had given. *)
Lemma C6_failed_file_replaces_earlier_record :
  let antes := analizar_archivos to_datetime_ejemplo [archivo_mo] in
  let despues := analizar_archivos to_datetime_ejemplo [archivo_mo; archivo_ve] in
  resultados_detallados antes
    = [registro_ana "2021-2025(M0).csv" (Marca false 20230501)] /\
  errores despues = [(lit "2021-2025(VE).csv", Lectura.TypeError)] /\
  resultados_detallados despues
    = [registro_ana "2021-2025(VE).csv" (Marca false 20240501)] /\
  ~ In (registro_ana "2021-2025(M0).csv" (Marca false 20230501))
      (resultados_detallados despues).
Proof.
  assert (H : resultados_detallados
                (analizar_archivos to_datetime_ejemplo [archivo_mo; archivo_ve])
              = [registro_ana "2021-2025(VE).csv" (Marca false 20240501)])
    by (vm_compute; reflexivity).
  split; [vm_compute; reflexivity|].
  split; [vm_compute; reflexivity|].
  split; [exact H|].
  rewrite H. intros [E|[]]. discriminate.
Qed.

Lemma totalxano_paso_archivo_keys (to_datetime : str -> marca) (st : estado) (a : archivo) :
  map fst (registros_unicos st)
    `prefix_of` map fst (registros_unicos (paso_archivo to_datetime st a)).
Proof.
  apply (paso_archivo_inv
           (fun d => map fst (registros_unicos st) `prefix_of` map fst d)).
  - intros d k r _. apply guardar_prefix.
  - reflexivity.
Qed.

Lemma totalxano_analizar_keys (to_datetime : str -> marca) (archivos : list archivo) :
  forall st,
    map fst (registros_unicos st)
      `prefix_of` map fst (registros_unicos (fold_left (paso_archivo to_datetime) archivos st)).
Proof.
  induction archivos as [|a l IH]; intros st; simpl; [reflexivity|].
  etransitivity; [apply (totalxano_paso_archivo_keys to_datetime st a)|apply IH].
Qed.

(** C6, amended.  In both scripts the loop over the files ends for every
    list of files: a file that raises gets its error printed and the loop
    goes on.  In app.py such a file leaves the results as they were, so the
    results are what the other files add, in order.  In totalxano.py a file
    that cannot be read leaves the dictionary as it was; a file that raises
    later leaves it as it is at that point; in every case the keys the
    dictionary had stay in it, in their order. *)
Theorem C6_print_and_continue :
  (forall archivos : list archivo,
      App.resultados_totales (App.analizar_archivos archivos)
        = flat_map App.aporte archivos /\
      App.errores (App.analizar_archivos archivos) = omap App.fallo archivos) /\
  (forall (st : App.estado) (a : archivo) (e : Lectura.excepcion),
      a_existe a = true -> App.cuerpo a = Lectura.Lanza e ->
      App.paso_archivo st a
        = App.mkEstado (App.resultados_totales st) (App.errores st ++ [(a_nombre a, e)])) /\
  (forall (archivos : list archivo) (st : App.estado),
      App.resultados_totales st
        `prefix_of` App.resultados_totales (fold_left App.paso_archivo archivos st)) /\
  (forall (to_datetime : str -> marca) (st : estado) (a : archivo) (e : Lectura.excepcion),
      a_existe a = true -> leer_encuesta a = Lectura.Lanza e ->
      paso_archivo to_datetime st a
        = mkEstado (registros_unicos st) (errores st ++ [(a_nombre a, e)])) /\
  (forall (to_datetime : str -> marca) (st : estado) (a : archivo) (df : encuesta)
          (d : dict) (e : Lectura.excepcion),
      a_existe a = true -> leer_encuesta a = Lectura.Bien df ->
      procesar_encuesta to_datetime (a_nombre a) df (registros_unicos st) = (d, Some e) ->
      paso_archivo to_datetime st a = mkEstado d (errores st ++ [(a_nombre a, e)])) /\
  (forall (to_datetime : str -> marca) (archivos : list archivo) (st : estado),
      map fst (registros_unicos st)
        `prefix_of`
        map fst (registros_unicos (fold_left (paso_archivo to_datetime) archivos st))).
Proof.
  split; [|split; [|split; [|split; [|split]]]].
  - intros archivos. apply (app_analizar_gen archivos (App.mkEstado [] [])).
  - intros st a e Hex Hc. unfold App.paso_archivo. rewrite Hex, Hc. reflexivity.
  - intros archivos st. destruct (app_analizar_gen archivos st) as [-> _].
    apply prefix_app_r. reflexivity.
  - intros to_datetime st a e Hex Hl. unfold paso_archivo. rewrite Hex, Hl. reflexivity.
  - intros to_datetime st a df d e Hex Hl Hp. unfold paso_archivo.
    rewrite Hex, Hl, Hp. reflexivity.
  - intros to_datetime archivos st. apply totalxano_analizar_keys.
Qed.

(** ** The theorems at work on small inputs *)

Lemma C2_first_numeric_value_is_id_witness :
  let row := mkFila (Some (lit "Nivel")) [Some (lit "Posgrado"); Some (lit "20211")] in
  EgresadosPosgrados.candidatos row = [] /\
  EgresadosPosgrados.resultados
    (EgresadosPosgrados.paso ∅ 2021 EgresadosPosgrados.estado_inicial row) = [].
Proof.
  split; [reflexivity|].
  apply (proj1 (proj1 (proj2 C2_first_numeric_value_is_id) ∅ 2021
                  EgresadosPosgrados.estado_inicial _)).
  reflexivity.
Defined.


Lemma C5_fallback_only_after_failed_read_witness :
  let leer := Lectura.leer_bytes Lectura.bytes_e_aguda in
  leer Lectura.Utf8 = Lectura.Lanza Lectura.UnicodeDecodeError /\
  Lectura.con_respaldo_unicode leer = ([Lectura.Utf8; Lectura.Latin1], leer Lectura.Latin1) /\
  Lectura.leer_bdd leer
    = ([Lectura.Utf8; Lectura.Latin1], Some (Lectura.Latin1, Lectura.bytes_e_aguda)).
Proof.
  split; [reflexivity|]. split; [|reflexivity].
  apply (proj1 (proj2 (proj1 (C5_fallback_only_after_failed_read _
                                (Lectura.leer_bytes Lectura.bytes_e_aguda))))).
  reflexivity.
Defined.

Lemma C6_print_and_continue_witness :
  let st := App.analizar_archivos [App.archivo_repetido] in
  App.cuerpo App.archivo_ilegible = Lectura.Lanza (Lectura.Otra (lit "PermissionError")) /\
  App.paso_archivo st App.archivo_ilegible
    = App.mkEstado (App.resultados_totales st)
        (App.errores st ++
           [(lit "2021-2025(VE).csv", Lectura.Otra (lit "PermissionError"))]).
Proof.
  split; [reflexivity|].
  apply (proj1 (proj2 C6_print_and_continue)
           (App.analizar_archivos [App.archivo_repetido]) App.archivo_ilegible);
    reflexivity.
Defined.


Lemma C10_entries_from_last_date_in_range_witness :
  let texto := lit "DERECHO( PEREIRA )( 2023-06-30 ) - CONTADURIA( PEREIRA )( 2019-12-01 )" in
  In info_ejemplo (extraer_programas_y_fechas (Some texto)) /\
  2021 <= año info_ejemplo <= 2025.
Proof.
  assert (H : In info_ejemplo
                (extraer_programas_y_fechas
                   (Some (lit "DERECHO( PEREIRA )( 2023-06-30 ) - CONTADURIA( PEREIRA )( 2019-12-01 )"))))
    by (vm_compute; left; reflexivity).
  split; [exact H|].
  exact (proj1 C10_entries_from_last_date_in_range _ _ H).
Defined.

(** The loader of egresados_posgrados_limpios.py on a small data base: titles
    in upper case, the year of the date when it has one of the two shapes,
    no title twice, no row without identity number. *)
Example cargar_detallada_ex :
  EgresadosLimpios.cargar_base_datos_egresados_detallada
    EgresadosLimpios.bdd_detallada_ejemplo
  = EgresadosLimpios.detalle_ejemplo.
Proof. vm_compute. reflexivity. Qed.

(** A student of the specialization in criminal law who is a lawyer of 2012:
    the title of the same program and the titles without an earlier year do
    not count. *)
Example verificar_ex :
  EgresadosLimpios.verificar_egresado_otro_programa (lit "1088123456") (Some (lit "2021"))
    (lit "32101") (lit "DERECHO PENAL") EgresadosLimpios.detalle_ejemplo
  = (true, [lit "ABOGADO (2012)"]) /\
  EgresadosLimpios.verificar_egresado_otro_programa (lit "1088123456") (Some (lit "2012"))
    (lit "32101") (lit "DERECHO PENAL") EgresadosLimpios.detalle_ejemplo
  = (false, []) /\
  EgresadosLimpios.verificar_egresado_otro_programa (lit "1088123456") None
    (lit "32101") (lit "DERECHO PENAL") EgresadosLimpios.detalle_ejemplo
  = (false, []) /\
  EgresadosLimpios.verificar_egresado_otro_programa (lit "42") (Some (lit "2021"))
    (lit "32101") (lit "DERECHO PENAL") EgresadosLimpios.detalle_ejemplo
  = (false, []).
Proof. repeat split; vm_compute; reflexivity. Qed.

Example extraer_año_grado_ex :
  EgresadosLimpios.extraer_año_grado (lit "14/11/2025") = Some 2025 /\
  EgresadosLimpios.extraer_año_grado (lit "2025-11-14") = Some 2025 /\
  EgresadosLimpios.extraer_año_grado (lit "noviembre de 2025") = None /\
  EgresadosLimpios.extraer_año_grado (lit "14/11/25a") = None.
Proof. repeat split; reflexivity. Qed.

(** The decimal numerals below stand for the nearest [float64]. *)
Set Warnings "-inexact-float".

Example porcentaje_ex :
  porcentaje 1 3 = 33.33%float /\ porcentaje 2 3 = 66.67%float /\
  porcentaje 1 32 = 3.12%float /\ porcentaje 5 5 = 100%float.
Proof. repeat split; reflexivity. Qed.

Example extraer_programas_ex :
  extraer_programas_y_fechas
    (Some (lit "X (2021-01-01)(2022-02-02) - (2022-01-01) - Y ( 2020-05-05 )"))
  = [ {| programa := lit "X"; año := 2022; fecha_completa := lit "2022-02-02" |} ].
Proof. reflexivity. Qed.

(** ** White space at the ends of a text *)

Lemma lstrip_app_nonspace (a b : str) (c : ascii) :
  isspace_c c = false -> lstrip (a ++ c :: b) = lstrip a ++ c :: b.
Proof.
  intros Hc. induction a as [|x a IH]; simpl.
  - rewrite Hc. reflexivity.
  - destruct (isspace_c x); [exact IH|reflexivity].
Qed.

Lemma rstrip_cons_nonspace (c : ascii) (s : str) :
  isspace_c c = false -> rstrip (c :: s) = c :: rstrip s.
Proof.
  intros Hc. unfold rstrip. simpl.
  rewrite (lstrip_app_nonspace (rev s) [] c Hc), rev_app_distr. reflexivity.
Qed.


Lemma rstrip_decomp (s : str) :
  exists w, s = rstrip s ++ w /\ forallb isspace_c w = true.
Proof.
  destruct (lstrip_decomp (rev s)) as [w [Hw Hs]].
  exists (rev w). split.
  - unfold rstrip. rewrite <- rev_app_distr, <- Hw, rev_involutive. reflexivity.
  - rewrite forallb_forall in *. intros x Hx. apply Hs. apply in_rev. exact Hx.
Qed.

Lemma lstrip_idem (s : str) : lstrip (lstrip s) = lstrip s.
Proof.
  induction s as [|c s IH]; simpl; [reflexivity|].
  destruct (isspace_c c) eqn:E; [exact IH|]. simpl. rewrite E. reflexivity.
Qed.

Lemma rstrip_idem (s : str) : rstrip (rstrip s) = rstrip s.
Proof. unfold rstrip. rewrite rev_involutive, lstrip_idem. reflexivity. Qed.

Lemma lstrip_head (s : str) (c : ascii) (r : str) :
  lstrip s = c :: r -> isspace_c c = false.
Proof.
  induction s as [|x s IH]; simpl; [discriminate|].
  destruct (isspace_c x) eqn:E; [exact IH|]. intros [= <- _]. exact E.
Qed.

(** The result of [strip] has no white space left at either end. *)
Lemma lstrip_strip (s : str) : lstrip (strip s) = strip s.
Proof.
  unfold strip. destruct (lstrip s) as [|c r] eqn:E; [reflexivity|].
  pose proof (lstrip_head _ _ _ E) as Hc.
  rewrite rstrip_cons_nonspace by exact Hc. simpl. rewrite Hc. reflexivity.
Qed.

Lemma rstrip_strip (s : str) : rstrip (strip s) = strip s.
Proof. unfold strip. apply rstrip_idem. Qed.

Lemma strip_idem (s : str) : strip (strip s) = strip s.
Proof. unfold strip at 1. rewrite lstrip_strip. apply rstrip_strip. Qed.

Lemma strip_head (s : str) (c : ascii) (r : str) :
  strip s = c :: r -> isspace_c c = false.
Proof. intros H. apply (lstrip_head (strip s) c r). rewrite lstrip_strip. exact H. Qed.

Lemma rstrip_prefix (s : str) : rstrip s `prefix_of` s.
Proof. destruct (rstrip_decomp s) as [w [Hw _]]. exists w. exact Hw. Qed.







(** ** egresados_posgrados.py: program names, codes and student records *)

(** The cut that [extraer_nombre_programa_limpio] makes. *)
Lemma eg_nombre_limpio_casos (nombre_programa : str) :
  let limpio := EgresadosPosgrados.extraer_nombre_programa_limpio nombre_programa in
  limpio `prefix_of` strip nombre_programa /\
  strip limpio = limpio /\
  (limpio = [] -> strip nombre_programa = []) /\
  (contains (lit "RESOLUCION") (upper (strip nombre_programa)) = false ->
   contains RESOLUCION_acento (upper (strip nombre_programa)) = false ->
   limpio = strip nombre_programa).
Proof.
  unfold EgresadosPosgrados.extraer_nombre_programa_limpio.
  set (ns := strip nombre_programa).
  assert (Hid : ns `prefix_of` ns /\ strip ns = ns /\ (ns = [] -> ns = [])).
  { split; [reflexivity|]. split; [apply strip_idem|auto]. }
  assert (Hcut : forall n,
             let t := rstrip (strip (take (S n) ns)) in
             t `prefix_of` ns /\ strip t = t /\ (t = [] -> ns = [])).
  { intros n. simpl. rewrite rstrip_strip.
    destruct ns as [|c r] eqn:E; [vm_compute; auto using prefix_nil|].
    pose proof (strip_head nombre_programa c r E) as Hc.
    assert (Ht : strip (take (S n) (c :: r)) = c :: rstrip (take n r)).
    { unfold strip. simpl. rewrite Hc. apply rstrip_cons_nonspace. exact Hc. }
    rewrite Ht. split; [|split].
    - apply prefix_cons. etransitivity; [apply rstrip_prefix|apply prefix_take].
    - rewrite <- Ht. apply strip_idem.
    - discriminate. }
  destruct (contains (lit "RESOLUCION") (upper ns)
            || contains RESOLUCION_acento (upper ns)) eqn:E.
  - destruct (EgresadosPosgrados.primera_variante _ ns) as [[|n]|].
    + intuition auto.
    + destruct (Hcut n) as (H1 & H2 & H3). split; [exact H1|]. split; [exact H2|].
      split; [exact H3|]. intros Ha Hb. rewrite Ha, Hb in E. discriminate.
    + intuition auto.
  - intuition auto.
Qed.

(** X2.  The clean program name of egresados_posgrados.py is a prefix of the
    stripped program line, has no white space at its ends, is the stripped
    line itself when the line does not mention a resolution, and is empty
    only when the stripped line is. *)
Theorem eg_nombre_limpio_prefix (nombre_programa : str) :
  let limpio := EgresadosPosgrados.extraer_nombre_programa_limpio nombre_programa in
  limpio `prefix_of` strip nombre_programa /\
  strip limpio = limpio /\
  (limpio = [] -> strip nombre_programa = []) /\
  (contains (lit "RESOLUCION") (upper (strip nombre_programa)) = false ->
   contains RESOLUCION_acento (upper (strip nombre_programa)) = false ->
   limpio = strip nombre_programa).
Proof. exact (eg_nombre_limpio_casos nombre_programa). Qed.





(** What an iteration adds: nothing, or one record made of the name and the
    identity number found in the row and of the program that is current
    after the row. *)
Lemma eg_paso_nuevo (cedulas : gset str) (año : Z)
    (st : EgresadosPosgrados.estado) (row : fila) :
  let st' := EgresadosPosgrados.paso cedulas año st row in
  EgresadosPosgrados.resultados st' = EgresadosPosgrados.resultados st \/
  exists nombre cedula,
    EgresadosPosgrados.nombre_encontrado (EgresadosPosgrados.escanear row) = Some nombre /\
    EgresadosPosgrados.cedula_encontrada (EgresadosPosgrados.escanear row) = Some cedula /\
    EgresadosPosgrados.resultados st'
      = EgresadosPosgrados.resultados st ++
        [EgresadosPosgrados.nuevo_registro año (EgresadosPosgrados.programa_actual st')
           nombre cedula (bool_decide (cedula ∈ cedulas))].
Proof.
  unfold EgresadosPosgrados.paso.
  repeat match goal with
         | |- context [if ?b then _ else _] => destruct b; simpl; auto
         | |- context [match ?x with _ => _ end] => destruct x eqn:?; simpl; auto
         end.
  all: right; do 2 eexists; repeat split; reflexivity.
Qed.



Lemma eg_mirar_valor_nombre (h : EgresadosPosgrados.hallazgo) (v : str) :
  EgresadosPosgrados.nombre_encontrado (EgresadosPosgrados.mirar_valor h (Some v))
  = if EgresadosPosgrados.parece_nombre (strip v) then Some (strip v)
    else EgresadosPosgrados.nombre_encontrado h.
Proof.
  unfold EgresadosPosgrados.mirar_valor.
  destruct (EgresadosPosgrados.parece_nombre (strip v));
    destruct (EgresadosPosgrados.parece_cedula (strip v)); simpl;
    destruct (EgresadosPosgrados.cedula_encontrada h);
    destruct (EgresadosPosgrados.codigo_encontrado h); reflexivity.
Qed.

Lemma eg_escanear_nombre_gen (vals : list cell) :
  forall h : EgresadosPosgrados.hallazgo,
    EgresadosPosgrados.nombre_encontrado (fold_left EgresadosPosgrados.mirar_valor vals h)
    = match last (List.filter EgresadosPosgrados.parece_nombre
                    (map strip (omap id vals))) with
      | Some n => Some n
      | None => EgresadosPosgrados.nombre_encontrado h
      end.
Proof.
  induction vals as [|[v|] vals IH]; intros h; [reflexivity| |apply IH].
  cbn [fold_left]. rewrite IH, eg_mirar_valor_nombre.
  change (omap id (Some v :: vals)) with (v :: omap id vals).
  cbn [map List.filter].
  destruct (EgresadosPosgrados.parece_nombre (strip v)) eqn:E; [|reflexivity].
  destruct (List.filter EgresadosPosgrados.parece_nombre (map strip (omap id vals)))
    as [|x l] eqn:El; [reflexivity|].
  rewrite last_cons_cons. destruct (last (x :: l)) eqn:E2; [reflexivity|].
  apply last_None in E2. discriminate.
Qed.

(** X4.  The scan of a row in egresados_posgrados.py takes as the student's
    name the last value of the row, in column order, that looks like a name
    (for the identity number it is the first one), and a record that the
    row adds carries that name. *)
Theorem eg_last_name_like_value_is_name :
  (forall row : fila,
     EgresadosPosgrados.nombre_encontrado (EgresadosPosgrados.escanear row)
     = last (List.filter EgresadosPosgrados.parece_nombre (map strip (presentes row)))) /\
  (forall (cedulas : gset str) (año : Z) (st : EgresadosPosgrados.estado) (row : fila),
     let st' := EgresadosPosgrados.paso cedulas año st row in
     EgresadosPosgrados.resultados st' = EgresadosPosgrados.resultados st \/
     exists r,
       EgresadosPosgrados.resultados st' = EgresadosPosgrados.resultados st ++ [r] /\
       last (List.filter EgresadosPosgrados.parece_nombre (map strip (presentes row)))
       = Some (EgresadosPosgrados.Nombre r)).
Proof.
  assert (H : forall row : fila,
     EgresadosPosgrados.nombre_encontrado (EgresadosPosgrados.escanear row)
     = last (List.filter EgresadosPosgrados.parece_nombre (map strip (presentes row)))).
  { intros row. unfold EgresadosPosgrados.escanear.
    rewrite eg_escanear_nombre_gen. fold (presentes row).
    destruct (last _); reflexivity. }
  split; [exact H|].
  intros cedulas año st row.
  destruct (eg_paso_nuevo cedulas año st row) as [Hres|(nombre & cedula & Hn & _ & Hres)];
    [left; exact Hres|].
  right. eexists. split; [exact Hres|]. rewrite <- H. exact Hn.
Qed.

Lemma eg_nombre_encontrado_parece (row : fila) (nombre : str) :
  EgresadosPosgrados.nombre_encontrado (EgresadosPosgrados.escanear row) = Some nombre ->
  EgresadosPosgrados.parece_nombre nombre = true.
Proof.
  unfold EgresadosPosgrados.escanear. rewrite eg_escanear_nombre_gen.
  destruct (last _) as [n|] eqn:E; [|discriminate].
  intros [= <-]. apply last_Some_elem_of, list_elem_of_In, filter_In in E. tauto.
Qed.

Lemma eg_cedula_encontrada_identificador (row : fila) (cedula : str) :
  EgresadosPosgrados.cedula_encontrada (EgresadosPosgrados.escanear row) = Some cedula ->
  es_identificador cedula = true.
Proof.
  destruct (eg_escanear_ids row) as [Hc _]. rewrite Hc. intros H.
  apply list_elem_of_lookup_2, list_elem_of_In, filter_In in H.
  rewrite <- parece_cedula_identificador. tauto.
Qed.

(** X5.  Every record of [procesar_archivo_posgrados] carries the year the
    file was processed for, a name of more than five characters with a letter
    and a space in it, an identity number of 6 to 12 digits, and 'Sí' or
    'No'. *)
Theorem eg_record_fields
    (df : list fila) (cedulas_egresados : gset str) (año : Z)
    (r : EgresadosPosgrados.registro) :
  In r (EgresadosPosgrados.procesar_archivo_posgrados df cedulas_egresados año) ->
  EgresadosPosgrados.Año r = año /\
  ((5 < length (EgresadosPosgrados.Nombre r))%nat /\
   any_alpha (EgresadosPosgrados.Nombre r) = true /\
   contains (lit " ") (EgresadosPosgrados.Nombre r) = true) /\
  (isdigit (EgresadosPosgrados.Identificacion r) = true /\
   (6 <= length (EgresadosPosgrados.Identificacion r) <= 12)%nat) /\
  (EgresadosPosgrados.Es_Egresado_ULibre r = Si \/
   EgresadosPosgrados.Es_Egresado_ULibre r = No).
Proof.
  unfold EgresadosPosgrados.procesar_archivo_posgrados, EgresadosPosgrados.recorrer.
  revert r.
  apply (fold_left_inv (EgresadosPosgrados.paso cedulas_egresados año)
           (fun st => forall r, In r (EgresadosPosgrados.resultados st) -> _)).
  - intros r [].
  - intros st row IH _ r Hr.
    destruct (eg_paso_nuevo cedulas_egresados año st row)
      as [Hres|(nombre & cedula & Hn & Hc & Hres)];
      rewrite Hres in Hr; [auto|].
    apply in_app_or in Hr. destruct Hr as [Hr|[<-|[]]]; [auto|].
    simpl. split; [reflexivity|].
    apply eg_nombre_encontrado_parece in Hn.
    apply eg_cedula_encontrada_identificador in Hc.
    unfold EgresadosPosgrados.parece_nombre in Hn.
    rewrite !andb_true_iff, Nat.ltb_lt in Hn.
    unfold es_identificador in Hc. rewrite andb_true_iff, len_entre_spec in Hc.
    split; [tauto|]. split; [tauto|].
    destruct (bool_decide _); auto.
Qed.






Lemma eg_record_fields_witness :
  let r := EgresadosPosgrados.registro_lopez in
  In r (EgresadosPosgrados.procesar_archivo_posgrados
          EgresadosPosgrados.df_ejemplo ∅ 2021) /\
  EgresadosPosgrados.Año r = 2021 /\
  (isdigit (EgresadosPosgrados.Identificacion r) = true /\
   (6 <= length (EgresadosPosgrados.Identificacion r) <= 12)%nat).
Proof.
  assert (H : In EgresadosPosgrados.registro_lopez
                (EgresadosPosgrados.procesar_archivo_posgrados
                   EgresadosPosgrados.df_ejemplo ∅ 2021)).
  { vm_compute. right. left. reflexivity. }
  split; [exact H|].
  pose proof (eg_record_fields _ _ _ _ H) as (Ha & _ & Hi & _).
  split; [exact Ha|exact Hi].
Defined.

(** ** limpiar_csv_posgrados.py: the clean records *)

(** What an iteration adds: nothing, or one record for a row whose first
    cell is taken as the student's name. *)
Lemma lc_paso_detalle (año : Z) (st : LimpiarCsv.estado) (row : fila) :
  let st' := LimpiarCsv.paso año st row in
  let h := LimpiarCsv.escanear row in
  let nombre := strip (LimpiarCsv.fillna (col0 row)) in
  LimpiarCsv.registros st' = LimpiarCsv.registros st \/
  exists cedula,
    LimpiarCsv.cedula_encontrada h = Some cedula /\
    (5 < length nombre)%nat /\ any_alpha nombre = true /\
    LimpiarCsv.registros st'
    = LimpiarCsv.registros st ++
      [ {| LimpiarCsv.Año := año;
           LimpiarCsv.Facultad := LimpiarCsv.facultad_actual st;
           LimpiarCsv.Codigo_Programa := LimpiarCsv.o_vacio (LimpiarCsv.programa_codigo st);
           LimpiarCsv.Nombre_Programa := LimpiarCsv.programa_nombre st;
           LimpiarCsv.Nombre_Estudiante := nombre;
           LimpiarCsv.Cedula := cedula;
           LimpiarCsv.Codigo_Estudiante := LimpiarCsv.o_vacio (LimpiarCsv.codigo_encontrado h);
           LimpiarCsv.Grupo := LimpiarCsv.o_vacio (LimpiarCsv.grupo_encontrado h) |} ].
Proof.
  unfold LimpiarCsv.paso.
  destruct (eqb _ (lit "Facultad")); [left; reflexivity|].
  destruct (eqb _ (lit "Programa")); [left; reflexivity|].
  destruct (LimpiarCsv.es_miembro _ _); [left; reflexivity|].
  destruct (_ || _); [left; reflexivity|].
  destruct (length _ <=? 5)%nat eqn:El; [left; reflexivity|].
  destruct (any_alpha _) eqn:Ea; [|left; reflexivity]. cbn [negb].
  destruct (LimpiarCsv.es_miembro _ _); [left; reflexivity|].
  destruct (LimpiarCsv.cedula_encontrada _) as [[|c cedula]|] eqn:Ec;
    [left; reflexivity| |left; reflexivity].
  destruct (length (c :: cedula) <? 6)%nat; [left; reflexivity|].
  right. exists (c :: cedula). apply Nat.leb_gt in El.
  repeat split; try reflexivity; assumption.
Qed.

(** The program in force changes only at a row whose first cell is
    'Programa', the faculty only at a row whose first cell is 'Facultad'. *)
Lemma lc_paso_encabezados (año : Z) (st : LimpiarCsv.estado) (row : fila) :
  let st' := LimpiarCsv.paso año st row in
  let primera_col := strip (LimpiarCsv.fillna (col0 row)) in
  let segunda_col :=
    match cols row with v :: _ => strip (LimpiarCsv.fillna v) | [] => [] end in
  (LimpiarCsv.facultad_actual st'
   = if eqb primera_col (lit "Facultad") then segunda_col
     else LimpiarCsv.facultad_actual st) /\
  (LimpiarCsv.programa_codigo st'
   = if eqb primera_col (lit "Programa")
     then LimpiarCsv.extraer_codigo_programa (Some segunda_col)
     else LimpiarCsv.programa_codigo st) /\
  (LimpiarCsv.programa_nombre st'
   = if eqb primera_col (lit "Programa")
     then LimpiarCsv.limpiar_nombre_programa (Some segunda_col)
     else LimpiarCsv.programa_nombre st).
Proof.
  unfold LimpiarCsv.paso.
  destruct (eqb _ (lit "Facultad")) eqn:Ef.
  { apply eqb_eq in Ef. rewrite Ef. simpl. auto. }
  destruct (eqb _ (lit "Programa")); [simpl; auto|].
  repeat match goal with
         | |- context [if ?b then _ else _] => destruct b; simpl; auto
         | |- context [match ?x with _ => _ end] => destruct x eqn:?; simpl; auto
         end.
Qed.

Lemma lc_mirar_valor_grupo (h : LimpiarCsv.hallazgo) (v : cell) :
  LimpiarCsv.grupo_encontrado (LimpiarCsv.mirar_valor h v)
  = if LimpiarCsv.parece_grupo (strip (LimpiarCsv.fillna v))
    then Some (strip (LimpiarCsv.fillna v))
    else LimpiarCsv.grupo_encontrado h.
Proof.
  unfold LimpiarCsv.mirar_valor.
  destruct (LimpiarCsv.parece_grupo _); destruct (LimpiarCsv.parece_cedula _);
    destruct (LimpiarCsv.cedula_encontrada h);
    destruct (LimpiarCsv.codigo_encontrado h); reflexivity.
Qed.

Lemma lc_escanear_grupo_gen (vals : list cell) :
  forall h : LimpiarCsv.hallazgo,
    LimpiarCsv.grupo_encontrado (fold_left LimpiarCsv.mirar_valor vals h)
    = match last (List.filter LimpiarCsv.parece_grupo
                    (map (fun v => strip (LimpiarCsv.fillna v)) vals)) with
      | Some g => Some g
      | None => LimpiarCsv.grupo_encontrado h
      end.
Proof.
  induction vals as [|v vals IH]; intros h; [reflexivity|].
  cbn [fold_left]. rewrite IH, lc_mirar_valor_grupo. cbn [map List.filter].
  destruct (LimpiarCsv.parece_grupo (strip (LimpiarCsv.fillna v))) eqn:E; [|reflexivity].
  destruct (List.filter LimpiarCsv.parece_grupo _) as [|x l] eqn:El; [reflexivity|].
  rewrite last_cons_cons. destruct (last (x :: l)) eqn:E2; [reflexivity|].
  apply last_None in E2. discriminate.
Qed.

Lemma lc_escanear_grupo (row : fila) :
  LimpiarCsv.grupo_encontrado (LimpiarCsv.escanear row)
  = last (List.filter LimpiarCsv.parece_grupo
            (map (fun v => strip (LimpiarCsv.fillna v)) (valores row))).
Proof.
  unfold LimpiarCsv.escanear. rewrite lc_escanear_grupo_gen.
  destruct (last _); reflexivity.
Qed.

(** X7.  In limpiar_csv_posgrados.py the group of a record is the last
    value of its row, in column order, that is made of one to three digits,
    and the empty text when the row has none. *)
Theorem lc_group_is_last_short_number (año : Z) (st : LimpiarCsv.estado) (row : fila) :
  let st' := LimpiarCsv.paso año st row in
  LimpiarCsv.registros st' = LimpiarCsv.registros st \/
  exists r,
    LimpiarCsv.registros st' = LimpiarCsv.registros st ++ [r] /\
    LimpiarCsv.Grupo r
    = default []
        (last (List.filter (fun s => isdigit s && len_entre 1 3 s)
                 (map (fun v => strip (LimpiarCsv.fillna v)) (valores row)))).
Proof.
  destruct (lc_paso_detalle año st row) as [H|(cedula & _ & _ & _ & H)];
    [left; exact H|].
  right. eexists. split; [exact H|]. simpl. rewrite lc_escanear_grupo. reflexivity.
Qed.

Lemma lc_codigo_valido (v : cell) (c : str) :
  LimpiarCsv.extraer_codigo_programa v = Some c ->
  isdigit c = true /\ length c = 5%nat.
Proof.
  destruct v as [texto|]; [|discriminate].
  intros H. apply lc_extraer_codigo_some in H. tauto.
Qed.

(** X6.  The columns of a clean record of limpiar_csv_posgrados.py: the
    year of the file; as the student's name the stripped first cell of a
    row, longer than five characters and with a letter in it; an identity
    number of 6 to 12 digits, the first such value of that row; a student
    code that is empty or of 6 to 12 digits; a group that is empty or of one
    to three digits; a program code that is empty or of exactly five
    digits. *)
Theorem lc_record_columns (df : list fila) (año : Z) (r : LimpiarCsv.registro) :
  In r (LimpiarCsv.procesar_archivo_posgrados df año) ->
  LimpiarCsv.Año r = año /\
  (exists row, In row df /\
     LimpiarCsv.Nombre_Estudiante r = strip (LimpiarCsv.fillna (col0 row)) /\
     LimpiarCsv.candidatos row !! 0%nat = Some (LimpiarCsv.Cedula r)) /\
  ((5 < length (LimpiarCsv.Nombre_Estudiante r))%nat /\
   any_alpha (LimpiarCsv.Nombre_Estudiante r) = true) /\
  es_identificador (LimpiarCsv.Cedula r) = true /\
  (LimpiarCsv.Codigo_Estudiante r = [] \/
   es_identificador (LimpiarCsv.Codigo_Estudiante r) = true) /\
  (LimpiarCsv.Grupo r = [] \/
   (isdigit (LimpiarCsv.Grupo r) = true /\
    (1 <= length (LimpiarCsv.Grupo r) <= 3)%nat)) /\
  (LimpiarCsv.Codigo_Programa r = [] \/
   (isdigit (LimpiarCsv.Codigo_Programa r) = true /\
    length (LimpiarCsv.Codigo_Programa r) = 5%nat)).
Proof.
  unfold LimpiarCsv.procesar_archivo_posgrados. intros Hr.
  cut ((forall c, LimpiarCsv.programa_codigo
                    (fold_left (LimpiarCsv.paso año) df LimpiarCsv.estado_inicial) = Some c ->
                  c = [] \/ (isdigit c = true /\ length c = 5%nat)) /\
       (forall r, In r (LimpiarCsv.registros
                          (fold_left (LimpiarCsv.paso año) df LimpiarCsv.estado_inicial)) ->
          LimpiarCsv.Año r = año /\
          (exists row, In row df /\
             LimpiarCsv.Nombre_Estudiante r = strip (LimpiarCsv.fillna (col0 row)) /\
             LimpiarCsv.candidatos row !! 0%nat = Some (LimpiarCsv.Cedula r)) /\
          ((5 < length (LimpiarCsv.Nombre_Estudiante r))%nat /\
           any_alpha (LimpiarCsv.Nombre_Estudiante r) = true) /\
          es_identificador (LimpiarCsv.Cedula r) = true /\
          (LimpiarCsv.Codigo_Estudiante r = [] \/
           es_identificador (LimpiarCsv.Codigo_Estudiante r) = true) /\
          (LimpiarCsv.Grupo r = [] \/
           (isdigit (LimpiarCsv.Grupo r) = true /\
            (1 <= length (LimpiarCsv.Grupo r) <= 3)%nat)) /\
          (LimpiarCsv.Codigo_Programa r = [] \/
           (isdigit (LimpiarCsv.Codigo_Programa r) = true /\
            length (LimpiarCsv.Codigo_Programa r) = 5%nat)))).
  { intros [_ H]. apply H. exact Hr. }
  clear r Hr.
  apply (fold_left_inv (LimpiarCsv.paso año)
           (fun st => (forall c, LimpiarCsv.programa_codigo st = Some c -> _)
                      /\ (forall r, In r (LimpiarCsv.registros st) -> _))).
  - split; [intros c [= <-]; left; reflexivity|intros r []].
  - intros st row [Hp Hrs] Hrow. split.
    + destruct (lc_paso_encabezados año st row) as (_ & Hc & _). rewrite Hc.
      destruct (eqb _ (lit "Programa")); [|exact Hp].
      intros c Hcod. right. exact (lc_codigo_valido _ _ Hcod).
    + intros r Hr.
      destruct (lc_paso_detalle año st row) as [H|(cedula & Hced & Hlen & Halpha & H)];
        rewrite H in Hr; [auto|].
      apply in_app_or in Hr. destruct Hr as [Hr|[<-|[]]]; [auto|].
      destruct (lc_escanear_ids row) as [Hc0 Hc1].
      fold (LimpiarCsv.candidatos row) in Hc0, Hc1.
      cbn [LimpiarCsv.Año LimpiarCsv.Nombre_Estudiante LimpiarCsv.Cedula
           LimpiarCsv.Codigo_Estudiante LimpiarCsv.Grupo LimpiarCsv.Codigo_Programa].
      split; [reflexivity|].
      split; [exists row; repeat split; [exact Hrow|congruence]|].
      split; [auto|]. split; [|split; [|split]].
      * rewrite Hc0 in Hced.
        apply list_elem_of_lookup_2, list_elem_of_In, filter_In in Hced. tauto.
      * rewrite Hc1. destruct (LimpiarCsv.candidatos row !! 1%nat) as [k|] eqn:Ek;
          [|left; reflexivity].
        right. apply list_elem_of_lookup_2, list_elem_of_In, filter_In in Ek.
        simpl. tauto.
      * rewrite lc_escanear_grupo.
        destruct (last _) as [g|] eqn:Eg; [|left; reflexivity].
        right. apply last_Some_elem_of, list_elem_of_In, filter_In in Eg.
        destruct Eg as [_ Eg]. unfold LimpiarCsv.parece_grupo in Eg.
        rewrite andb_true_iff, len_entre_spec in Eg. exact Eg.
      * destruct (LimpiarCsv.programa_codigo st) as [c|]; [|left; reflexivity].
        exact (Hp c eq_refl).
Qed.



Lemma lc_record_columns_witness :
  let df := [LimpiarCsv.fila_facultad_ejemplo; LimpiarCsv.fila_programa_ejemplo;
             LimpiarCsv.fila_titulos_ejemplo; LimpiarCsv.fila_estudiante_ejemplo] in
  let r := LimpiarCsv.registro_ejemplo in
  In r (LimpiarCsv.procesar_archivo_posgrados df 2021) /\
  es_identificador (LimpiarCsv.Cedula r) = true /\
  (LimpiarCsv.Codigo_Programa r = [] \/
   (isdigit (LimpiarCsv.Codigo_Programa r) = true /\
    length (LimpiarCsv.Codigo_Programa r) = 5%nat)).
Proof.
  assert (H : In LimpiarCsv.registro_ejemplo
                (LimpiarCsv.procesar_archivo_posgrados
                   [LimpiarCsv.fila_facultad_ejemplo; LimpiarCsv.fila_programa_ejemplo;
                    LimpiarCsv.fila_titulos_ejemplo; LimpiarCsv.fila_estudiante_ejemplo]
                   2021)).
  { vm_compute. left. reflexivity. }
  split; [exact H|].
  pose proof (lc_record_columns _ _ _ H) as (_ & _ & _ & Hc & _ & _ & Hp).
  split; [exact Hc|exact Hp].
Defined.


(** ** egresados_posgrados_limpios.py: the data base of titles *)



Lemma join_nil (sep x : str) (l : list str) : join sep (x :: l) = [] -> x = [].
Proof.
  destruct l as [|y l]; simpl; [auto|].
  intros H. apply app_eq_nil in H. tauto.
Qed.

Lemma titulo_con_año_no_vacio (titulo : str) (año_grado : option Z) :
  EgresadosLimpios.titulo_con_año titulo año_grado <> [].
Proof.
  unfold EgresadosLimpios.titulo_con_año. intros H.
  apply app_eq_nil in H. destruct H as [_ H]. discriminate.
Qed.

(** The answer of [verificar_egresado_otro_programa] as a filter over the
    titles of the identity number. *)
Lemma el_verificar_filter (cedula : str) (año_cursando : cell)
    (codigo nombre : str) (d : gmap str EgresadosLimpios.titulos) :
  EgresadosLimpios.verificar_egresado_otro_programa cedula año_cursando codigo nombre d
  = match d !! cedula with
    | None => (false, [])
    | Some ts =>
        let tn := EgresadosLimpios.extraer_tipo_y_nombre_programa codigo nombre in
        let l :=
          map (fun t => EgresadosLimpios.titulo_con_año (fst t) (snd t))
            (List.filter
               (fun t => negb (EgresadosLimpios.es_mismo_programa (fst tn) (snd tn) (fst t))
                         && EgresadosLimpios.fecha_es_anterior (snd t) año_cursando) ts) in
        ((0 <? length l)%nat, l)
    end.
Proof.
  unfold EgresadosLimpios.verificar_egresado_otro_programa.
  destruct (d !! cedula) as [ts|]; [|reflexivity].
  destruct (EgresadosLimpios.extraer_tipo_y_nombre_programa codigo nombre) as [tipo n].
  rewrite programas_diferentes_filter. reflexivity.
Qed.

(** X10.  In the output of [procesar_archivo_limpio] the two columns agree:
    a record is marked 'Sí' exactly when its column of previous programs is
    not empty, 'No' exactly when it is empty, and a record marked 'Sí' has
    its identity number in the data base of titles. *)
Theorem el_si_iff_previous_programs_listed
    (df : list EgresadosLimpios.fila_limpia) (d : gmap str EgresadosLimpios.titulos)
    (r : EgresadosLimpios.registro) :
  In r (EgresadosLimpios.procesar_archivo_limpio df d) ->
  (EgresadosLimpios.Es_Egresado_ULibre r = Si <->
   EgresadosLimpios.Programas_Previos r <> []) /\
  (EgresadosLimpios.Es_Egresado_ULibre r = No <->
   EgresadosLimpios.Programas_Previos r = []) /\
  (EgresadosLimpios.Es_Egresado_ULibre r = Si ->
   exists ts, d !! EgresadosLimpios.Identificacion r = Some ts /\ ts <> []).
Proof.
  unfold EgresadosLimpios.procesar_archivo_limpio. intros H.
  apply in_map_iff in H. destruct H as (row & <- & _).
  unfold EgresadosLimpios.procesar_fila. rewrite el_verificar_filter.
  destruct (d !! strip (str_of (EgresadosLimpios.l_Cedula row))) as [ts|] eqn:Ed;
    cbn [EgresadosLimpios.Es_Egresado_ULibre EgresadosLimpios.Programas_Previos
         EgresadosLimpios.Identificacion].
  - cbv zeta.
    destruct (List.filter _ ts) as [|t l] eqn:El.
    + cbn [map length Nat.ltb Nat.leb join]. split; [|split].
      * split; [intros H; symmetry in H; destruct (Si_no_es_No H)|congruence].
      * tauto.
      * intros H. symmetry in H. destruct (Si_no_es_No H).
    + cbn [map length Nat.ltb Nat.leb]. split; [|split].
      * split; [|reflexivity]. intros _ H. apply join_nil in H.
        exact (titulo_con_año_no_vacio _ _ H).
      * split; [intros H; destruct (Si_no_es_No H)|].
        intros H. apply join_nil in H. destruct (titulo_con_año_no_vacio _ _ H).
      * intros _. exists ts. rewrite Ed. split; [reflexivity|].
        intros ->. discriminate.
  - split; [|split].
    + split; [intros H; symmetry in H; destruct (Si_no_es_No H)|].
      intros H. destruct H. reflexivity.
    + split; reflexivity.
    + intros H. symmetry in H. destruct (Si_no_es_No H).
Qed.


Lemma el_si_iff_previous_programs_listed_witness :
  let r := EgresadosLimpios.registro_limpio_ejemplo in
  In r (EgresadosLimpios.procesar_archivo_limpio
          [EgresadosLimpios.fila_limpia_ejemplo] EgresadosLimpios.detalle_ejemplo) /\
  (EgresadosLimpios.Es_Egresado_ULibre r = Si <->
   EgresadosLimpios.Programas_Previos r <> []).
Proof.
  assert (H : In EgresadosLimpios.registro_limpio_ejemplo
                (EgresadosLimpios.procesar_archivo_limpio
                   [EgresadosLimpios.fila_limpia_ejemplo]
                   EgresadosLimpios.detalle_ejemplo)).
  { vm_compute. left. reflexivity. }
  split; [exact H|].
  exact (proj1 (el_si_iff_previous_programs_listed _ _ _ H)).
Defined.


(** ** Reports: the order of the rows and the totals *)

Section Orden.

Context {A : Type} (ltb : A -> A -> bool).
Hypothesis ltb_tricotomia : forall a b, ltb a b = false -> ltb b a = false -> a = b.
Hypothesis ltb_trans : forall a b c, ltb a b = true -> ltb b c = true -> ltb a c = true.

Lemma insertar_unico_sorted (x : A) (l : list A) :
  StronglySorted (fun a b => ltb a b = true) l ->
  StronglySorted (fun a b => ltb a b = true) (insertar_unico ltb x l).
Proof.
  induction l as [|y l IH]; intros Hs; simpl.
  - constructor; constructor.
  - apply StronglySorted_inv in Hs. destruct Hs as [Hs Hy].
    destruct (ltb x y) eqn:E1.
    + constructor; [constructor; assumption|].
      constructor; [exact E1|].
      rewrite List.Forall_forall in Hy |- *. intros z Hz.
      apply (ltb_trans x y z E1). auto.
    + destruct (ltb y x) eqn:E2.
      * constructor; [auto|].
        rewrite List.Forall_forall in Hy |- *. intros z Hz.
        apply insertar_unico_in in Hz. destruct Hz as [->|Hz]; auto.
      * constructor; assumption.
Qed.

Lemma ordenar_unicos_sorted (l : list A) :
  StronglySorted (fun a b => ltb a b = true) (ordenar_unicos ltb l).
Proof.
  induction l as [|x l IH]; simpl; [constructor|].
  apply insertar_unico_sorted. exact IH.
Qed.

End Orden.

Lemma str_ltb_irrefl (a : str) : str_ltb a a = false.
Proof.
  induction a as [|x a IH]; simpl; [reflexivity|].
  rewrite N.ltb_irrefl. exact IH.
Qed.

Lemma str_ltb_trans (a b c : str) :
  str_ltb a b = true -> str_ltb b c = true -> str_ltb a c = true.
Proof.
  revert b c. induction a as [|x a IH]; intros [|y b] [|z c]; simpl;
    try discriminate; auto.
  destruct (cp x <? cp y)%N eqn:E1.
  - intros _. destruct (cp y <? cp z)%N eqn:E2.
    + intros _. apply N.ltb_lt in E1. apply N.ltb_lt in E2.
      assert (E3 : (cp x <? cp z)%N = true) by (apply N.ltb_lt; lia).
      rewrite E3. reflexivity.
    + destruct (cp z <? cp y)%N eqn:E3; [discriminate|]. intros _.
      apply N.ltb_lt in E1. apply N.ltb_ge in E2. apply N.ltb_ge in E3.
      assert (E4 : (cp x <? cp z)%N = true) by (apply N.ltb_lt; lia).
      rewrite E4. reflexivity.
  - destruct (cp y <? cp x)%N eqn:E2; [discriminate|]. intros Hab.
    apply N.ltb_ge in E1. apply N.ltb_ge in E2.
    assert (Exy : cp x = cp y) by lia. rewrite Exy.
    destruct (cp y <? cp z)%N; [reflexivity|].
    destruct (cp z <? cp y)%N; [discriminate|].
    apply IH. exact Hab.
Qed.

Lemma sorted_str_NoDup (l : list str) :
  StronglySorted (fun a b => str_ltb a b = true) l -> NoDup l.
Proof.
  induction 1 as [|x l Hs IH Hx]; constructor; [|exact IH].
  intros Hin. apply list_elem_of_In in Hin.
  rewrite List.Forall_forall in Hx. specialize (Hx x Hin).
  rewrite str_ltb_irrefl in Hx. discriminate.
Qed.

Lemma codigos_sorted (l : list str) :
  StronglySorted (fun a b => str_ltb a b = true) (ordenar_unicos str_ltb l).
Proof. apply ordenar_unicos_sorted. exact str_ltb_trans. Qed.

(** X12.  The summary of a year lists the programs in strictly increasing
    order of their code, in egresados_posgrados.py and in
    egresados_posgrados_limpios.py: no code has two rows. *)
Theorem summary_rows_strictly_sorted_by_code :
  (forall (df : list EgresadosPosgrados.registro) (año : Z),
     let codigos := map EgresadosPosgrados.Codigo_Programa
                      (EgresadosPosgrados.resumen_año df año) in
     StronglySorted (fun a b => str_ltb a b = true) codigos /\ NoDup codigos) /\
  (forall (df : list EgresadosLimpios.registro) (año : str),
     let codigos := map EgresadosLimpios.Codigo_Programa
                      (EgresadosLimpios.resumen_año df año) in
     StronglySorted (fun a b => str_ltb a b = true) codigos /\ NoDup codigos).
Proof.
  split; intros df año; cbv zeta.
  - unfold EgresadosPosgrados.resumen_año. rewrite map_map. cbn [EgresadosPosgrados.resumir
      EgresadosPosgrados.Codigo_Programa]. rewrite map_id.
    assert (H := ordenar_unicos_sorted str_ltb str_ltb_trans
                   (omap EgresadosPosgrados.Programa_Codigo
                      (EgresadosPosgrados.del_año año df))).
    split; [exact H|apply sorted_str_NoDup; exact H].
  - unfold EgresadosLimpios.resumen_año. rewrite map_map. cbn [EgresadosLimpios.resumir
      EgresadosLimpios.Codigo_Programa]. rewrite map_id.
    assert (H := ordenar_unicos_sorted str_ltb str_ltb_trans
                   (map EgresadosLimpios.Programa_Codigo
                      (EgresadosLimpios.del_año año df))).
    split; [exact H|apply sorted_str_NoDup; exact H].
Qed.

(** Groups that do not overlap share out the rows they match. *)
Lemma suma_de_grupos {K R : Type} (m : K -> R -> bool) (ks : list K) :
  (forall x k k', In k ks -> In k' ks -> m k x = true -> m k' x = true -> k = k') ->
  NoDup ks ->
  forall l : list R,
    list_sum (map (fun k => length (List.filter (m k) l)) ks)
    = length (List.filter (fun x => existsb (fun k => m k x) ks) l).
Proof.
  intros Hm Hnd.
  assert (Huno : forall x,
            list_sum (map (fun k => if m k x then 1%nat else 0%nat) ks)
            = if existsb (fun k => m k x) ks then 1%nat else 0%nat).
  { intros x. revert Hm Hnd.
    induction ks as [|k ks IH]; intros Hm Hnd; simpl; [reflexivity|].
    apply NoDup_cons in Hnd. destruct Hnd as [Hk Hnd].
    rewrite IH; [|intros y a b Ha Hb; apply Hm; right; assumption|exact Hnd].
    destruct (m k x) eqn:E; [|reflexivity]. simpl.
    destruct (existsb (fun k0 => m k0 x) ks) eqn:E2; [|reflexivity].
    exfalso. apply existsb_exists in E2. destruct E2 as (k' & Hk' & E2).
    assert (k = k') by (apply (Hm x); [left; reflexivity|right; exact Hk'|exact E|exact E2]).
    subst k'. apply Hk. apply list_elem_of_In. exact Hk'. }
  induction l as [|x l IH]; simpl.
  - clear. induction ks as [|k ks IHk]; simpl; [reflexivity|exact IHk].
  - transitivity (list_sum (map (fun k => if m k x then 1%nat else 0%nat) ks)
                  + list_sum (map (fun k => length (List.filter (m k) l)) ks))%nat.
    + clear. induction ks as [|k ks IHk]; simpl; [reflexivity|].
      rewrite IHk. destruct (m k x); simpl; lia.
    + rewrite Huno, IH. destruct (existsb _ ks); simpl; lia.
Qed.

Lemma filter_todos {R : Type} (p : R -> bool) (l : list R) :
  (forall x, In x l -> p x = true) -> List.filter p l = l.
Proof.
  induction l as [|x l IH]; intros H; simpl; [reflexivity|].
  rewrite (H x (or_introl eq_refl)), IH; [reflexivity|].
  intros y Hy. apply H. right. exact Hy.
Qed.

Lemma filter_conmuta {R : Type} (p q : R -> bool) (l : list R) :
  List.filter p (List.filter q l) = List.filter q (List.filter p l).
Proof.
  rewrite !filter_filter_andb. apply List.filter_ext. intros x. apply andb_comm.
Qed.

Lemma filter_parte {R : Type} (p : R -> bool) (l : list R) :
  length l
  = (length (List.filter p l) + length (List.filter (fun x => negb (p x)) l))%nat.
Proof.
  induction l as [|x l IH]; simpl; [reflexivity|].
  destruct (p x); simpl; lia.
Qed.

Lemma list_sum_resta {K : Type} (t e : K -> nat) (ks : list K) :
  (forall k, In k ks -> (e k <= t k)%nat) ->
  (list_sum (map e ks) <= list_sum (map t ks))%nat /\
  list_sum (map (fun k => (t k - e k)%nat) ks)
  = (list_sum (map t ks) - list_sum (map e ks))%nat.
Proof.
  induction ks as [|k ks IH]; intros H; simpl; [split; reflexivity|].
  destruct IH as [IH1 IH2]; [intros k' Hk'; apply H; right; exact Hk'|].
  specialize (H k (or_introl eq_refl)). rewrite IH2. lia.
Qed.

Lemma filter_length_le {R : Type} (p : R -> bool) (l : list R) :
  (length (List.filter p l) <= length l)%nat.
Proof. rewrite (filter_parte p l). lia. Qed.

(** The groups of [groupby(['Programa_Codigo'])] in the clean script share
    out all the records. *)
Lemma el_suma_de_grupos (l : list EgresadosLimpios.registro) :
  forall l', (forall x, In x l' -> In x l) ->
    list_sum (map (fun c => length (EgresadosLimpios.grupo c l'))
                (EgresadosLimpios.codigos l))
    = length l'.
Proof.
  intros l' Hsub. unfold EgresadosLimpios.grupo.
  rewrite (suma_de_grupos
             (fun c (x : EgresadosLimpios.registro) =>
                eqb (EgresadosLimpios.Programa_Codigo x) c)).
  - rewrite filter_todos; [reflexivity|].
    intros x Hx. apply existsb_exists. exists (EgresadosLimpios.Programa_Codigo x).
    split; [|apply eqb_eq; reflexivity].
    apply (ordenar_unicos_keeps str_ltb str_ltb_tricotomia).
    apply in_map. apply Hsub. exact Hx.
  - intros x k k' _ _ H1 H2. apply eqb_eq in H1. apply eqb_eq in H2. congruence.
  - apply sorted_str_NoDup, codigos_sorted.
Qed.

(** X13.  In egresados_posgrados_limpios.py the general summary of a year
    is the sum of the program rows of that year's file: total students,
    graduates and students without a previous title add up over the programs,
    the year has at least one student, and the percentage is that of the
    totals. *)
Theorem el_general_summary_adds_up
    (df : list EgresadosLimpios.registro) (g : EgresadosLimpios.resumen_general) :
  In g (EgresadosLimpios.resumen_general_por_año df) ->
  let filas := EgresadosLimpios.resumen_año df (EgresadosLimpios.g_Año g) in
  EgresadosLimpios.g_Total_Estudiantes g
    = list_sum (map EgresadosLimpios.Total_Estudiantes filas) /\
  EgresadosLimpios.g_Egresados_ULibre g
    = list_sum (map EgresadosLimpios.Egresados_ULibre filas) /\
  EgresadosLimpios.g_Solo_Estudiantes g
    = list_sum (map EgresadosLimpios.No_Egresados filas) /\
  (1 <= EgresadosLimpios.g_Total_Estudiantes g)%nat /\
  EgresadosLimpios.g_Porcentaje_Egresados g
    = porcentaje (EgresadosLimpios.g_Egresados_ULibre g)
        (EgresadosLimpios.g_Total_Estudiantes g).
Proof.
  unfold EgresadosLimpios.resumen_general_por_año. intros H.
  apply in_map_iff in H. destruct H as (año & <- & Haño).
  cbn [EgresadosLimpios.g_Año EgresadosLimpios.g_Total_Estudiantes
       EgresadosLimpios.g_Egresados_ULibre EgresadosLimpios.g_Solo_Estudiantes
       EgresadosLimpios.g_Porcentaje_Egresados].
  cbv zeta. unfold EgresadosLimpios.resumen_año.
  set (l := EgresadosLimpios.del_año año df).
  rewrite !map_map.
  cbn [EgresadosLimpios.resumir EgresadosLimpios.Total_Estudiantes
       EgresadosLimpios.Egresados_ULibre EgresadosLimpios.No_Egresados].
  assert (Ht : list_sum (map (fun c => length (EgresadosLimpios.grupo c l))
                           (EgresadosLimpios.codigos l)) = length l).
  { apply el_suma_de_grupos. auto. }
  assert (He : list_sum
                 (map (fun c => contar_si (map EgresadosLimpios.Es_Egresado_ULibre
                                             (EgresadosLimpios.grupo c l)))
                    (EgresadosLimpios.codigos l))
               = contar_si (map EgresadosLimpios.Es_Egresado_ULibre l)).
  { rewrite contar_si_filter.
    rewrite <- (el_suma_de_grupos l
                  (List.filter (fun x => eqb Si (EgresadosLimpios.Es_Egresado_ULibre x)) l)).
    - f_equal. apply map_ext. intros c. rewrite contar_si_filter.
      unfold EgresadosLimpios.grupo. rewrite filter_conmuta. reflexivity.
    - intros x Hx. apply filter_In in Hx. tauto. }
  assert (Hle : forall c, In c (EgresadosLimpios.codigos l) ->
                  (contar_si (map EgresadosLimpios.Es_Egresado_ULibre
                                (EgresadosLimpios.grupo c l))
                   <= length (EgresadosLimpios.grupo c l))%nat).
  { intros c _. rewrite contar_si_filter. apply filter_length_le. }
  destruct (list_sum_resta
              (fun c => length (EgresadosLimpios.grupo c l))
              (fun c => contar_si (map EgresadosLimpios.Es_Egresado_ULibre
                                     (EgresadosLimpios.grupo c l)))
              (EgresadosLimpios.codigos l) Hle) as [_ Hr].
  rewrite Hr, Ht, He.
  assert (Hpos : (1 <= length l)%nat).
  { apply ordenar_unicos_in in Haño.
    apply list_elem_of_In, list_elem_of_omap in Haño. destruct Haño as (x & Hx & Ha).
    apply list_elem_of_In in Hx.
    assert (Hin : In x l).
    { apply filter_In. split; [exact Hx|]. apply bool_decide_eq_true. exact Ha. }
    destruct l; [destruct Hin|simpl; lia]. }
  repeat split; try reflexivity; try exact Hpos.
  destruct (0 <? length l)%nat eqn:E; [reflexivity|].
  apply Nat.ltb_ge in E. lia.
Qed.

(** The groups of [groupby(['Programa_Codigo'])] in egresados_posgrados.py
    share out the records that have a code. *)
Lemma eg_suma_de_grupos (l : list EgresadosPosgrados.registro) :
  forall l', (forall x, In x l' -> In x l) ->
    list_sum (map (fun c => length (EgresadosPosgrados.grupo c l'))
                (EgresadosPosgrados.codigos l))
    = length (List.filter
                (fun x => negb (bool_decide (EgresadosPosgrados.Programa_Codigo x = None)))
                l').
Proof.
  intros l' Hsub. unfold EgresadosPosgrados.grupo.
  rewrite (suma_de_grupos
             (fun c (x : EgresadosPosgrados.registro) =>
                bool_decide (EgresadosPosgrados.Programa_Codigo x = Some c))).
  - f_equal. apply filter_ext_in. intros x Hx.
    destruct (EgresadosPosgrados.Programa_Codigo x) as [c|] eqn:Ec.
    + rewrite bool_decide_eq_false_2 by discriminate. simpl.
      apply existsb_exists. exists c. split; [|apply bool_decide_eq_true; reflexivity].
      apply (ordenar_unicos_keeps str_ltb str_ltb_tricotomia).
      apply list_elem_of_In, list_elem_of_omap. exists x.
      split; [apply list_elem_of_In, Hsub; exact Hx|exact Ec].
    + rewrite bool_decide_eq_true_2 by reflexivity. simpl.
      apply not_true_is_false. intros H. apply existsb_exists in H.
      destruct H as (c & _ & H).
      first [discriminate H|apply bool_decide_eq_true in H; congruence].
  - intros x k k' _ _ H1 H2.
    apply bool_decide_eq_true in H1. apply bool_decide_eq_true in H2. congruence.
  - apply sorted_str_NoDup, codigos_sorted.
Qed.

(** X14.  In egresados_posgrados.py the general summary of a year counts
    every record of the year, the program rows only those with a program
    code: the total of the year is the sum of the totals of its program rows
    plus the number of its records without a code, and likewise for the
    graduates. *)
Theorem eg_general_summary_counts_records_without_code
    (df : list EgresadosPosgrados.registro) (g : EgresadosPosgrados.resumen_general) :
  In g (EgresadosPosgrados.resumen_año_general df) ->
  let año := EgresadosPosgrados.g_Año g in
  let filas := EgresadosPosgrados.resumen_año df año in
  let sin_codigo :=
    List.filter (fun x => bool_decide (EgresadosPosgrados.Programa_Codigo x = None))
      (EgresadosPosgrados.del_año año df) in
  EgresadosPosgrados.g_Total_Estudiantes g
    = (list_sum (map EgresadosPosgrados.Total_Estudiantes filas)
       + length sin_codigo)%nat /\
  EgresadosPosgrados.g_Egresados_ULibre g
    = (list_sum (map EgresadosPosgrados.Egresados_ULibre filas)
       + contar_si (map EgresadosPosgrados.Es_Egresado_ULibre sin_codigo))%nat /\
  (1 <= EgresadosPosgrados.g_Total_Estudiantes g)%nat.
Proof.
  unfold EgresadosPosgrados.resumen_año_general. intros H.
  apply in_map_iff in H. destruct H as (año & <- & Haño).
  cbn [EgresadosPosgrados.g_Año EgresadosPosgrados.g_Total_Estudiantes
       EgresadosPosgrados.g_Egresados_ULibre].
  cbv zeta. unfold EgresadosPosgrados.resumen_año.
  set (l := EgresadosPosgrados.del_año año df).
  rewrite !map_map.
  cbn [EgresadosPosgrados.resumir EgresadosPosgrados.Total_Estudiantes
       EgresadosPosgrados.Egresados_ULibre].
  split; [|split].
  - rewrite (eg_suma_de_grupos l l) by auto.
    rewrite (filter_parte
               (fun x => bool_decide (EgresadosPosgrados.Programa_Codigo x = None)) l).
    lia.
  - rewrite !contar_si_filter.
    rewrite (filter_parte
               (fun x => bool_decide (EgresadosPosgrados.Programa_Codigo x = None))
               (List.filter (fun x => eqb Si (EgresadosPosgrados.Es_Egresado_ULibre x)) l)).
    rewrite <- (eg_suma_de_grupos l
                  (List.filter (fun x => eqb Si (EgresadosPosgrados.Es_Egresado_ULibre x)) l)).
    + rewrite (filter_conmuta
                 (fun x => eqb Si (EgresadosPosgrados.Es_Egresado_ULibre x))
                 (fun x => bool_decide (EgresadosPosgrados.Programa_Codigo x = None))).
      rewrite Nat.add_comm. f_equal. f_equal. apply map_ext. intros c.
      rewrite contar_si_filter. unfold EgresadosPosgrados.grupo.
      rewrite filter_conmuta. reflexivity.
    + intros x Hx. apply filter_In in Hx. tauto.
  - apply ordenar_unicos_in in Haño. apply in_map_iff in Haño.
    destruct Haño as (x & Ha & Hx).
    assert (Hin : In x l).
    { apply filter_In. split; [exact Hx|]. rewrite Ha. apply Z.eqb_refl. }
    destruct l; [destruct Hin|simpl; lia].
Qed.

Lemma el_general_summary_adds_up_witness :
  let df := [EgresadosLimpios.registro_limpio_ejemplo] in
  let g := {| EgresadosLimpios.g_Año := lit "2021";
              EgresadosLimpios.g_Total_Estudiantes := 1;
              EgresadosLimpios.g_Egresados_ULibre := 1;
              EgresadosLimpios.g_Solo_Estudiantes := 0;
              EgresadosLimpios.g_Porcentaje_Egresados := 100%float |} in
  In g (EgresadosLimpios.resumen_general_por_año df) /\
  EgresadosLimpios.g_Total_Estudiantes g
    = list_sum (map EgresadosLimpios.Total_Estudiantes
                  (EgresadosLimpios.resumen_año df (EgresadosLimpios.g_Año g))).
Proof.
  cbv zeta.
  assert (H : In {| EgresadosLimpios.g_Año := lit "2021";
                    EgresadosLimpios.g_Total_Estudiantes := 1;
                    EgresadosLimpios.g_Egresados_ULibre := 1;
                    EgresadosLimpios.g_Solo_Estudiantes := 0;
                    EgresadosLimpios.g_Porcentaje_Egresados := 100%float |}
                (EgresadosLimpios.resumen_general_por_año
                   [EgresadosLimpios.registro_limpio_ejemplo])).
  { vm_compute. left. reflexivity. }
  split; [exact H|].
  exact (proj1 (el_general_summary_adds_up _ _ H)).
Defined.

Lemma eg_general_summary_counts_records_without_code_witness :
  let df := [EgresadosPosgrados.registro_perez; EgresadosPosgrados.registro_lopez] in
  let g := {| EgresadosPosgrados.g_Año := 2021;
              EgresadosPosgrados.g_Total_Estudiantes := 2;
              EgresadosPosgrados.g_Egresados_ULibre := 1;
              EgresadosPosgrados.g_Porcentaje := 50%float |} in
  In g (EgresadosPosgrados.resumen_año_general df) /\
  (1 <= EgresadosPosgrados.g_Total_Estudiantes g)%nat.
Proof.
  cbv zeta.
  assert (H : In {| EgresadosPosgrados.g_Año := 2021;
                    EgresadosPosgrados.g_Total_Estudiantes := 2;
                    EgresadosPosgrados.g_Egresados_ULibre := 1;
                    EgresadosPosgrados.g_Porcentaje := 50%float |}
                (EgresadosPosgrados.resumen_año_general
                   [EgresadosPosgrados.registro_perez;
                    EgresadosPosgrados.registro_lopez])).
  { vm_compute. left. reflexivity. }
  split; [exact H|].
  exact (proj2 (proj2 (eg_general_summary_counts_records_without_code _ _ H))).
Defined.

(** ** app.py: the cargo column, the results and the kinds of cargo *)

Lemma startswith_app (a b s : str) :
  startswith (a ++ b) s = true -> startswith a s = true.
Proof.
  revert s. induction a as [|x a IH]; intros s; simpl; [reflexivity|].
  destruct s as [|y s]; [discriminate|].
  rewrite !andb_true_iff. intros [H1 H2]. auto.
Qed.

Lemma contains_app (a b s : str) :
  contains (a ++ b) s = true -> contains a s = true.
Proof.
  induction s as [|y s IH]; simpl.
  - rewrite !orb_false_r. apply startswith_app.
  - rewrite !orb_true_iff. intros [H|H]; [left; exact (startswith_app _ _ _ H)|auto].
Qed.

(** [buscar_columna] gives the first column that passes the test. *)
Lemma buscar_columna_some (p : str -> bool) (cols : list str) (i : nat) :
  EgresadosPosgrados.buscar_columna p cols = Some i <->
  exists col, cols !! i = Some col /\ p col = true /\
    forall j c, (j < i)%nat -> cols !! j = Some c -> p c = false.
Proof.
  revert i. induction cols as [|x cols IH]; intros i; simpl.
  - split; [discriminate|]. intros (col & H & _). discriminate.
  - destruct (p x) eqn:E.
    + split.
      * intros [= <-]. exists x. repeat split; [exact E|]. intros j c Hj. lia.
      * intros (col & Hc & Hp & Hfirst). destruct i as [|i]; [reflexivity|].
        rewrite (Hfirst 0%nat x) in E; [discriminate|lia|reflexivity].
    + destruct (EgresadosPosgrados.buscar_columna p cols) as [k|] eqn:Ek; simpl.
      * split.
        -- intros [= <-]. destruct (proj1 (IH k) eq_refl) as (col & Hc & Hp & Hfirst).
           exists col. repeat split; [exact Hc|exact Hp|].
           intros [|j] c Hj; simpl; [intros [= <-]; exact E|].
           apply Hfirst. lia.
        -- intros (col & Hc & Hp & Hfirst). destruct i as [|i].
           ++ simpl in Hc. injection Hc as <-. congruence.
           ++ f_equal. assert (Hi : Some k = Some i); [|congruence].
              apply IH. exists col. repeat split; [exact Hc|exact Hp|].
              intros j c Hj Hjc. apply (Hfirst (S j) c); [lia|exact Hjc].
      * split; [discriminate|].
        intros (col & Hc & Hp & Hfirst). destruct i as [|i].
        -- simpl in Hc. injection Hc as <-. congruence.
        -- exfalso. assert (Hi : @None nat = Some i); [|discriminate].
           apply IH. exists col. repeat split; [exact Hc|exact Hp|].
           intros j c Hj Hjc. apply (Hfirst (S j) c); [lia|exact Hjc].
Qed.

Lemma buscar_columna_none (p : str -> bool) (cols : list str) :
  EgresadosPosgrados.buscar_columna p cols = None <->
  forall col, In col cols -> p col = false.
Proof.
  induction cols as [|x cols IH]; simpl.
  - split; [intros _ col []|reflexivity].
  - destruct (p x) eqn:E.
    + split; [discriminate|]. intros H. rewrite (H x) in E; [discriminate|auto].
    + destruct (EgresadosPosgrados.buscar_columna p cols) as [k|]; simpl.
      * split; [discriminate|]. intros H.
        assert (Hn : @Some nat k = None); [|discriminate].
        apply IH. intros col Hc. apply H. auto.
      * split; [|reflexivity]. intros _ col [<-|Hc]; [exact E|].
        apply (proj1 IH eq_refl). exact Hc.
Qed.

(** X15.  The cargo column of app.py is the first column whose name, in
    lower case, contains both 'cargo' and 'desempe'; when no column has
    both, the first one whose name contains 'cargo'; and there is none
    exactly when no column name contains 'cargo'. *)
Theorem app_cargo_column_choice (cols : list str) :
  let con_ambas := fun col : str =>
    contains (lit "cargo") (lower col) && contains (lit "desempe") (lower col) in
  let con_cargo := fun col : str => contains (lit "cargo") (lower col) in
  let primera := fun (p : str -> bool) (i : nat) =>
    exists col, cols !! i = Some col /\ p col = true /\
      forall j c, (j < i)%nat -> cols !! j = Some c -> p c = false in
  let hallada := App.buscar_columna_cargo App.variaciones_busqueda cols in
  ((exists col, In col cols /\ con_ambas col = true) ->
   exists i, hallada = Some i /\ primera con_ambas i) /\
  ((forall col, In col cols -> con_ambas col = false) ->
   (exists col, In col cols /\ con_cargo col = true) ->
   exists i, hallada = Some i /\ primera con_cargo i) /\
  (hallada = None <-> forall col, In col cols -> con_cargo col = false).
Proof.
  cbv zeta. unfold App.variaciones_busqueda, App.buscar_columna_cargo, App.columna_con.
  set (p1 := fun col : str =>
               forallb (fun parte => contains parte (lower col))
                 [lit "cargo"; lit "desempe"]).
  set (p2 := fun col : str =>
               forallb (fun parte => contains parte (lower col))
                 [lit "cargo"; lit "desempena"]).
  set (p3 := fun col : str =>
               forallb (fun parte => contains parte (lower col)) [lit "cargo"]).
  assert (E1 : forall col, p1 col
               = contains (lit "cargo") (lower col) && contains (lit "desempe") (lower col)).
  { intros col. unfold p1. simpl. rewrite andb_true_r. reflexivity. }
  assert (E3 : forall col, p3 col = contains (lit "cargo") (lower col)).
  { intros col. unfold p3. simpl. rewrite andb_true_r. reflexivity. }
  assert (E21 : forall col, p2 col = true -> p1 col = true).
  { intros col. unfold p1, p2. simpl. rewrite !andb_true_r, !andb_true_iff.
    intros [Ha Hb]. split; [exact Ha|].
    apply (contains_app (lit "desempe") (lit "na")). exact Hb. }
  assert (E13 : forall col, p1 col = true -> p3 col = true).
  { intros col. rewrite E1, E3, andb_true_iff. tauto. }
  assert (Hext : forall (p q : str -> bool) i,
             (forall col, p col = q col) ->
             (exists col, cols !! i = Some col /\ p col = true /\
                forall j c, (j < i)%nat -> cols !! j = Some c -> p c = false) ->
             exists col, cols !! i = Some col /\ q col = true /\
                forall j c, (j < i)%nat -> cols !! j = Some c -> q c = false).
  { intros p q i Hpq (col & Hc & Hp & Hf). exists col.
    rewrite <- Hpq. split; [exact Hc|]. split; [exact Hp|].
    intros j c Hj Hjc. rewrite <- Hpq. eauto. }
  split; [|split].
  - intros (col & Hin & Hcol).
    destruct (EgresadosPosgrados.buscar_columna p1 cols) as [i|] eqn:Ei.
    + exists i. split; [reflexivity|].
      apply (Hext p1 _ i E1). apply buscar_columna_some. exact Ei.
    + exfalso. rewrite buscar_columna_none in Ei. specialize (Ei col Hin).
      rewrite E1 in Ei. congruence.
  - intros Hno (col & Hin & Hcol).
    assert (N1 : EgresadosPosgrados.buscar_columna p1 cols = None).
    { apply buscar_columna_none. intros c Hc. rewrite E1. auto. }
    assert (N2 : EgresadosPosgrados.buscar_columna p2 cols = None).
    { apply buscar_columna_none. intros c Hc.
      destruct (p2 c) eqn:E; [|reflexivity].
      apply E21 in E. rewrite E1, (Hno c Hc) in E. discriminate. }
    rewrite N1, N2.
    destruct (EgresadosPosgrados.buscar_columna p3 cols) as [i|] eqn:Ei.
    + exists i. split; [reflexivity|].
      apply (Hext p3 _ i E3). apply buscar_columna_some. exact Ei.
    + exfalso. rewrite buscar_columna_none in Ei. specialize (Ei col Hin).
      rewrite E3 in Ei. congruence.
  - split.
    + intros H col Hin.
      destruct (EgresadosPosgrados.buscar_columna p1 cols); [discriminate|].
      destruct (EgresadosPosgrados.buscar_columna p2 cols); [discriminate|].
      destruct (EgresadosPosgrados.buscar_columna p3 cols) eqn:E3'; [discriminate|].
      rewrite buscar_columna_none in E3'. rewrite <- E3. auto.
    + intros H.
      assert (N3 : EgresadosPosgrados.buscar_columna p3 cols = None).
      { apply buscar_columna_none. intros c Hc. rewrite E3. auto. }
      assert (N1 : EgresadosPosgrados.buscar_columna p1 cols = None).
      { apply buscar_columna_none. intros c Hc.
        destruct (p1 c) eqn:E; [|reflexivity].
        apply E13 in E. rewrite E3, (H c Hc) in E. discriminate. }
      assert (N2 : EgresadosPosgrados.buscar_columna p2 cols = None).
      { apply buscar_columna_none. intros c Hc.
        destruct (p2 c) eqn:E; [|reflexivity].
        apply E21, E13 in E. rewrite E3, (H c Hc) in E. discriminate. }
      rewrite N1, N2, N3. reflexivity.
Qed.

Lemma app_mirar_filas (nombre_archivo : str) (cols : list str) (i : nat)
    (rows : list (list cell)) :
  forall acc,
    fold_left (App.mirar_fila nombre_archivo cols i) rows acc
    = acc ++ flat_map (fun row => App.mirar_fila nombre_archivo cols i [] row) rows.
Proof.
  induction rows as [|row rows IH]; intros acc; cbn [fold_left flat_map].
  - rewrite app_nil_r. reflexivity.
  - rewrite IH. unfold App.mirar_fila.
    destruct (App.es_directivo (lower (str_of (en_columna row i))));
      cbn [app]; rewrite <- ?app_assoc; reflexivity.
Qed.

(** X16.  The results of app.py are exactly the records of the rows, of the
    files that exist and could be read, whose cell in the cargo column is
    neither NaN nor empty and contains, in lower case, one of the keywords;
    each record carries the name of its file and the cargo as it is
    written. *)
Theorem app_results_are_directive_rows (archivos : list archivo) (r : App.cargo_directivo) :
  In r (App.resultados_totales (App.analizar_archivos archivos)) <->
  exists a df i row cargo,
    In a archivos /\ a_existe a = true /\ leer_encuesta a = Lectura.Bien df /\
    App.buscar_columna_cargo App.variaciones_busqueda (e_columnas df) = Some i /\
    In row (e_filas df) /\
    en_columna row i = Some cargo /\ cargo <> [] /\
    existsb (fun palabra => contains palabra (lower cargo)) App.palabras_directivas = true /\
    r = {| App.Archivo := a_nombre a;
           App.Nombre :=
             strip (str_of (row_get (e_columnas df) row (lit "NOMBRES") (Some []))
                    ++ lit " "
                    ++ str_of (row_get (e_columnas df) row (lit "APELLIDOS") (Some [])));
           App.Cargo := cargo;
           App.Programa := row_get (e_columnas df) row (lit "PROGRAMA(S)") (Some (lit "N/A"));
           App.Empresa :=
             row_get (e_columnas df) row (lit "Nombre de la empresa") (Some (lit "N/A")) |}.
Proof.
  unfold App.analizar_archivos.
  destruct (app_analizar_gen archivos (App.mkEstado [] [])) as [-> _].
  cbn [App.resultados_totales app]. rewrite in_flat_map. split.
  - intros (a & Ha & Hr). unfold App.aporte, App.cuerpo in Hr.
    destruct (a_existe a) eqn:Ex; [|destruct Hr]. cbn [negb] in Hr.
    destruct (leer_encuesta a) as [df|e] eqn:El; [|destruct Hr].
    unfold App.cargos_de in Hr.
    destruct (App.buscar_columna_cargo _ _) as [i|] eqn:Ei; [|destruct Hr].
    cbv zeta in Hr. rewrite app_mirar_filas in Hr. cbn [app] in Hr.
    apply in_flat_map in Hr. destruct Hr as (row & Hrow & Hr).
    apply filter_In in Hrow. destruct Hrow as [Hrow Hc].
    unfold App.con_cargo in Hc.
    destruct (en_columna row i) as [[|c cargo]|] eqn:Ec; try discriminate.
    unfold App.mirar_fila in Hr. rewrite Ec in Hr. cbn [str_of] in Hr.
    destruct (App.es_directivo _) eqn:Ed; [|destruct Hr].
    destruct Hr as [<-|[]].
    exists a, df, i, row, (c :: cargo). repeat split; try assumption. discriminate.
  - intros (a & df & i & row & cargo & Ha & Ex & El & Ei & Hrow & Ec & Hne & Hd & ->).
    exists a. split; [exact Ha|].
    unfold App.aporte, App.cuerpo. rewrite Ex, El. cbn [negb].
    unfold App.cargos_de. rewrite Ei. cbv zeta.
    rewrite app_mirar_filas. cbn [app]. apply in_flat_map. exists row. split.
    + apply filter_In. split; [exact Hrow|]. unfold App.con_cargo. rewrite Ec.
      destruct cargo; [contradiction|reflexivity].
    + unfold App.mirar_fila. rewrite Ec. cbn [str_of].
      unfold App.es_directivo. rewrite Hd. left. reflexivity.
Qed.

Lemma app_contar_tipo_lookup (cargo_lower : str) (tipo : str) (palabras : list str) :
  forall tipos : gmap str nat,
    default 0%nat (fold_left (App.contar_tipo cargo_lower) palabras tipos !! tipo)
    = (default 0%nat (tipos !! tipo)
       + length (List.filter
                   (fun palabra => contains palabra cargo_lower
                                   && eqb (capitalize palabra) tipo) palabras))%nat.
Proof.
  induction palabras as [|p ps IH]; intros tipos; cbn [fold_left List.filter length].
  - lia.
  - rewrite IH. unfold App.contar_tipo.
    destruct (contains p cargo_lower); cbn [andb].
    + destruct (eqb (capitalize p) tipo) eqn:E.
      * apply eqb_eq in E. subst tipo. rewrite lookup_insert_eq.
        cbn [from_option id length]. unfold id. lia.
      * apply eqb_neq in E. rewrite lookup_insert_ne by exact E. reflexivity.
    + reflexivity.
Qed.

Lemma app_tipos_cargo_lookup (tipo : str) (palabras : list str)
    (resultados : list App.cargo_directivo) :
  forall tipos : gmap str nat,
    default 0%nat
      (fold_left
         (fun tipos resultado =>
            fold_left (App.contar_tipo (lower (App.Cargo resultado))) palabras tipos)
         resultados tipos !! tipo)
    = (default 0%nat (tipos !! tipo)
       + list_sum
           (map (fun resultado =>
                   length (List.filter
                             (fun palabra =>
                                contains palabra (lower (App.Cargo resultado))
                                && eqb (capitalize palabra) tipo)
                             palabras))
              resultados))%nat.
Proof.
  induction resultados as [|r rs IH]; intros tipos.
  - cbn [fold_left map]. change (list_sum []) with 0%nat. lia.
  - cbn [fold_left map]. rewrite IH, app_contar_tipo_lookup.
    change (list_sum (?x :: ?l)) with (x + list_sum l)%nat. lia.
Qed.

Lemma list_sum_indicador {R : Type} (p : R -> bool) (l : list R) (n : nat) :
  list_sum (map (fun x => if p x then n else 0%nat) l)
  = (n * length (List.filter p l))%nat.
Proof.
  induction l as [|x l IH]; simpl; [lia|].
  rewrite IH. destruct (p x); simpl; lia.
Qed.

Lemma filter_repeat_length {R : Type} (p : R -> bool) (x : R) (n : nat) :
  length (List.filter p (repeat x n)) = if p x then n else 0%nat.
Proof.
  induction n as [|n IH]; cbn [repeat List.filter]; [destruct (p x); reflexivity|].
  destruct (p x); cbn [length]; [rewrite IH|exact IH]; reflexivity.
Qed.

(** The count of a kind of cargo, for a keyword that is [n] times in the
    list and whose capitalized form no other keyword shares. *)
Lemma app_cuenta_de_palabra (palabra : str) (n : nat)
    (resultados : list App.cargo_directivo) :
  List.filter (fun p => eqb (capitalize p) (capitalize palabra)) App.palabras_directivas
  = repeat palabra n ->
  default 0%nat (App.tipos_cargo resultados !! capitalize palabra)
  = (n * length (List.filter (fun r => contains palabra (lower (App.Cargo r)))
                   resultados))%nat.
Proof.
  intros Hp. unfold App.tipos_cargo.
  rewrite app_tipos_cargo_lookup, lookup_empty.
  change (default 0%nat (@None nat)) with 0%nat. rewrite Nat.add_0_l.
  rewrite <- list_sum_indicador. f_equal. apply map_ext. intros r.
  rewrite <- (filter_repeat_length
                (fun p => contains p (lower (App.Cargo r))) palabra n).
  rewrite <- Hp, filter_filter_andb. f_equal.
  apply List.filter_ext. intros p. apply andb_comm.
Qed.

(** X17.  The distribution by kind of cargo that app.py prints counts, under
    the capitalized keyword, the results whose cargo contains the keyword in
    lower case; the keyword 'lider' is twice in the list, so 'Lider' counts
    each of its results twice.  A kind that no result has is not in the
    dictionary (the count read with the default 0). *)
Theorem app_kinds_of_cargo_counts (resultados : list App.cargo_directivo) :
  let cuenta := fun tipo : str =>
    default 0%nat (App.tipos_cargo resultados !! tipo) in
  let con := fun palabra : str =>
    length (List.filter (fun r => contains palabra (lower (App.Cargo r))) resultados) in
  (forall palabra, In palabra App.palabras_directivas -> palabra <> lit "lider" ->
                   cuenta (capitalize palabra) = con palabra) /\
  cuenta (lit "Lider") = (2 * con (lit "lider"))%nat.
Proof.
  cbv zeta. split.
  - intros palabra Hin Hne.
    rewrite (app_cuenta_de_palabra palabra 1); [apply Nat.mul_1_l|].
    unfold App.palabras_directivas in Hin. cbn [In] in Hin.
    repeat (destruct Hin as [<-|Hin];
            [first [exfalso; apply Hne; reflexivity|vm_compute; reflexivity]|]).
    destruct Hin.
  - change (lit "Lider") with (capitalize (lit "lider")).
    apply (app_cuenta_de_palabra (lit "lider") 2). vm_compute. reflexivity.
Qed.

(** ** programas.py: unique records and statistics *)

Lemma extraer_año_en_rango (programa_str : cell) (e : programa_info) :
  In e (extraer_programas_y_fechas programa_str) -> 2021 <= año e <= 2025.
Proof.
  destruct programa_str as [s|]; [|intros []].
  destruct (decide (s = [])) as [->|Hs]; [intros []|].
  rewrite (extraer_omap s Hs). intros H.
  apply list_elem_of_In, list_elem_of_omap in H. destruct H as (parte & _ & H).
  apply (info_de_parte_some parte e H).
Qed.

(** What the body of the inner loop does: nothing for a key that was seen,
    and otherwise one more record, key and count. *)
Lemma ap_paso_programa_casos (cols : list str) (row : list cell)
    (st : AnalisisProgramas.estado) (info : programa_info) :
  let st' := AnalisisProgramas.paso_programa cols row st info in
  let nombre := row_get cols row (lit "Nombre") (Some []) in
  let clave := AnalisisProgramas.clave_unica nombre (programa info) (año info) in
  ((clave ∈ AnalisisProgramas.registros_unicos st) /\ st' = st) \/
  ((clave ∉ AnalisisProgramas.registros_unicos st) /\
   exists r,
     AnalisisProgramas.resultados_detallados st'
       = AnalisisProgramas.resultados_detallados st ++ [r] /\
     AnalisisProgramas.clave_de r = clave /\
     AnalisisProgramas.Nombre r = nombre /\
     AnalisisProgramas.Programa r = programa info /\
     AnalisisProgramas.Año_Grado r = año info /\
     AnalisisProgramas.Fecha_Grado r = fecha_completa info /\
     AnalisisProgramas.Tipo_Programa r = TotalXAno.tipo_de_programa (programa info) /\
     AnalisisProgramas.registros_unicos st'
       = AnalisisProgramas.registros_unicos st ∪ {[ clave ]} /\
     AnalisisProgramas.registros_procesados st'
       = S (AnalisisProgramas.registros_procesados st) /\
     AnalisisProgramas.estadisticas_año st'
       = match AnalisisProgramas.estadisticas_año st !! año info with
         | Some n => <[año info := (n + 1)%nat]> (AnalisisProgramas.estadisticas_año st)
         | None => AnalisisProgramas.estadisticas_año st
         end /\
     AnalisisProgramas.estadisticas_programa st'
       = <[programa info :=
             (default 0%nat (AnalisisProgramas.estadisticas_programa st !! programa info)
              + 1)%nat]> (AnalisisProgramas.estadisticas_programa st)).
Proof.
  cbv zeta. unfold AnalisisProgramas.paso_programa.
  destruct (bool_decide_reflect
              (AnalisisProgramas.clave_unica (row_get cols row (lit "Nombre") (Some []))
                 (programa info) (año info)
               ∈ AnalisisProgramas.registros_unicos st)) as [Hin|Hnin].
  - left. split; [exact Hin|reflexivity].
  - right. split; [exact Hnin|]. eexists.
    cbn [AnalisisProgramas.resultados_detallados AnalisisProgramas.registros_unicos
         AnalisisProgramas.registros_procesados AnalisisProgramas.estadisticas_año
         AnalisisProgramas.estadisticas_programa].
    split; [reflexivity|]. repeat split.
Qed.

(** The keys, the counter and the statistics describe the records. *)
Lemma ap_invariante (df : encuesta) :
  let st := fold_left (AnalisisProgramas.paso_fila (e_columnas df)) (e_filas df)
              AnalisisProgramas.estado_inicial in
  let rs := AnalisisProgramas.resultados_detallados st in
  NoDup (map AnalisisProgramas.clave_de rs) /\
  (forall k, k ∈ AnalisisProgramas.registros_unicos st
             <-> In k (map AnalisisProgramas.clave_de rs)) /\
  AnalisisProgramas.registros_procesados st = length rs /\
  (forall r, In r rs ->
     2021 <= AnalisisProgramas.Año_Grado r <= 2025 /\
     AnalisisProgramas.Tipo_Programa r
       = TotalXAno.tipo_de_programa (AnalisisProgramas.Programa r)) /\
  (forall a, AnalisisProgramas.estadisticas_año st !! a
             = if (2021 <=? a) && (a <=? 2025)
               then Some (length (List.filter
                                    (fun r => AnalisisProgramas.Año_Grado r =? a) rs))
               else None) /\
  (forall p, default 0%nat (AnalisisProgramas.estadisticas_programa st !! p)
             = length (List.filter (fun r => eqb (AnalisisProgramas.Programa r) p) rs)).
Proof.
  cbv zeta.
  apply (fold_left_inv (AnalisisProgramas.paso_fila (e_columnas df))
           (fun st =>
              NoDup (map AnalisisProgramas.clave_de
                       (AnalisisProgramas.resultados_detallados st)) /\
              (forall k, k ∈ AnalisisProgramas.registros_unicos st
                         <-> In k (map AnalisisProgramas.clave_de
                                     (AnalisisProgramas.resultados_detallados st))) /\
              AnalisisProgramas.registros_procesados st
                = length (AnalisisProgramas.resultados_detallados st) /\
              (forall r, In r (AnalisisProgramas.resultados_detallados st) ->
                 2021 <= AnalisisProgramas.Año_Grado r <= 2025 /\
                 AnalisisProgramas.Tipo_Programa r
                   = TotalXAno.tipo_de_programa (AnalisisProgramas.Programa r)) /\
              (forall a, AnalisisProgramas.estadisticas_año st !! a
                         = if (2021 <=? a) && (a <=? 2025)
                           then Some (length (List.filter
                                                (fun r => AnalisisProgramas.Año_Grado r =? a)
                                                (AnalisisProgramas.resultados_detallados st)))
                           else None) /\
              (forall p, default 0%nat (AnalisisProgramas.estadisticas_programa st !! p)
                         = length (List.filter
                                     (fun r => eqb (AnalisisProgramas.Programa r) p)
                                     (AnalisisProgramas.resultados_detallados st))))).
  - cbn [AnalisisProgramas.estado_inicial AnalisisProgramas.resultados_detallados
         AnalisisProgramas.registros_unicos AnalisisProgramas.registros_procesados
         AnalisisProgramas.estadisticas_año AnalisisProgramas.estadisticas_programa
         map List.filter length].
    split; [constructor|]. split.
    { intros k. split; [intros H; apply not_elem_of_empty in H; destruct H|intros []]. }
    split; [reflexivity|]. split; [intros r []|]. split.
    + intros a. unfold AnalisisProgramas.estadisticas_año_inicial.
      destruct ((2021 <=? a) && (a <=? 2025)) eqn:E.
      * apply andb_true_iff in E. destruct E as [E1 E2].
        apply Z.leb_le in E1. apply Z.leb_le in E2.
        assert (Ha : a = 2021 \/ a = 2022 \/ a = 2023 \/ a = 2024 \/ a = 2025) by lia.
        destruct Ha as [->|[->|[->|[->| ->]]]]; reflexivity.
      * apply andb_false_iff in E.
        rewrite !lookup_insert_ne, lookup_empty; [reflexivity|..];
          intros <-; destruct E as [E|E]; discriminate.
    + intros p. rewrite lookup_empty. reflexivity.
  - intros st row Hst _. unfold AnalisisProgramas.paso_fila.
    apply (fold_left_inv (AnalisisProgramas.paso_programa (e_columnas df) row)); [exact Hst|].
    clear st Hst. intros st info (Hnd & Hk & Hn & Hr & Ha & Hp) Hinfo.
    apply extraer_año_en_rango in Hinfo.
    destruct (ap_paso_programa_casos (e_columnas df) row st info)
      as [[_ ->]|(Hnin & r & Hres & Hcl & _ & Hprog & Haño & _ & Htipo & Hset & Hcnt & Hea & Hep)];
      [auto 10|].
    rewrite Hres, Hset, Hcnt, Hea, Hep, map_app. cbn [map].
    split; [|split; [|split; [|split; [|split]]]].
    + apply NoDup_app. split; [exact Hnd|]. split; [|apply NoDup_singleton].
      intros k Hk1 Hk2. apply list_elem_of_singleton in Hk2. subst k.
      apply Hnin. apply Hk. rewrite <- Hcl. apply list_elem_of_In. exact Hk1.
    + intros k. rewrite elem_of_union, elem_of_singleton, in_app_iff, Hk, Hcl.
      cbn [In]. intuition auto.
    + rewrite length_app, Hn. cbn [length]. lia.
    + intros r' Hr'. apply in_app_or in Hr'. destruct Hr' as [Hr'|[<-|[]]]; [auto|].
      rewrite Haño, Htipo, Hprog. auto.
    + intros a. rewrite List.filter_app, length_app. cbn [List.filter]. rewrite Haño.
      rewrite (Ha (año info)).
      assert (Er : (2021 <=? año info) && (año info <=? 2025) = true).
      { apply andb_true_iff. split; apply Z.leb_le; lia. }
      rewrite Er. destruct (año info =? a) eqn:Eq.
      * apply Z.eqb_eq in Eq. subst a. rewrite lookup_insert_eq, Er.
        cbn [length]. reflexivity.
      * apply Z.eqb_neq in Eq. rewrite lookup_insert_ne by exact Eq. rewrite Ha.
        cbn [length]. rewrite Nat.add_0_r. reflexivity.
    + intros p. rewrite List.filter_app, length_app. cbn [List.filter]. rewrite Hprog.
      destruct (eqb (programa info) p) eqn:Eq.
      * apply eqb_eq in Eq. subst p. rewrite lookup_insert_eq.
        cbn [from_option id length]. unfold id. rewrite Hp. reflexivity.
      * apply eqb_neq in Eq. rewrite lookup_insert_ne by exact Eq. rewrite Hp.
        cbn [length]. rewrite Nat.add_0_r. reflexivity.
Qed.

Lemma ap_paso_programa_claves (cols : list str) (row : list cell)
    (st : AnalisisProgramas.estado) (info : programa_info) :
  let st' := AnalisisProgramas.paso_programa cols row st info in
  AnalisisProgramas.clave_unica (row_get cols row (lit "Nombre") (Some []))
    (programa info) (año info) ∈ AnalisisProgramas.registros_unicos st' /\
  AnalisisProgramas.registros_unicos st ⊆ AnalisisProgramas.registros_unicos st'.
Proof.
  destruct (ap_paso_programa_casos cols row st info)
    as [[Hin ->]|(_ & r & _ & _ & _ & _ & _ & _ & _ & Hset & _)].
  - split; [exact Hin|reflexivity].
  - cbv zeta. rewrite Hset. split.
    + apply elem_of_union. right. apply elem_of_singleton. reflexivity.
    + apply union_subseteq_l.
Qed.

Lemma ap_paso_fila_claves (cols : list str) (row : list cell) (infos : list programa_info) :
  forall st : AnalisisProgramas.estado,
    let st' := fold_left (AnalisisProgramas.paso_programa cols row) infos st in
    AnalisisProgramas.registros_unicos st ⊆ AnalisisProgramas.registros_unicos st' /\
    forall info, In info infos ->
      AnalisisProgramas.clave_unica (row_get cols row (lit "Nombre") (Some []))
        (programa info) (año info) ∈ AnalisisProgramas.registros_unicos st'.
Proof.
  induction infos as [|x infos IH]; intros st; cbv zeta; cbn [fold_left].
  - split; [reflexivity|intros info []].
  - destruct (IH (AnalisisProgramas.paso_programa cols row st x)) as [IH1 IH2].
    destruct (ap_paso_programa_claves cols row st x) as [Hx Hsub].
    split; [etransitivity; [exact Hsub|exact IH1]|].
    intros info [<-|Hin]; [apply IH1; exact Hx|apply IH2; exact Hin].
Qed.

Lemma ap_filas_claves (cols : list str) (rows : list (list cell)) :
  forall st : AnalisisProgramas.estado,
    let st' := fold_left (AnalisisProgramas.paso_fila cols) rows st in
    AnalisisProgramas.registros_unicos st ⊆ AnalisisProgramas.registros_unicos st' /\
    forall row info, In row rows ->
      In info (extraer_programas_y_fechas (row_get cols row (lit "Programa") (Some []))) ->
      AnalisisProgramas.clave_unica (row_get cols row (lit "Nombre") (Some []))
        (programa info) (año info) ∈ AnalisisProgramas.registros_unicos st'.
Proof.
  induction rows as [|x rows IH]; intros st; cbv zeta; cbn [fold_left].
  - split; [reflexivity|intros row info []].
  - destruct (IH (AnalisisProgramas.paso_fila cols st x)) as [IH1 IH2].
    unfold AnalisisProgramas.paso_fila in IH1 at 1.
    destruct (ap_paso_fila_claves cols x
                (extraer_programas_y_fechas (row_get cols x (lit "Programa") (Some []))) st)
      as [Hsub Hx].
    split; [etransitivity; [exact Hsub|exact IH1]|].
    intros row info [<-|Hin] Hinfo; [|apply IH2; assumption].
    apply IH1. unfold AnalisisProgramas.paso_fila. apply Hx. exact Hinfo.
Qed.

(** X18.  The analysis of programas.py keeps one record per key of name,
    program and year of graduation: no two records have the same key, every
    program entry of every row of the frame is represented by a record with
    its key, the counter of processed records is the number of records, and
    every record has a year of graduation from 2021 to 2025 and the kind of
    program that its program name gives. *)
Theorem programas_one_record_per_key (df : encuesta) (st : AnalisisProgramas.estado) :
  AnalisisProgramas.analizar df = Some st ->
  let rs := AnalisisProgramas.resultados_detallados st in
  NoDup (map AnalisisProgramas.clave_de rs) /\
  (forall row info,
     In row (e_filas df) ->
     In info (extraer_programas_y_fechas
                (row_get (e_columnas df) row (lit "Programa") (Some []))) ->
     exists r, In r rs /\
       AnalisisProgramas.clave_de r
       = AnalisisProgramas.clave_unica
           (row_get (e_columnas df) row (lit "Nombre") (Some []))
           (programa info) (año info)) /\
  AnalisisProgramas.registros_procesados st = length rs /\
  (forall r, In r rs ->
     2021 <= AnalisisProgramas.Año_Grado r <= 2025 /\
     AnalisisProgramas.Tipo_Programa r
       = TotalXAno.tipo_de_programa (AnalisisProgramas.Programa r)).
Proof.
  unfold AnalisisProgramas.analizar.
  destruct (indice (lit "Programa") (e_columnas df)); [|discriminate].
  intros [= <-]. cbv zeta.
  destruct (ap_invariante df) as (Hnd & Hk & Hn & Hr & _ & _).
  split; [exact Hnd|]. split; [|split; [exact Hn|exact Hr]].
  intros row info Hrow Hinfo.
  destruct (ap_filas_claves (e_columnas df) (e_filas df) AnalisisProgramas.estado_inicial)
    as [_ Hc].
  specialize (Hc row info Hrow Hinfo). apply Hk in Hc.
  apply in_map_iff in Hc. destruct Hc as (r & Hcl & Hin). exists r. auto.
Qed.

(** X19.  The statistics of programas.py count the records: the entry of a
    year from 2021 to 2025 is the number of records with that year of
    graduation, no other year has an entry, the entry of a program is the
    number of records of that program, and the five yearly counts add up to
    the number of records. *)
Theorem programas_statistics_count_records (df : encuesta) (st : AnalisisProgramas.estado) :
  AnalisisProgramas.analizar df = Some st ->
  let rs := AnalisisProgramas.resultados_detallados st in
  (forall a, 2021 <= a <= 2025 ->
     AnalisisProgramas.estadisticas_año st !! a
     = Some (length (List.filter (fun r => AnalisisProgramas.Año_Grado r =? a) rs))) /\
  (forall a, ~ (2021 <= a <= 2025) -> AnalisisProgramas.estadisticas_año st !! a = None) /\
  (forall p, default 0%nat (AnalisisProgramas.estadisticas_programa st !! p)
             = length (List.filter (fun r => eqb (AnalisisProgramas.Programa r) p) rs)) /\
  list_sum (map (fun a => default 0%nat (AnalisisProgramas.estadisticas_año st !! a))
              [2021; 2022; 2023; 2024; 2025])
  = length rs.
Proof.
  unfold AnalisisProgramas.analizar.
  destruct (indice (lit "Programa") (e_columnas df)); [|discriminate].
  intros [= <-]. cbv zeta.
  destruct (ap_invariante df) as (_ & _ & _ & Hr & Ha & Hp).
  split; [|split; [|split; [exact Hp|]]].
  - intros a Hrange. rewrite Ha.
    assert (E : (2021 <=? a) && (a <=? 2025) = true).
    { apply andb_true_iff. split; apply Z.leb_le; lia. }
    rewrite E. reflexivity.
  - intros a Hrange. rewrite Ha.
    destruct ((2021 <=? a) && (a <=? 2025)) eqn:E; [|reflexivity].
    exfalso. apply Hrange. apply andb_true_iff in E. destruct E as [E1 E2].
    apply Z.leb_le in E1. apply Z.leb_le in E2. lia.
  - transitivity
      (list_sum
         (map (fun a =>
                 length (List.filter
                           (fun r => AnalisisProgramas.Año_Grado r =? a)
                           (AnalisisProgramas.resultados_detallados
                              (fold_left (AnalisisProgramas.paso_fila (e_columnas df))
                                 (e_filas df) AnalisisProgramas.estado_inicial))))
            [2021; 2022; 2023; 2024; 2025])).
    + cbn [map]. rewrite !Ha. reflexivity.
    + rewrite (suma_de_grupos
                 (fun a (r : AnalisisProgramas.resultado) =>
                    AnalisisProgramas.Año_Grado r =? a)).
      * rewrite filter_todos; [reflexivity|].
        intros r Hin. destruct (Hr r Hin) as [Hrange _].
        apply existsb_exists. exists (AnalisisProgramas.Año_Grado r).
        split; [|apply Z.eqb_refl]. cbn [In]. lia.
      * intros r k k' _ _ H1 H2. apply Z.eqb_eq in H1. apply Z.eqb_eq in H2. congruence.
      * apply (bool_decide_unpack (NoDup [2021; 2022; 2023; 2024; 2025])).
        vm_compute. exact I.
Qed.

Lemma programas_one_record_per_key_witness :
  exists st,
    AnalisisProgramas.analizar AnalisisProgramas.df_ejemplo = Some st /\
    AnalisisProgramas.resultados_detallados st = [AnalisisProgramas.resultado_ana] /\
    NoDup (map AnalisisProgramas.clave_de (AnalisisProgramas.resultados_detallados st)) /\
    AnalisisProgramas.registros_procesados st
      = length (AnalisisProgramas.resultados_detallados st).
Proof.
  eexists. split; [reflexivity|]. split; [vm_compute; reflexivity|].
  pose proof (programas_one_record_per_key AnalisisProgramas.df_ejemplo _ eq_refl)
    as (H1 & _ & H3 & _).
  split; [exact H1|exact H3].
Defined.

Lemma programas_statistics_count_records_witness :
  exists st,
    AnalisisProgramas.analizar AnalisisProgramas.df_ejemplo = Some st /\
    AnalisisProgramas.estadisticas_año st !! 2022 = Some 1%nat /\
    list_sum (map (fun a => default 0%nat (AnalisisProgramas.estadisticas_año st !! a))
                [2021; 2022; 2023; 2024; 2025])
    = length (AnalisisProgramas.resultados_detallados st).
Proof.
  eexists. split; [reflexivity|]. split; [vm_compute; reflexivity|].
  exact (proj2 (proj2 (proj2
           (programas_statistics_count_records AnalisisProgramas.df_ejemplo _ eq_refl)))).
Defined.

(** ** totalxano.py: what every record of the results carries *)

Lemma tx_registro_de_campos (to_datetime : str -> marca) (nombre_archivo : str)
    (c : columnas) (row : list cell) (info : programa_info) :
  let r := snd (registro_de to_datetime nombre_archivo c row info) in
  Archivo r = nombre_archivo /\
  Año_Grado r = año info /\
  Programa r = programa info /\
  Fecha_Grado r = fecha_completa info /\
  Tipo_Programa r = tipo_de_programa (Programa r) /\
  (Nombre r = [] -> Documento r = []).
Proof.
  cbv zeta. unfold registro_de.
  cbn [snd Archivo Año_Grado Programa Fecha_Grado Tipo_Programa Nombre Documento].
  repeat split.
  destruct (eqb (strip (texto_de row (columna_nombres c) ++ lit " "
                        ++ texto_de row (columna_apellidos c))) []) eqn:E1;
    cbn [andb].
  - destruct (eqb (texto_de row (columna_documento c)) []) eqn:E2; cbn [negb].
    + intros _. apply eqb_eq in E2. exact E2.
    + discriminate.
  - intros H. apply eqb_neq in E1. contradiction.
Qed.

Lemma tx_invariante_registros (R : registro -> Prop) (to_datetime : str -> marca)
    (archivos : list archivo) :
  (forall nombre_archivo c row p info,
      In info (extraer_programas_y_fechas (en_columna row p)) ->
      R (snd (registro_de to_datetime nombre_archivo c row info))) ->
  forall st,
    Forall (fun x => R (snd x)) (registros_unicos st) ->
    Forall (fun x => R (snd x))
      (registros_unicos (fold_left (paso_archivo to_datetime) archivos st)).
Proof.
  intros HR. induction archivos as [|a l IH]; intros st Hst; cbn [fold_left]; [exact Hst|].
  apply IH. unfold paso_archivo.
  destruct (negb (a_existe a)); [exact Hst|].
  destruct (leer_encuesta a) as [df|e]; [|exact Hst].
  assert (H : Forall (fun x => R (snd x))
                (fst (procesar_encuesta to_datetime (a_nombre a) df (registros_unicos st)))).
  { unfold procesar_encuesta.
    destruct (columna_programa (buscar_columnas (e_columnas df))) as [p|]; [|exact Hst].
    apply (iterar_inv (fun d => Forall (fun x => R (snd x)) d)); [|exact Hst].
    intros d row _ Hd. unfold paso_fila.
    apply (iterar_inv (fun d => Forall (fun x => R (snd x)) d)); [|exact Hd].
    intros d0 info Hinfo Hd0.
    pose proof (HR (a_nombre a) (buscar_columnas (e_columnas df)) row p info Hinfo) as Hr.
    destruct (registro_de to_datetime (a_nombre a) (buscar_columnas (e_columnas df))
                row info) as [k r].
    apply List.Forall_forall. intros x Hx. apply guardar_in in Hx.
    destruct Hx as [->|Hx]; [exact Hr|].
    rewrite List.Forall_forall in Hd0. apply Hd0. exact Hx. }
  destruct (procesar_encuesta _ _ _ _) as [d [e|]]; exact H.
Qed.

(** X20.  Every record of the results of totalxano.py has a year of
    graduation from 2021 to 2025, the kind of program that its program name
    gives, and a name that is empty only when its document number is empty
    too (a graduate without a name is named after the document). *)
Theorem totalxano_record_fields (to_datetime : str -> marca) (archivos : list archivo)
    (r : registro) :
  In r (resultados_detallados (analizar_archivos to_datetime archivos)) ->
  2021 <= Año_Grado r <= 2025 /\
  Tipo_Programa r = tipo_de_programa (Programa r) /\
  (Nombre r = [] -> Documento r = []).
Proof.
  unfold resultados_detallados, analizar_archivos. intros H.
  apply in_map_iff in H. destruct H as ([k r'] & <- & Hin).
  pose proof (tx_invariante_registros
                (fun r => 2021 <= Año_Grado r <= 2025 /\
                          Tipo_Programa r = tipo_de_programa (Programa r) /\
                          (Nombre r = [] -> Documento r = []))
                to_datetime archivos) as Hinv.
  cbv beta in Hinv.
  assert (Hall : Forall
                   (fun x : str * registro =>
                      2021 <= Año_Grado (snd x) <= 2025 /\
                      Tipo_Programa (snd x) = tipo_de_programa (Programa (snd x)) /\
                      (Nombre (snd x) = [] -> Documento (snd x) = []))
                   (registros_unicos
                      (fold_left (paso_archivo to_datetime) archivos (mkEstado [] [])))).
  { apply Hinv; [|constructor].
    intros nombre_archivo c row p info Hinfo.
    destruct (tx_registro_de_campos to_datetime nombre_archivo c row info)
      as (_ & Ha & _ & _ & Ht & Hn).
    split; [rewrite Ha; exact (extraer_año_en_rango _ _ Hinfo)|].
    split; [exact Ht|exact Hn]. }
  rewrite List.Forall_forall in Hall. exact (Hall (k, r') Hin).
Qed.

Lemma totalxano_record_fields_witness :
  let r := registro_ana "2021-2025(M0).csv" (Marca false 20230501) in
  In r (resultados_detallados (analizar_archivos to_datetime_ejemplo [archivo_mo])) /\
  2021 <= Año_Grado r <= 2025.
Proof.
  assert (H : In (registro_ana "2021-2025(M0).csv" (Marca false 20230501))
                (resultados_detallados
                   (analizar_archivos to_datetime_ejemplo [archivo_mo]))).
  { vm_compute. left. reflexivity. }
  split; [exact H|].
  exact (proj1 (totalxano_record_fields _ _ _ H)).
Defined.

(** ** The line of the header of a survey file *)

(** X21.  The survey files of app.py and totalxano.py are read from the
    first line that contains both 'DOCUMENTO' and 'NOMBRES', and from the
    first line of the file when no line does. *)
Theorem survey_read_from_first_header_line (a : archivo) (lines : list str) :
  snd (Lectura.con_respaldo_unicode (a_lineas a)) = Lectura.Bien lines ->
  let es_header := fun line : str =>
    contains (lit "DOCUMENTO") line && contains (lit "NOMBRES") line in
  exists header_line,
    leer_encuesta a
    = snd (Lectura.con_respaldo_unicode (fun c => a_csv a c header_line)) /\
    ((exists line, lines !! header_line = Some line /\ es_header line = true /\
        forall j l, (j < header_line)%nat -> lines !! j = Some l -> es_header l = false) \/
     (header_line = 0%nat /\ forall l, In l lines -> es_header l = false)).
Proof.
  intros Hl. cbv zeta. unfold leer_encuesta. rewrite Hl.
  assert (Hb : forall ls : list str,
            match buscar_header ls with
            | Some i =>
                exists line, ls !! i = Some line /\
                  contains (lit "DOCUMENTO") line && contains (lit "NOMBRES") line = true /\
                  forall j l, (j < i)%nat -> ls !! j = Some l ->
                    contains (lit "DOCUMENTO") l && contains (lit "NOMBRES") l = false
            | None =>
                forall l, In l ls ->
                  contains (lit "DOCUMENTO") l && contains (lit "NOMBRES") l = false
            end).
  { induction ls as [|x ls IH]; cbn [buscar_header]; [intros l []|].
    destruct (contains (lit "DOCUMENTO") x && contains (lit "NOMBRES") x) eqn:E.
    - exists x. split; [reflexivity|]. split; [exact E|]. intros j l Hj. lia.
    - destruct (buscar_header ls) as [i|]; cbn [fmap option_fmap option_map].
      + destruct IH as (line & H1 & H2 & H3). exists line.
        split; [exact H1|]. split; [exact H2|].
        intros [|j] l Hj; cbn [lookup list_lookup]; [intros [= <-]; exact E|].
        apply H3. lia.
      + intros l [<-|Hin]; [exact E|apply IH; exact Hin]. }
  specialize (Hb lines).
  destruct (buscar_header lines) as [i|]; cbn [from_option id].
  - exists i. split; [reflexivity|]. left. exact Hb.
  - exists 0%nat. split; [reflexivity|]. right. split; [reflexivity|exact Hb].
Qed.

Lemma survey_read_from_first_header_line_witness :
  let a := App.archivo_repetido in
  let lines := [lit "No;DOCUMENTO;NOMBRES;APELLIDOS;PROGRAMA(S);Cargo que desempena"] in
  let es_header := fun line : str =>
    contains (lit "DOCUMENTO") line && contains (lit "NOMBRES") line in
  exists header_line,
    leer_encuesta a
    = snd (Lectura.con_respaldo_unicode (fun c => a_csv a c header_line)) /\
    ((exists line, lines !! header_line = Some line /\ es_header line = true /\
        forall j l, (j < header_line)%nat -> lines !! j = Some l -> es_header l = false) \/
     (header_line = 0%nat /\ forall l, In l lines -> es_header l = false)).
Proof.
  exact (survey_read_from_first_header_line App.archivo_repetido
           [lit "No;DOCUMENTO;NOMBRES;APELLIDOS;PROGRAMA(S);Cargo que desempena"]
           eq_refl).
Defined.
